(** * MBC tracker: assessment lifecycle, scheduling and compliance

    A shallow embedding of the scheduling service ([lib/scheduling.ts]),
    the scoring functions ([lib/scoring.ts]), the audit service
    ([lib/audit.ts]) and the route handlers that move a measure instance
    through its lifecycle ([api/q/[token]], [api/notifications/send],
    [api/compliance]), together with the properties the specification
    states about them.

    The cron routes ([api/cron/generate-instances],
    [api/cron/send-notifications]), the route protection
    ([middleware.ts]) and the session helper of [lib/auth.ts] are embedded
    as well; the last part of the development proves further properties
    of all of these, read off the code.

    Conventions of the embedding:
    - a JavaScript [Date] is its millisecond timestamp, an integer;
    - every [new Date()] evaluated while one request is served yields the
      same instant [now], which the request receives as an argument;
    - Prisma rows are records, tables are lists in insertion order, and
      the generated [cuid()] keys and tokens are drawn from a counter;
    - a query that names no order yields its rows in the order of the
      table; the database promises none, and no property stated here of
      such a query depends on the order unless it says so;
    - a database write can fail: a fault plan decides which write throws;
    - JavaScript exceptions are the [Throw] case of [Result];
    - instants, counts and scores are integers; the compliance rate is
      computed, as the route computes it, in binary64 floating point;
    - an answer's [value] is an integer: the handlers pass on whatever
      the JSON body holds, and answers whose value is fractional, null or
      not a number are outside the embedding. *)

From Stdlib Require Import ZArith List String Ascii Bool Lia.
From Stdlib Require Import QArith DecimalString.
From Stdlib Require Import Sorted Permutation.
From Stdlib Require Import Floats.PrimFloat.
Import ListNotations.

Open Scope string_scope.
Open Scope Z_scope.

(* ================================================================== *)
(** ** Exceptions *)

Inductive Result (A : Type) : Type :=
| Ok (a : A)
| Throw (message : string).

Arguments Ok {A} a.
Arguments Throw {A} message.

(** Template-literal rendering of an integer: [`${n}`]. *)
Definition showZ (n : Z) : string := NilZero.string_of_int (Z.to_int n).

(* ================================================================== *)
(** ** Dates *)

Definition Date := Z.

Definition MS_PER_DAY : Z := 1000 * 60 * 60 * 24.

(** [d.setDate(d.getDate() + n)]: the calendar day moves by [n] and the
    wall-clock time is kept; on a server clock without daylight-saving
    shifts this is [n] times 86 400 000 ms. *)
Definition addDays (d : Date) (n : Z) : Date := d + n * MS_PER_DAY.

(* ================================================================== *)
(** ** Scoring ([lib/scoring.ts]) *)

Module Scoring.

Record Answer := { questionNum : Z; value : Z }.

Record SeverityBand := { label : string; minScore : Z; maxScore : Z }.

Record ScoringResult := {
  totalScore : Z;
  severityBand : string;
  maxPossibleScore : Z;
  answeredQuestions : Z
}.

Definition band (l : string) (lo hi : Z) : SeverityBand :=
  {| label := l; minScore := lo; maxScore := hi |}.

Definition PHQ9_SEVERITY_BANDS : list SeverityBand :=
  [ band "minimal" 0 4; band "mild" 5 9; band "moderate" 10 14;
    band "moderately_severe" 15 19; band "severe" 20 27 ].

Definition PHQ9_QUESTION_COUNT : Z := 9.

Definition GAD7_SEVERITY_BANDS : list SeverityBand :=
  [ band "minimal" 0 4; band "mild" 5 9; band "moderate" 10 14;
    band "severe" 15 21 ].

Definition GAD7_QUESTION_COUNT : Z := 7.

(** [bands.find(b => score >= b.minScore && score <= b.maxScore)] *)
Definition getSeverityBand (score : Z) (bands : list SeverityBand)
  : Result string :=
  match find (fun b => (minScore b <=? score) && (score <=? maxScore b))
          bands with
  | Some b => Ok (label b)
  | None =>
      Throw ("Score " ++ showZ score
               ++ " does not fall within any severity band")
  end.

(** The [reduce] of [scoreAssessment]: the callback throws on the first
    answer whose value is below 0 or above 3. *)
Fixpoint sumAnswers (answers : list Answer) (sum : Z) : Result Z :=
  match answers with
  | [] => Ok sum
  | answer :: rest =>
      if (value answer <? 0) || (value answer >? 3)
      then Throw ("Invalid answer value: " ++ showZ (value answer)
                    ++ ". Must be 0-3.")
      else sumAnswers rest (sum + value answer)
  end.

Definition scoreAssessment (answers : list Answer)
    (severityBands : list SeverityBand) (expectedQuestionCount : Z)
  : Result ScoringResult :=
  match answers with
  | [] => Throw "No answers provided"
  | _ =>
      match sumAnswers answers 0 with
      | Throw m => Throw m
      | Ok total =>
          match getSeverityBand total severityBands with
          | Throw m => Throw m
          | Ok bandLabel =>
              Ok {| totalScore := total;
                    severityBand := bandLabel;
                    maxPossibleScore := expectedQuestionCount * 3;
                    answeredQuestions := Z.of_nat (List.length answers) |}
          end
      end
  end.

Definition scorePHQ9 (answers : list Answer) : Result ScoringResult :=
  scoreAssessment answers PHQ9_SEVERITY_BANDS PHQ9_QUESTION_COUNT.

Definition scoreGAD7 (answers : list Answer) : Result ScoringResult :=
  scoreAssessment answers GAD7_SEVERITY_BANDS GAD7_QUESTION_COUNT.

(** [String.prototype.toUpperCase] on the ASCII letters. *)
Definition upperAscii (c : ascii) : ascii :=
  let n := nat_of_ascii c in
  if (Nat.leb 97 n && Nat.leb n 122)%bool then ascii_of_nat (n - 32) else c.

Fixpoint toUpperCase (s : string) : string :=
  match s with
  | EmptyString => EmptyString
  | String c rest => String (upperAscii c) (toUpperCase rest)
  end.

Definition scoreMeasure (measureName : string) (answers : list Answer)
  : Result ScoringResult :=
  let name := toUpperCase measureName in
  if String.eqb name "PHQ-9" then scorePHQ9 answers
  else if String.eqb name "GAD-7" then scoreGAD7 answers
  else Throw ("Unknown measure: " ++ measureName).

End Scoring.


(* ================================================================== *)
(** ** Data model (the Prisma rows the handlers read and write)

    [schema.prisma] is not among the sources; each row type lists the
    fields the services, the handlers and the test factories read and
    write. *)

(** Keys and access tokens are [cuid()] strings. *)
Definition Cuid := string.

Definition cuid (n : nat) : Cuid := "c" ++ showZ (Z.of_nat n).

(** Modelled from the spec: the [MeasureInstanceStatus] enum of the
    Prisma schema, with the six lifecycle states the specification lists;
    the services and handlers name every one of them. *)
Inductive MeasureInstanceStatus :=
| PENDING | SENT | STARTED | COMPLETED | EXPIRED | CANCELLED.

Definition status_eqb (a b : MeasureInstanceStatus) : bool :=
  match a, b with
  | PENDING, PENDING | SENT, SENT | STARTED, STARTED
  | COMPLETED, COMPLETED | EXPIRED, EXPIRED | CANCELLED, CANCELLED => true
  | _, _ => false
  end.

(** [status: { in: [...] }] *)
Definition statusIn (s : MeasureInstanceStatus)
    (l : list MeasureInstanceStatus) : bool :=
  existsb (status_eqb s) l.

Definition showStatus (s : MeasureInstanceStatus) : string :=
  match s with
  | PENDING => "PENDING" | SENT => "SENT" | STARTED => "STARTED"
  | COMPLETED => "COMPLETED" | EXPIRED => "EXPIRED"
  | CANCELLED => "CANCELLED"
  end.

Module MbcPolicy.
Record t := {
  name : string;
  cadenceDays : Z;
  graceWindowDays : Z;
  expirationDays : Z;
  measuresRequired : list string;
  requireAtIntake : bool
}.
End MbcPolicy.

Module Patient.
Record t := {
  id : Cuid;
  firstName : string;
  lastName : string;
  email : option string;
  clinicianId : Cuid
}.
End Patient.

Module Question.
Record t := {
  questionNum : Z;
  questionText : string;
  minValue : Z;
  maxValue : Z
}.
End Question.

Module Measure.
Record t := {
  id : Cuid;
  name : string;
  description : string;
  questions : list Question.t
}.
End Measure.

Module Appointment.
Record t := {
  id : Cuid;
  patientId : Cuid;
  scheduledAt : Date;
  isCancelled : bool
}.
End Appointment.

Module MeasureInstance.
Record t := {
  id : Cuid;
  token : Cuid;
  patientId : Cuid;
  measureId : Cuid;
  appointmentId : option Cuid;
  dueDate : Date;
  expiresAt : Date;
  status : MeasureInstanceStatus;
  sentAt : option Date;
  startedAt : option Date;
  completedAt : option Date
}.

(** The [data] arguments of the three [update] calls. *)
Definition markSent (now : Date) (i : t) : t :=
  {| id := id i; token := token i; patientId := patientId i;
     measureId := measureId i; appointmentId := appointmentId i;
     dueDate := dueDate i; expiresAt := expiresAt i;
     status := SENT; sentAt := Some now;
     startedAt := startedAt i; completedAt := completedAt i |}.

Definition markStarted (now : Date) (i : t) : t :=
  {| id := id i; token := token i; patientId := patientId i;
     measureId := measureId i; appointmentId := appointmentId i;
     dueDate := dueDate i; expiresAt := expiresAt i;
     status := STARTED; sentAt := sentAt i;
     startedAt := Some now; completedAt := completedAt i |}.

Definition markCompleted (now : Date) (i : t) : t :=
  {| id := id i; token := token i; patientId := patientId i;
     measureId := measureId i; appointmentId := appointmentId i;
     dueDate := dueDate i; expiresAt := expiresAt i;
     status := COMPLETED; sentAt := sentAt i;
     startedAt := startedAt i; completedAt := Some now |}.

(** [data: { status: "EXPIRED" }] *)
Definition markExpired (i : t) : t :=
  {| id := id i; token := token i; patientId := patientId i;
     measureId := measureId i; appointmentId := appointmentId i;
     dueDate := dueDate i; expiresAt := expiresAt i;
     status := EXPIRED; sentAt := sentAt i;
     startedAt := startedAt i; completedAt := completedAt i |}.
End MeasureInstance.

Module MeasureResponse.
Record t := {
  id : Cuid;
  measureInstanceId : Cuid;
  answers : list Scoring.Answer;
  totalScore : Z;
  severityBand : string
}.
End MeasureResponse.

(** The audit event kinds [lib/audit.ts] writes. *)
Inductive AuditEventType :=
| INSTANCE_CREATED | LINK_GENERATED | LINK_SENT | QUESTIONNAIRE_STARTED
| QUESTIONNAIRE_SUBMITTED | SCORE_COMPUTED | CLINICIAN_VIEWED_CHART
| PATIENT_CREATED | PATIENT_UPDATED | APPOINTMENT_CREATED
| APPOINTMENT_CANCELLED | USER_LOGIN.

(** The values the handlers put into audit metadata. *)
Inductive Json :=
| JString (s : string)
| JNumber (n : Z)
| JDate (d : Date)
| JUndefined.

Record AuditContext := {
  userId : option Cuid;
  patientId : option Cuid;
  resourceType : option string;
  resourceId : option Cuid;
  metadata : list (string * Json);
  ipAddress : option string;
  userAgent : option string
}.

Module AuditEvent.
Record t := {
  eventType : AuditEventType;
  context : AuditContext
}.
End AuditEvent.

(** The database: one list per table, and the supply of fresh keys. *)
Record Db := {
  mbcPolicies : list MbcPolicy.t;
  patients : list Patient.t;
  measures : list Measure.t;
  appointments : list Appointment.t;
  measureInstances : list MeasureInstance.t;
  measureResponses : list MeasureResponse.t;
  auditEvents : list AuditEvent.t;
  nextCuid : nat
}.

Definition withPolicies (d : Db) (l : list MbcPolicy.t) : Db :=
  {| mbcPolicies := l; patients := patients d; measures := measures d;
     appointments := appointments d;
     measureInstances := measureInstances d;
     measureResponses := measureResponses d;
     auditEvents := auditEvents d; nextCuid := nextCuid d |}.

Definition withInstances (d : Db) (l : list MeasureInstance.t) : Db :=
  {| mbcPolicies := mbcPolicies d; patients := patients d;
     measures := measures d; appointments := appointments d;
     measureInstances := l;
     measureResponses := measureResponses d;
     auditEvents := auditEvents d; nextCuid := nextCuid d |}.

Definition withResponses (d : Db) (l : list MeasureResponse.t) : Db :=
  {| mbcPolicies := mbcPolicies d; patients := patients d;
     measures := measures d; appointments := appointments d;
     measureInstances := measureInstances d;
     measureResponses := l;
     auditEvents := auditEvents d; nextCuid := nextCuid d |}.

Definition withAuditEvents (d : Db) (l : list AuditEvent.t) : Db :=
  {| mbcPolicies := mbcPolicies d; patients := patients d;
     measures := measures d; appointments := appointments d;
     measureInstances := measureInstances d;
     measureResponses := measureResponses d;
     auditEvents := l; nextCuid := nextCuid d |}.

Definition withNextCuid (d : Db) (n : nat) : Db :=
  {| mbcPolicies := mbcPolicies d; patients := patients d;
     measures := measures d; appointments := appointments d;
     measureInstances := measureInstances d;
     measureResponses := measureResponses d;
     auditEvents := auditEvents d; nextCuid := n |}.

(* ================================================================== *)
(** ** Effects: database state, failing writes, exceptions *)

(** Which writes throw.  Audit-table writes are planned apart from the
    writes to the other tables, each numbered in the order it is
    attempted. *)
Record Faults := {
  writeFails : nat -> bool;
  auditFails : nat -> bool
}.

Definition noFaults : Faults :=
  {| writeFails := fun _ => false; auditFails := fun _ => false |}.

Record World := {
  db : Db;
  writes : nat;        (* writes attempted so far, audit table apart *)
  auditWrites : nat    (* audit-table writes attempted so far *)
}.

Definition M (A : Type) : Type := World -> World * Result A.

Definition ret {A} (a : A) : M A := fun w => (w, Ok a).

Definition throw {A} (message : string) : M A := fun w => (w, Throw message).

Definition bind {A B} (m : M A) (k : A -> M B) : M B :=
  fun w =>
    match m w with
    | (w', Ok a) => k a w'
    | (w', Throw e) => (w', Throw e)
    end.

(** [try { m } catch (error) { handler(error) }] *)
Definition tryCatch {A} (m : M A) (handler : string -> M A) : M A :=
  fun w =>
    match m w with
    | (w', Ok a) => (w', Ok a)
    | (w', Throw e) => handler e w'
    end.

Notation "x <- m ;; k" := (bind m (fun x => k))
  (at level 61, m at next level, right associativity).
Notation "m ;;; k" := (bind m (fun _ => k))
  (at level 61, right associativity).

Definition getDb : M Db := fun w => (w, Ok (db w)).

(** A synchronous computation that may throw, lifted. *)
Definition liftResult {A} (r : Result A) : M A := fun w => (w, r).

(** [await Promise.all(ps)]: every promise runs; the first rejection, if
    any, is what the [await] throws. *)
Fixpoint promiseAll {A} (ps : list (M A)) (w : World) {struct ps}
  : World * Result (list A) :=
  match ps with
  | [] => (w, Ok [])
  | p :: rest =>
      match p w with
      | (w1, Ok a) =>
          match promiseAll rest w1 with
          | (w2, Ok l) => (w2, Ok (a :: l))
          | (w2, Throw e) => (w2, Throw e)
          end
      | (w1, Throw e) => (fst (promiseAll rest w1), Throw e)
      end
  end.

(** [for (const x of xs) { await body(x) }] *)
Fixpoint forEach {A} (xs : list A) (body : A -> M unit) : M unit :=
  match xs with
  | [] => ret tt
  | x :: rest => body x ;;; forEach rest body
  end.

(** [prisma.$transaction(async (tx) => body)]: when the body throws, the
    tables are as they were before it started. *)
Definition transaction {A} (body : M A) : M A :=
  fun w =>
    match body w with
    | (w', Ok a) => (w', Ok a)
    | (w', Throw e) =>
        ({| db := db w; writes := writes w'; auditWrites := auditWrites w' |},
         Throw e)
    end.

Definition cuid_eqb (a b : Cuid) : bool := String.eqb a b.

(** Stable insertion sort, for [orderBy: { key: "asc" }]. *)
Fixpoint insertBy {A} (key : A -> Z) (x : A) (l : list A) : list A :=
  match l with
  | [] => [x]
  | y :: rest => if key x <? key y then x :: l else y :: insertBy key x rest
  end.

Definition orderByAsc {A} (key : A -> Z) (l : list A) : list A :=
  fold_left (fun acc x => insertBy key x acc) l [].

Section Prisma.

Variable F : Faults.

(** A write to a table other than the audit table. *)
Definition dbWrite {A} (f : Db -> Result (Db * A)) : M A :=
  fun w =>
    let failed := {| db := db w; writes := S (writes w);
                     auditWrites := auditWrites w |} in
    if writeFails F (writes w) then (failed, Throw "database write failed")
    else
      match f (db w) with
      | Ok (d, a) =>
          ({| db := d; writes := S (writes w);
              auditWrites := auditWrites w |}, Ok a)
      | Throw e => (failed, Throw e)
      end.

(** [prisma.auditEvent.create({ data })] *)
Definition prisma_auditEvent_create (ev : AuditEvent.t) : M unit :=
  fun w =>
    if auditFails F (auditWrites w)
    then ({| db := db w; writes := writes w;
             auditWrites := S (auditWrites w) |},
          Throw "audit write failed")
    else ({| db := withAuditEvents (db w) (auditEvents (db w) ++ [ev])%list;
             writes := writes w; auditWrites := S (auditWrites w) |},
          Ok tt).

(** [prisma.mbcPolicy.findUnique({ where: { name } })] *)
Definition prisma_mbcPolicy_findUnique (name : string)
  : M (option MbcPolicy.t) :=
  d <- getDb ;;
  ret (find (fun p => String.eqb (MbcPolicy.name p) name) (mbcPolicies d)).

(** [prisma.mbcPolicy.create({ data })] *)
Definition prisma_mbcPolicy_create (p : MbcPolicy.t) : M MbcPolicy.t :=
  dbWrite (fun d => Ok (withPolicies d (mbcPolicies d ++ [p])%list, p)).

(** [prisma.measure.findMany({ where: { name: { in: names } } })] *)
Definition prisma_measure_findMany (names : list string)
  : M (list Measure.t) :=
  d <- getDb ;;
  ret (filter (fun m => existsb (String.eqb (Measure.name m)) names)
         (measures d)).

(** [prisma.measureInstance.create({ data })]: the row gets a fresh [id]
    and a fresh [token]; the three timestamps start out null. *)
Definition prisma_measureInstance_create
    (patientId measureId : Cuid) (appointmentId : option Cuid)
    (dueDate expiresAt : Date) (status : MeasureInstanceStatus)
  : M MeasureInstance.t :=
  dbWrite (fun d =>
    let row :=
      {| MeasureInstance.id := cuid (nextCuid d);
         MeasureInstance.token := cuid (S (nextCuid d));
         MeasureInstance.patientId := patientId;
         MeasureInstance.measureId := measureId;
         MeasureInstance.appointmentId := appointmentId;
         MeasureInstance.dueDate := dueDate;
         MeasureInstance.expiresAt := expiresAt;
         MeasureInstance.status := status;
         MeasureInstance.sentAt := None;
         MeasureInstance.startedAt := None;
         MeasureInstance.completedAt := None |} in
    Ok (withNextCuid
          (withInstances d (measureInstances d ++ [row])%list)
          (S (S (nextCuid d))),
        row)).

(** [prisma.measureInstance.findUnique({ where: { token } })] *)
Definition prisma_measureInstance_findByToken (token : Cuid)
  : M (option MeasureInstance.t) :=
  d <- getDb ;;
  ret (find (fun i => cuid_eqb (MeasureInstance.token i) token)
         (measureInstances d)).

(** [prisma.measureInstance.findUnique({ where: { id } })] *)
Definition prisma_measureInstance_findById (id : Cuid)
  : M (option MeasureInstance.t) :=
  d <- getDb ;;
  ret (find (fun i => cuid_eqb (MeasureInstance.id i) id)
         (measureInstances d)).

(** [prisma.measureInstance.update({ where: { id }, data })]; Prisma
    throws when no row has the key. *)
Definition prisma_measureInstance_update (id : Cuid)
    (data : MeasureInstance.t -> MeasureInstance.t)
  : M MeasureInstance.t :=
  dbWrite (fun d =>
    match find (fun i => cuid_eqb (MeasureInstance.id i) id)
            (measureInstances d) with
    | None => Throw "Record to update not found."
    | Some i =>
        Ok (withInstances d
              (map (fun r => if cuid_eqb (MeasureInstance.id r) id
                             then data r else r)
                 (measureInstances d)),
            data i)
    end).

(** [prisma.measureInstance.updateMany({ where, data })], returning
    [result.count]. *)
Definition prisma_measureInstance_updateMany
    (whereClause : MeasureInstance.t -> bool)
    (data : MeasureInstance.t -> MeasureInstance.t)
  : M Z :=
  dbWrite (fun d =>
    Ok (withInstances d
          (map (fun r => if whereClause r then data r else r)
             (measureInstances d)),
        Z.of_nat (List.length (filter whereClause (measureInstances d))))).

(** [prisma.measureInstance.count({ where })] *)
Definition prisma_measureInstance_count
    (whereClause : Db -> MeasureInstance.t -> bool) : M Z :=
  d <- getDb ;;
  ret (Z.of_nat (List.length (filter (whereClause d) (measureInstances d)))).

(** [tx.measureResponse.create({ data })] *)
Definition prisma_measureResponse_create (measureInstanceId : Cuid)
    (answers : list Scoring.Answer) (totalScore : Z)
    (severityBand : string)
  : M MeasureResponse.t :=
  dbWrite (fun d =>
    let row :=
      {| MeasureResponse.id := cuid (nextCuid d);
         MeasureResponse.measureInstanceId := measureInstanceId;
         MeasureResponse.answers := answers;
         MeasureResponse.totalScore := totalScore;
         MeasureResponse.severityBand := severityBand |} in
    Ok (withNextCuid
          (withResponses d (measureResponses d ++ [row])%list)
          (S (nextCuid d)),
        row)).

End Prisma.

(* ================================================================== *)
(** ** HTTP responses *)

Record OverdueItem := {
  oi_id : Cuid;
  oi_patientId : Cuid;
  oi_patientName : string;
  oi_measureName : string;
  oi_dueDate : Date;
  oi_daysPastDue : Z
}.

Record Metrics := {
  totalDue : Z;
  totalCompleted : Z;
  totalOverdue : Z;
  complianceRate : float
}.

Inductive Body :=
| ErrorBody (error : string)
| QuestionnaireBody (instanceId : Cuid)
    (measureName measureDescription patientFirstName : string)
    (questions : list Question.t)
| SubmittedBody (success : bool) (message : string)
| SentBody (success : bool) (messageId : option string)
    (instanceId : Cuid) (status : string)
| ComplianceBody (startDate endDate : Date) (days : Z) (metrics : Metrics)
    (dueCount overdueCount : Z) (overdueList : list OverdueItem).

Record HttpResponse := { body : Body; httpStatus : Z }.

(** [NextResponse.json(body, { status })]; the status defaults to 200. *)
Definition json (b : Body) (status : Z) : HttpResponse :=
  {| body := b; httpStatus := status |}.

(** [x || undefined] on a header or query value: null and the empty
    string are falsy. *)
Definition orUndefined (s : option string) : option string :=
  match s with
  | Some v => if String.eqb v "" then None else Some v
  | None => None
  end.

Record RequestHeaders := {
  xForwardedFor : option string;
  headerUserAgent : option string
}.

(** [lib/notifications.ts] *)
Record MagicLinkEmailData := {
  ml_patientFirstName : string;
  ml_patientEmail : string;
  ml_measureName : string;
  ml_dueDate : Date;
  ml_magicLinkUrl : string;
  ml_expiresAt : Date
}.

Record EmailResult := {
  er_success : bool;
  er_messageId : option string;
  er_error : option string
}.

Record SendNotificationRequest := {
  req_instanceId : option Cuid;
  req_channel : string
}.

(* ================================================================== *)
(** ** Audit service ([lib/audit.ts]) *)

Section Audit.

Variable F : Faults.

Definition logAuditEvent (eventType : AuditEventType)
    (context : AuditContext) : M unit :=
  tryCatch
    (prisma_auditEvent_create F
       {| AuditEvent.eventType := eventType;
          AuditEvent.context := context |})
    (fun error =>
       (* console.error("Failed to log audit event:", error) *)
       ret tt).

End Audit.

(** The [audit] object of convenience functions. *)
Module audit.
Section Convenience.

Variable F : Faults.

Definition instanceCreated := logAuditEvent F INSTANCE_CREATED.
Definition linkGenerated := logAuditEvent F LINK_GENERATED.
Definition linkSent := logAuditEvent F LINK_SENT.
Definition questionnaireStarted := logAuditEvent F QUESTIONNAIRE_STARTED.
Definition questionnaireSubmitted :=
  logAuditEvent F QUESTIONNAIRE_SUBMITTED.
Definition scoreComputed := logAuditEvent F SCORE_COMPUTED.
Definition clinicianViewedChart :=
  logAuditEvent F CLINICIAN_VIEWED_CHART.
Definition patientCreated := logAuditEvent F PATIENT_CREATED.
Definition patientUpdated := logAuditEvent F PATIENT_UPDATED.
Definition appointmentCreated := logAuditEvent F APPOINTMENT_CREATED.
Definition appointmentCancelled :=
  logAuditEvent F APPOINTMENT_CANCELLED.
Definition userLogin := logAuditEvent F USER_LOGIN.

End Convenience.
End audit.

(* ================================================================== *)
(** ** Scheduling service ([lib/scheduling.ts]) *)

Record CreateInstancesOptions := {
  opt_patientId : Cuid;
  opt_appointmentId : option Cuid;
  opt_dueDate : option Date;
  opt_userId : option Cuid
}.

Definition defaultPolicyData : MbcPolicy.t :=
  {| MbcPolicy.name := "default";
     MbcPolicy.cadenceDays := 14;
     MbcPolicy.graceWindowDays := 3;
     MbcPolicy.expirationDays := 7;
     MbcPolicy.measuresRequired := ["PHQ-9"; "GAD-7"];
     MbcPolicy.requireAtIntake := true |}.

Definition optJson (o : option Cuid) : Json :=
  match o with Some s => JString s | None => JUndefined end.

(** The statuses every query of the service calls open. *)
Definition openStatuses : list MeasureInstanceStatus :=
  [PENDING; SENT; STARTED].

Section Scheduling.

Variable F : Faults.

Definition getDefaultPolicy : M MbcPolicy.t :=
  policy <- prisma_mbcPolicy_findUnique "default" ;;
  match policy with
  | Some p => ret p
  | None => prisma_mbcPolicy_create F defaultPolicyData
  end.

Definition createMeasureInstances (now : Date)
    (options : CreateInstancesOptions) : M (list MeasureInstance.t) :=
  let patientId := opt_patientId options in
  let appointmentId := opt_appointmentId options in
  policy <- getDefaultPolicy ;;
  measures <- prisma_measure_findMany (MbcPolicy.measuresRequired policy) ;;
  let effectiveDueDate :=
    match opt_dueDate options with Some d => d | None => now end in
  let expiresAt :=
    addDays effectiveDueDate (MbcPolicy.expirationDays policy) in
  instances <-
    promiseAll
      (map (fun measure =>
              prisma_measureInstance_create F patientId
                (Measure.id measure) appointmentId
                effectiveDueDate expiresAt PENDING)
         measures) ;;
  forEach instances (fun instance =>
    audit.instanceCreated F
      {| userId := opt_userId options;
         patientId := Some patientId;
         resourceType := Some "MeasureInstance";
         resourceId := Some (MeasureInstance.id instance);
         metadata :=
           [ ("measureId", JString (MeasureInstance.measureId instance));
             ("appointmentId", optJson appointmentId);
             ("dueDate", JDate effectiveDueDate) ];
         ipAddress := None; userAgent := None |}) ;;;
  ret instances.

Definition createIntakeAssessments (now : Date) (patientId : Cuid)
    (userId : option Cuid) : M (list MeasureInstance.t) :=
  policy <- getDefaultPolicy ;;
  if negb (MbcPolicy.requireAtIntake policy) then ret []
  else
    createMeasureInstances now
      {| opt_patientId := patientId; opt_appointmentId := None;
         opt_dueDate := Some now; opt_userId := userId |}.

Definition scheduleNextAssessments (now : Date) (patientId : Cuid)
    (userId : option Cuid) : M (list MeasureInstance.t) :=
  policy <- getDefaultPolicy ;;
  let nextDueDate := addDays now (MbcPolicy.cadenceDays policy) in
  createMeasureInstances now
    {| opt_patientId := patientId; opt_appointmentId := None;
       opt_dueDate := Some nextDueDate; opt_userId := userId |}.

(** [measureInstances: { none: {} }] on an appointment. *)
Definition hasNoInstances (d : Db) (a : Appointment.t) : bool :=
  negb (existsb
          (fun i => match MeasureInstance.appointmentId i with
                    | Some x => cuid_eqb x (Appointment.id a)
                    | None => false
                    end)
          (measureInstances d)).

(** The [where] clause of [generateUpcomingInstances]. *)
Definition upcomingWithoutInstances (now futureDate : Date) (d : Db)
    (a : Appointment.t) : bool :=
  (now <=? Appointment.scheduledAt a)
  && (Appointment.scheduledAt a <=? futureDate)
  && negb (Appointment.isCancelled a)
  && hasNoInstances d a.

Fixpoint generateForAppointments (now : Date)
    (appointments : list Appointment.t)
  : M (list (Cuid * list MeasureInstance.t)) :=
  match appointments with
  | [] => ret []
  | appointment :: rest =>
      instances <-
        createMeasureInstances now
          {| opt_patientId := Appointment.patientId appointment;
             opt_appointmentId := Some (Appointment.id appointment);
             opt_dueDate := Some (Appointment.scheduledAt appointment);
             opt_userId := None |} ;;
      results <- generateForAppointments now rest ;;
      ret ((Appointment.id appointment, instances) :: results)
  end.

(** The [findMany] of [generateUpcomingInstances] names no order; the
    embedding takes the rows in the table's order and hands them to the
    loop above. *)
Definition generateUpcomingInstances (now : Date) (daysAhead : Z)
  : M (list (Cuid * list MeasureInstance.t)) :=
  let futureDate := addDays now daysAhead in
  d <- getDb ;;
  let appointments :=
    filter (upcomingWithoutInstances now futureDate d) (appointments d) in
  generateForAppointments now appointments.

(** The [where] clauses of [getDueAssessments]. *)
Definition isDue (now gracePeriod : Date) (i : MeasureInstance.t) : bool :=
  statusIn (MeasureInstance.status i) openStatuses
  && (MeasureInstance.dueDate i <=? now)
  && (gracePeriod <=? MeasureInstance.dueDate i).

Definition isOverdue (now gracePeriod : Date) (i : MeasureInstance.t)
  : bool :=
  statusIn (MeasureInstance.status i) openStatuses
  && (MeasureInstance.dueDate i <? gracePeriod)
  && (now <? MeasureInstance.expiresAt i).

Definition getDueAssessments (now : Date)
  : M (list MeasureInstance.t * list MeasureInstance.t) :=
  policy <- getDefaultPolicy ;;
  let gracePeriod := addDays now (- MbcPolicy.graceWindowDays policy) in
  d <- getDb ;;
  let due :=
    orderByAsc MeasureInstance.dueDate
      (filter (isDue now gracePeriod) (measureInstances d)) in
  let overdue :=
    orderByAsc MeasureInstance.dueDate
      (filter (isOverdue now gracePeriod) (measureInstances d)) in
  ret (due, overdue).

(** The [where] clause of [markExpiredInstances]. *)
Definition isExpirable (now : Date) (i : MeasureInstance.t) : bool :=
  statusIn (MeasureInstance.status i) openStatuses
  && (MeasureInstance.expiresAt i <? now).

Definition markExpiredInstances (now : Date) : M Z :=
  prisma_measureInstance_updateMany F (isExpirable now)
    MeasureInstance.markExpired.

End Scheduling.

(* ================================================================== *)
(** ** Questionnaire route ([api/q/[token]/route.ts]) *)

Module Messages.
Definition invalidLink := "Invalid or expired link".
Definition alreadyCompleted :=
  "This questionnaire has already been completed".
Definition linkExpired := "This link has expired".
Definition invalidAnswers := "Invalid answers format".
Definition thankYou := "Thank you for completing the questionnaire".
End Messages.

(** [instance.measure.f] and [instance.patient.f]: reading a field of a
    joined row that is missing throws a [TypeError]. *)
Definition deref {A B} (row : option A) (f : A -> B) : Result B :=
  match row with
  | Some r => Ok (f r)
  | None => Throw "Cannot read properties of null"
  end.

Definition joinedMeasure (d : Db) (i : MeasureInstance.t)
  : option Measure.t :=
  find (fun m => cuid_eqb (Measure.id m) (MeasureInstance.measureId i))
    (measures d).

Definition joinedPatient (d : Db) (i : MeasureInstance.t)
  : option Patient.t :=
  find (fun p => cuid_eqb (Patient.id p) (MeasureInstance.patientId i))
    (patients d).

Module Questionnaire.
Section Route.

Variable F : Faults.

(** [GET]: load the questionnaire behind a magic link. *)
Definition GET (now : Date) (token : Cuid) (headers : RequestHeaders)
  : M HttpResponse :=
  found <- prisma_measureInstance_findByToken token ;;
  d0 <- getDb ;;
  match found with
  | None => ret (json (ErrorBody Messages.invalidLink) 404)
  | Some instance =>
      let measure := joinedMeasure d0 instance in
      let patient := joinedPatient d0 instance in
      if status_eqb (MeasureInstance.status instance) COMPLETED then
        ret (json (ErrorBody Messages.alreadyCompleted) 400)
      else if status_eqb (MeasureInstance.status instance) EXPIRED
              || (MeasureInstance.expiresAt instance <? now) then
        ret (json (ErrorBody Messages.linkExpired) 400)
      else
        (if status_eqb (MeasureInstance.status instance) PENDING
            || status_eqb (MeasureInstance.status instance) SENT
         then
           _ <- prisma_measureInstance_update F
                  (MeasureInstance.id instance)
                  (MeasureInstance.markStarted now) ;;
           audit.questionnaireStarted F
             {| userId := None;
                patientId := Some (MeasureInstance.patientId instance);
                resourceType := Some "MeasureInstance";
                resourceId := Some (MeasureInstance.id instance);
                metadata := [];
                ipAddress := orUndefined (xForwardedFor headers);
                userAgent := orUndefined (headerUserAgent headers) |}
         else ret tt) ;;;
        measureName <- liftResult (deref measure Measure.name) ;;
        measureDescription <-
          liftResult (deref measure Measure.description) ;;
        patientFirstName <-
          liftResult (deref patient Patient.firstName) ;;
        questions <-
          liftResult
            (deref measure
               (fun m => orderByAsc Question.questionNum
                           (Measure.questions m))) ;;
        ret (json
               (QuestionnaireBody (MeasureInstance.id instance)
                  measureName measureDescription patientFirstName
                  questions)
               200)
  end.

(** [POST]: submit the answers.  [requestBody] is what
    [const { answers } = await request.json()] gives: [None] when that
    throws -- the body is not JSON, or it is the JSON [null], whose
    [answers] cannot be read -- and otherwise the [answers] member,
    itself [None] when it is missing or not an array. *)
Definition POST (now : Date) (token : Cuid) (headers : RequestHeaders)
    (requestBody : option (option (list Scoring.Answer)))
  : M HttpResponse :=
  found <- prisma_measureInstance_findByToken token ;;
  d0 <- getDb ;;
  match found with
  | None => ret (json (ErrorBody Messages.invalidLink) 404)
  | Some instance =>
      let measure := joinedMeasure d0 instance in
      if status_eqb (MeasureInstance.status instance) COMPLETED then
        ret (json (ErrorBody Messages.alreadyCompleted) 400)
      else if MeasureInstance.expiresAt instance <? now then
        ret (json (ErrorBody Messages.linkExpired) 400)
      else
        match requestBody with
        | None => throw "Unexpected end of JSON input"
        | Some None => ret (json (ErrorBody Messages.invalidAnswers) 400)
        | Some (Some answers) =>
            let scored :=
              match deref measure Measure.name with
              | Ok measureName =>
                  match Scoring.scoreMeasure measureName answers with
                  | Ok r => Ok (measureName, r)
                  | Throw e => Throw e
                  end
              | Throw e => Throw e
              end in
            match scored with
            | Throw message => ret (json (ErrorBody message) 400)
            | Ok (measureName, scoringResult) =>
                result <-
                  transaction
                    (response <-
                       prisma_measureResponse_create F
                         (MeasureInstance.id instance) answers
                         (Scoring.totalScore scoringResult)
                         (Scoring.severityBand scoringResult) ;;
                     _ <- prisma_measureInstance_update F
                            (MeasureInstance.id instance)
                            (MeasureInstance.markCompleted now) ;;
                     ret response) ;;
                audit.questionnaireSubmitted F
                  {| userId := None;
                     patientId :=
                       Some (MeasureInstance.patientId instance);
                     resourceType := Some "MeasureResponse";
                     resourceId := Some (MeasureResponse.id result);
                     metadata :=
                       [ ("measureName", JString measureName);
                         ("totalScore",
                          JNumber (Scoring.totalScore scoringResult));
                         ("severityBand",
                          JString (Scoring.severityBand scoringResult)) ];
                     ipAddress := orUndefined (xForwardedFor headers);
                     userAgent := orUndefined (headerUserAgent headers)
                  |} ;;;
                audit.scoreComputed F
                  {| userId := None;
                     patientId :=
                       Some (MeasureInstance.patientId instance);
                     resourceType := Some "MeasureResponse";
                     resourceId := Some (MeasureResponse.id result);
                     metadata :=
                       [ ("totalScore",
                          JNumber (Scoring.totalScore scoringResult));
                         ("severityBand",
                          JString (Scoring.severityBand scoringResult));
                         ("maxPossibleScore",
                          JNumber
                            (Scoring.maxPossibleScore scoringResult)) ];
                     ipAddress := None; userAgent := None |} ;;;
                ret (json (SubmittedBody true Messages.thankYou) 200)
            end
        end
  end.

End Route.
End Questionnaire.

(* ================================================================== *)
(** ** Manual send route ([api/notifications/send/route.ts]) *)

Definition falsy (s : option string) : bool :=
  match orUndefined s with Some _ => false | None => true end.

Definition showOpt (s : option string) : string :=
  match s with Some v => v | None => "undefined" end.

Module NotificationsSend.
Section Route.

Variable F : Faults.

(** The mail provider and the deployment's [NEXT_PUBLIC_APP_URL]. *)
Variable sendMagicLinkEmail : MagicLinkEmailData -> EmailResult.
Variable NEXT_PUBLIC_APP_URL : option string.

(** The statements inside the handler's [try] block. *)
Definition attempt (now : Date) (request : option SendNotificationRequest)
  : M HttpResponse :=
  match request with
  | None => throw "Unexpected end of JSON input"
  | Some body =>
      if falsy (req_instanceId body) then
        ret (json (ErrorBody "instanceId is required") 400)
      else if negb (String.eqb (req_channel body) "email") then
        ret (json (ErrorBody "Only email channel is currently supported")
               400)
      else
        let instanceId := showOpt (req_instanceId body) in
        found <- prisma_measureInstance_findById instanceId ;;
        d0 <- getDb ;;
        match found with
        | None => ret (json (ErrorBody "Measure instance not found") 404)
        | Some instance =>
            let measure := joinedMeasure d0 instance in
            let patient := joinedPatient d0 instance in
            email <- liftResult (deref patient Patient.email) ;;
            if falsy email then
              ret (json
                     (ErrorBody "Patient does not have an email address")
                     400)
            else if status_eqb (MeasureInstance.status instance) COMPLETED
                    || status_eqb (MeasureInstance.status instance)
                         CANCELLED then
              ret (json
                     (ErrorBody
                        ("Cannot send notification for "
                           ++ showStatus (MeasureInstance.status instance)
                           ++ " instance"))
                     400)
            else if status_eqb (MeasureInstance.status instance) EXPIRED
            then
              ret (json
                     (ErrorBody
                        "Cannot send notification for expired instance")
                     400)
            else
              let appUrl :=
                match orUndefined NEXT_PUBLIC_APP_URL with
                | Some u => u
                | None => "http://localhost:3000"
                end in
              let magicLinkUrl :=
                appUrl ++ "/q/" ++ MeasureInstance.token instance in
              patientFirstName <-
                liftResult (deref patient Patient.firstName) ;;
              measureName <- liftResult (deref measure Measure.name) ;;
              let result :=
                sendMagicLinkEmail
                  {| ml_patientFirstName := patientFirstName;
                     ml_patientEmail := showOpt email;
                     ml_measureName := measureName;
                     ml_dueDate := MeasureInstance.dueDate instance;
                     ml_magicLinkUrl := magicLinkUrl;
                     ml_expiresAt := MeasureInstance.expiresAt instance |}
              in
              if negb (er_success result) then
                ret (json
                       (ErrorBody
                          ("Failed to send email: "
                             ++ showOpt (er_error result)))
                       500)
              else
                _ <- prisma_measureInstance_update F instanceId
                       (MeasureInstance.markSent now) ;;
                audit.linkSent F
                  {| userId := None;
                     patientId :=
                       Some (MeasureInstance.patientId instance);
                     resourceType := Some "MeasureInstance";
                     resourceId := Some instanceId;
                     metadata :=
                       [ ("channel", JString "email");
                         ("messageId", optJson (er_messageId result));
                         ("recipientEmail", optJson email) ];
                     ipAddress := None; userAgent := None |} ;;;
                ret (json
                       (SentBody true (er_messageId result) instanceId
                          "SENT")
                       200)
        end
  end.

(** [POST]: the block above inside [try], any exception answered with a
    500. *)
Definition POST (now : Date) (request : option SendNotificationRequest)
  : M HttpResponse :=
  tryCatch (attempt now request)
    (fun error =>
       ret (json (ErrorBody "Failed to send notification") 500)).

End Route.
End NotificationsSend.

(* ================================================================== *)
(** ** Compliance route ([api/compliance/route.ts]) *)

(** JavaScript numbers are binary64 floating-point values, and so are
    the numbers here.  A count is an integer; below 2^53 it is its own
    binary64 value, which the doubling below builds without rounding. *)
Fixpoint ofPositive (p : positive) : float :=
  match p with
  | xH => 1%float
  | xO q => (2 * ofPositive q)%float
  | xI q => (2 * ofPositive q + 1)%float
  end.

Definition ofZ (z : Z) : float :=
  match z with
  | Z0 => 0%float
  | Zpos p => ofPositive p
  | Zneg p => (- ofPositive p)%float
  end.

(** The integral value just below or at [x].  Below 2^52 in magnitude,
    adding and taking away 2^52 rounds to an integral value, which is
    stepped down when it came out above [x]; from 2^52 on every value
    is integral. *)
Definition floor64 (x : float) : float :=
  let two52 := 4503599627370496%float in
  if PrimFloat.ltb (PrimFloat.abs x) two52 then
    let nearest :=
      if PrimFloat.ltb x 0 then (- ((- x + two52) - two52))%float
      else ((x + two52) - two52)%float in
    if PrimFloat.ltb x nearest then (nearest - 1)%float else nearest
  else x.

(** [Math.round(x)]: the integral value nearest to [x], a tie going to
    the one nearer plus infinity; a zero result has the sign of [x]. *)
Definition Math_round (x : float) : float :=
  let below := floor64 x in
  let nearest :=
    if PrimFloat.leb (1 / 2) (x - below) then (below + 1)%float
    else below in
  if PrimFloat.eqb nearest 0 then (x * 0)%float else nearest.

(** [totalDue > 0 ? (totalCompleted / totalDue) * 100 : 100] *)
Definition rawComplianceRate (totalCompleted totalDue : Z) : float :=
  if totalDue >? 0
  then (ofZ totalCompleted / ofZ totalDue * 100)%float
  else 100%float.

(** [Math.round(complianceRate * 10) / 10] *)
Definition roundToTenth (rate : float) : float :=
  (Math_round (rate * 10) / 10)%float.

(** The relation filter [patient: patientWhere]. *)
Definition patientWhere (clinicianId : option Cuid) (d : Db)
    (i : MeasureInstance.t) : bool :=
  match orUndefined clinicianId with
  | None => true
  | Some c =>
      match joinedPatient d i with
      | Some p => cuid_eqb (Patient.clinicianId p) c
      | None => false
      end
  end.

Definition dueInPeriod (clinicianId : option Cuid) (startDate : Date)
    (d : Db) (i : MeasureInstance.t) : bool :=
  patientWhere clinicianId d i
  && (startDate <=? MeasureInstance.dueDate i).

Definition completedInPeriod (clinicianId : option Cuid) (startDate : Date)
    (d : Db) (i : MeasureInstance.t) : bool :=
  patientWhere clinicianId d i
  && status_eqb (MeasureInstance.status i) COMPLETED
  && match MeasureInstance.completedAt i with
     | Some c => startDate <=? c
     | None => false
     end.

Definition overdueNow (clinicianId : option Cuid) (now : Date)
    (d : Db) (i : MeasureInstance.t) : bool :=
  patientWhere clinicianId d i
  && statusIn (MeasureInstance.status i) openStatuses
  && (MeasureInstance.dueDate i <? now)
  && (now <? MeasureInstance.expiresAt i).

(** [l.filter((d) => d.patient.clinicianId === clinicianId)] *)
Fixpoint filterByClinician (d : Db) (clinicianId : Cuid)
    (l : list MeasureInstance.t) : Result (list MeasureInstance.t) :=
  match l with
  | [] => Ok []
  | i :: rest =>
      match deref (joinedPatient d i) Patient.clinicianId with
      | Throw e => Throw e
      | Ok c =>
          match filterByClinician d clinicianId rest with
          | Throw e => Throw e
          | Ok kept => Ok (if cuid_eqb c clinicianId then i :: kept else kept)
          end
      end
  end.

Fixpoint overdueItems (d : Db) (now : Date) (l : list MeasureInstance.t)
  : Result (list OverdueItem) :=
  match l with
  | [] => Ok []
  | instance :: rest =>
      match deref (joinedPatient d instance)
              (fun p => Patient.firstName p ++ " " ++ Patient.lastName p),
            deref (joinedMeasure d instance) Measure.name with
      | Ok patientName, Ok measureName =>
          match overdueItems d now rest with
          | Throw e => Throw e
          | Ok items =>
              Ok ({| oi_id := MeasureInstance.id instance;
                     oi_patientId := MeasureInstance.patientId instance;
                     oi_patientName := patientName;
                     oi_measureName := measureName;
                     oi_dueDate := MeasureInstance.dueDate instance;
                     oi_daysPastDue :=
                       (now - MeasureInstance.dueDate instance)
                         / MS_PER_DAY |} :: items)
          end
      | Throw e, _ => Throw e
      | _, Throw e => Throw e
      end
  end.

Module Compliance.
Section Route.

Variable F : Faults.

(** [clinicianIdParam] is [searchParams.get("clinicianId")]; [daysParam]
    is the parsed [days] parameter, absent when the query has none. *)
Definition GET (now : Date) (clinicianIdParam : option string)
    (daysParam : option Z) : M HttpResponse :=
  let clinicianId := clinicianIdParam in
  let days := match daysParam with Some n => n | None => 30 end in
  let startDate := addDays now (- days) in
  totalDue <- prisma_measureInstance_count
                (dueInPeriod clinicianId startDate) ;;
  totalCompleted <- prisma_measureInstance_count
                      (completedInPeriod clinicianId startDate) ;;
  totalOverdue <- prisma_measureInstance_count
                    (overdueNow clinicianId now) ;;
  let complianceRate := rawComplianceRate totalCompleted totalDue in
  lists <- getDueAssessments F now ;;
  d <- getDb ;;
  filteredDue <-
    liftResult
      match orUndefined clinicianId with
      | Some c => filterByClinician d c (fst lists)
      | None => Ok (fst lists)
      end ;;
  filteredOverdue <-
    liftResult
      match orUndefined clinicianId with
      | Some c => filterByClinician d c (snd lists)
      | None => Ok (snd lists)
      end ;;
  overdueList <- liftResult (overdueItems d now filteredOverdue) ;;
  ret (json
         (ComplianceBody startDate now days
            {| totalDue := totalDue;
               totalCompleted := totalCompleted;
               totalOverdue := totalOverdue;
               complianceRate := roundToTenth complianceRate |}
            (Z.of_nat (List.length filteredDue))
            (Z.of_nat (List.length filteredOverdue))
            overdueList)
         200).

End Route.
End Compliance.

(* ================================================================== *)
(** ** Clinical interpretation helpers ([lib/scoring.ts], continued) *)

Module ScoringHelpers.

(** PHQ-9 and GAD-7 alike: a score of 10 or more suggests treatment. *)
Definition isElevated (measureName : string) (score : Z) : bool :=
  10 <=? score.

Definition needsFollowUp (measureName : string) (score : Z) : bool :=
  let name := Scoring.toUpperCase measureName in
  if String.eqb name "PHQ-9" then 15 <=? score
  else if String.eqb name "GAD-7" then 15 <=? score
  else false.

End ScoringHelpers.

(* ================================================================== *)
(** ** Cron routes ([api/cron/generate-instances/route.ts],
       [api/cron/send-notifications/route.ts]) *)

Record SendResult := {
  sr_instanceId : Cuid;
  sr_patientId : Cuid;
  sr_measureName : string;
  sr_success : bool;
  sr_messageId : option string;
  sr_error : option string
}.

Inductive CronBody :=
| CronError (error : string)
| GeneratedBody (success : bool) (appointments instances expired : Z)
    (timestamp : Date)
| NotifiedBody (success : bool) (total sent failed : Z)
    (results : list SendResult) (timestamp : Date).

Record CronResponse := { cronBody : CronBody; cronStatus : Z }.

Definition cronJson (b : CronBody) (status : Z) : CronResponse :=
  {| cronBody := b; cronStatus := status |}.

(** [cronSecret && authHeader !== `Bearer ${cronSecret}`], on the
    deployment's [CRON_SECRET] and the request's [authorization]
    header. *)
Definition secretMismatch (cronSecret authHeader : option string) : bool :=
  match orUndefined cronSecret with
  | Some secret =>
      match authHeader with
      | Some header => negb (String.eqb header ("Bearer " ++ secret))
      | None => true
      end
  | None => false
  end.

Module CronGenerate.
Section Route.

Variable F : Faults.
Variable CRON_SECRET : option string.

Definition POST (now : Date) (authHeader : option string)
  : M CronResponse :=
  if secretMismatch CRON_SECRET authHeader then
    ret (cronJson (CronError "Unauthorized") 401)
  else
    tryCatch
      (generated <- generateUpcomingInstances F now 7 ;;
       expiredCount <- markExpiredInstances F now ;;
       ret (cronJson
              (GeneratedBody true
                 (Z.of_nat (List.length generated))
                 (fold_left
                    (fun sum g => sum + Z.of_nat (List.length (snd g)))
                    generated 0)
                 expiredCount now)
              200))
      (fun error =>
         ret (cronJson (CronError "Failed to generate instances") 500)).

Definition GET (now : Date) : M CronResponse :=
  tryCatch
    (generated <- generateUpcomingInstances F now 7 ;;
     expiredCount <- markExpiredInstances F now ;;
     ret (cronJson
            (GeneratedBody true
               (Z.of_nat (List.length generated))
               (fold_left
                  (fun sum g => sum + Z.of_nat (List.length (snd g)))
                  generated 0)
               expiredCount now)
            200))
    (fun error =>
       ret (cronJson (CronError "Failed to generate instances") 500)).

End Route.
End CronGenerate.

Module CronSend.
Section Route.

Variable F : Faults.

(** The mail provider and the deployment's environment. *)
Variable sendMagicLinkEmail : MagicLinkEmailData -> EmailResult.
Variable NEXT_PUBLIC_APP_URL : option string.
Variable CRON_SECRET : option string.

(** The [where] clause of the batch: PENDING, due within a day, and the
    patient's email is not null. *)
Definition pendingWithEmail (oneDayFromNow : Date) (d : Db)
    (i : MeasureInstance.t) : bool :=
  status_eqb (MeasureInstance.status i) PENDING
  && (MeasureInstance.dueDate i <=? oneDayFromNow)
  && match joinedPatient d i with
     | Some p =>
         match Patient.email p with Some _ => true | None => false end
     | None => false
     end.

(** The [for] loop over the instances found, which were read with their
    patient and measure from [d0]. *)
Fixpoint sendEach (d0 : Db) (appUrl : string) (now : Date)
    (pendingInstances : list MeasureInstance.t) : M (list SendResult) :=
  match pendingInstances with
  | [] => ret []
  | instance :: rest =>
      let patient := joinedPatient d0 instance in
      let measure := joinedMeasure d0 instance in
      email <- liftResult (deref patient Patient.email) ;;
      if falsy email then sendEach d0 appUrl now rest
      else
        let magicLinkUrl :=
          appUrl ++ "/q/" ++ MeasureInstance.token instance in
        patientFirstName <- liftResult (deref patient Patient.firstName) ;;
        measureName <- liftResult (deref measure Measure.name) ;;
        let result :=
          sendMagicLinkEmail
            {| ml_patientFirstName := patientFirstName;
               ml_patientEmail := showOpt email;
               ml_measureName := measureName;
               ml_dueDate := MeasureInstance.dueDate instance;
               ml_magicLinkUrl := magicLinkUrl;
               ml_expiresAt := MeasureInstance.expiresAt instance |} in
        if er_success result then
          _ <- prisma_measureInstance_update F (MeasureInstance.id instance)
                 (MeasureInstance.markSent now) ;;
          audit.linkSent F
            {| userId := None;
               patientId := Some (MeasureInstance.patientId instance);
               resourceType := Some "MeasureInstance";
               resourceId := Some (MeasureInstance.id instance);
               metadata :=
                 [ ("channel", JString "email");
                   ("messageId", optJson (er_messageId result));
                   ("recipientEmail", optJson email);
                   ("source", JString "cron") ];
               ipAddress := None; userAgent := None |} ;;;
          results <- sendEach d0 appUrl now rest ;;
          ret ({| sr_instanceId := MeasureInstance.id instance;
                  sr_patientId := MeasureInstance.patientId instance;
                  sr_measureName := measureName;
                  sr_success := true;
                  sr_messageId := er_messageId result;
                  sr_error := None |} :: results)
        else
          results <- sendEach d0 appUrl now rest ;;
          ret ({| sr_instanceId := MeasureInstance.id instance;
                  sr_patientId := MeasureInstance.patientId instance;
                  sr_measureName := measureName;
                  sr_success := false;
                  sr_messageId := None;
                  sr_error := er_error result |} :: results)
  end.

Definition handleSendNotifications (now : Date)
    (authHeader : option string) : M CronResponse :=
  if secretMismatch CRON_SECRET authHeader then
    ret (cronJson (CronError "Unauthorized") 401)
  else
    tryCatch
      (let appUrl :=
         match orUndefined NEXT_PUBLIC_APP_URL with
         | Some u => u
         | None => "http://localhost:3000"
         end in
       let oneDayFromNow := now + 24 * 60 * 60 * 1000 in
       d0 <- getDb ;;
       let pendingInstances :=
         filter (pendingWithEmail oneDayFromNow d0) (measureInstances d0) in
       results <- sendEach d0 appUrl now pendingInstances ;;
       let sent := Z.of_nat (List.length (filter sr_success results)) in
       let failed :=
         Z.of_nat
           (List.length (filter (fun r => negb (sr_success r)) results)) in
       ret (cronJson
              (NotifiedBody true
                 (Z.of_nat (List.length pendingInstances))
                 sent failed results now)
              200))
      (fun error =>
         ret (cronJson (CronError "Failed to send notifications") 500)).

Definition POST (now : Date) (authHeader : option string)
  : M CronResponse :=
  handleSendNotifications now authHeader.

Definition GET (now : Date) (authHeader : option string)
  : M CronResponse :=
  handleSendNotifications now authHeader.

End Route.
End CronSend.

(* ================================================================== *)
(** ** Route protection ([middleware.ts]) and the session helpers
       ([lib/auth.ts]) *)

(** A JavaScript string is the sequence of its UTF-16 code units; the
    fields of a session payload are such strings.  [js] is the string of
    a literal of the source, whose characters are all ASCII, and of a
    header value, whose bytes are its code units. *)
Definition JsString := list N.

Definition js (s : string) : JsString :=
  map N_of_ascii (list_ascii_of_string s).

Fixpoint jsEqb (a b : JsString) : bool :=
  match a, b with
  | [], [] => true
  | x :: a', y :: b' => N.eqb x y && jsEqb a' b'
  | _, _ => false
  end.

(** Request headers, as pairs of a lower-cased name and a value; a value
    is a byte string. *)
Definition Headers := list (string * string).

(** The conversion of an argument to a byte string: a [TypeError] at a
    code unit above 255. *)
Definition toByteString (s : JsString) : Result string :=
  if forallb (fun c => N.leb c 255) s
  then Ok (string_of_list_ascii (map ascii_of_N s))
  else Throw "TypeError: Cannot convert argument to a ByteString".

(** Tab, line feed, carriage return and space. *)
Definition isHttpWhitespace (c : ascii) : bool :=
  N.eqb (N_of_ascii c) 9 || N.eqb (N_of_ascii c) 10
  || N.eqb (N_of_ascii c) 13 || N.eqb (N_of_ascii c) 32.

Fixpoint trimStart (s : string) : string :=
  match s with
  | String c rest => if isHttpWhitespace c then trimStart rest else s
  | EmptyString => EmptyString
  end.

Definition reverse (s : string) : string :=
  string_of_list_ascii (rev (list_ascii_of_string s)).

(** A value is normalized by removing the whitespace at its two ends. *)
Definition normalizeValue (s : string) : string :=
  reverse (trimStart (reverse (trimStart s))).

(** A normalized value is a header value when it holds no NUL, line feed
    or carriage return. *)
Definition isHeaderValue (s : string) : bool :=
  forallb
    (fun c => negb (N.eqb (N_of_ascii c) 0 || N.eqb (N_of_ascii c) 10
                    || N.eqb (N_of_ascii c) 13))
    (list_ascii_of_string s).

(** [headers.get(name)]: the values under the name, joined by a comma
    and a space. *)
Definition headersGet (headers : Headers) (name : string) : option string :=
  match filter (fun h => String.eqb (fst h) name) headers with
  | [] => None
  | h :: rest =>
      Some (fold_left (fun joined x => joined ++ ", " ++ snd x) rest (snd h))
  end.

(** [headers.set(name, value)] for a valid name: the value is converted
    and normalized, a [TypeError] is thrown when it is not a header
    value, and otherwise it replaces whatever the name had. *)
Definition headersSet (headers : Headers) (name : string) (value : JsString)
  : Result Headers :=
  match toByteString value with
  | Throw e => Throw e
  | Ok bytes =>
      let normalized := normalizeValue bytes in
      if isHeaderValue normalized then
        Ok ((name, normalized)
              :: filter (fun h => negb (String.eqb (fst h) name)) headers)
      else Throw "TypeError: Invalid header value"
  end.

(** Sequencing of steps that may throw. *)
Definition andThen {A B} (r : Result A) (k : A -> Result B) : Result B :=
  match r with
  | Ok a => k a
  | Throw e => Throw e
  end.

Module Middleware.

(** The payload of a session token: the token is signed by [signJWT],
    whose payload has these five string fields. *)
Record Session := {
  userId : JsString;
  email : JsString;
  role : JsString;
  firstName : JsString;
  lastName : JsString
}.

(** What the middleware returns: [NextResponse.next()], the same with
    the request headers replaced, [NextResponse.json] with an error, or
    a redirect to a path with query parameters. *)
Inductive Response :=
| next
| nextWith (requestHeaders : Headers)
| jsonError (error : string) (status : Z)
| redirect (path : string) (searchParams : list (string * string)).

Definition publicRoutes : list string :=
  ["/"; "/login"; "/demo"; "/sms-consent"].

Definition publicPrefixes : list string :=
  ["/q/"; "/api/auth/"; "/api/q/"; "/_next/"; "/favicon.ico"].

Definition protectedApiPrefixes : list string :=
  ["/api/patients"; "/api/compliance"; "/api/appointments";
   "/api/measures"; "/api/audit"].

(** [s.startsWith(prefix)] *)
Definition startsWith (s prefix : string) : bool := String.prefix prefix s.

Section Guard.

(** [jwtVerify(token, JWT_SECRET)]: the payload, or nothing when the
    call throws. *)
Variable jwtVerify : string -> option Session.

(** [cookie] is the value of the [mbc_session] cookie, if there is
    one. *)
Definition getSessionFromCookie (cookie : option string)
  : option Session :=
  match orUndefined cookie with
  | None => None
  | Some token => jwtVerify token
  end.

(** The middleware returns a response, or throws what [headers.set]
    throws. *)
Definition middleware (pathname : string) (cookie : option string)
    (headers : Headers) : Result Response :=
  if existsb (String.eqb pathname) publicRoutes then Ok next
  else if existsb (startsWith pathname) publicPrefixes then Ok next
  else
    let session := getSessionFromCookie cookie in
    let isApiRoute := startsWith pathname "/api/" in
    let isProtectedApi :=
      existsb (startsWith pathname) protectedApiPrefixes in
    match session with
    | None =>
        if isApiRoute then Ok (jsonError "Unauthorized" 401)
        else Ok (redirect "/login" [("from", pathname)])
    | Some session =>
        let pass :=
          if isProtectedApi || startsWith pathname "/admin"
             || startsWith pathname "/clinician"
          then
            let requestHeaders := headers in
            andThen (headersSet requestHeaders "x-user-id"
                       (userId session)) (fun requestHeaders =>
            andThen (headersSet requestHeaders "x-user-email"
                       (email session)) (fun requestHeaders =>
            andThen (headersSet requestHeaders "x-user-role"
                       (role session)) (fun requestHeaders =>
            andThen (headersSet requestHeaders "x-user-firstname"
                       (firstName session)) (fun requestHeaders =>
            andThen (headersSet requestHeaders "x-user-lastname"
                       (lastName session)) (fun requestHeaders =>
            Ok (nextWith requestHeaders))))))
          else Ok next in
        if startsWith pathname "/admin" then
          if negb (jsEqb (role session) (js "ADMIN")) then
            if isApiRoute then
              Ok (jsonError "Forbidden - Admin access required" 403)
            else Ok (redirect "/clinician/patients" [])
          else pass
        else pass
    end.

End Guard.
End Middleware.

Module Auth.
Section Verify.

Variable jwtVerify : string -> option Middleware.Session.

Definition verifyJWT (token : string) : option Middleware.Session :=
  jwtVerify token.

(** [getAuthenticatedUser]: the identity headers when all five are
    there and not empty, otherwise the payload of the session cookie. *)
Definition getAuthenticatedUser (headers : Headers)
    (cookie : option string) : option Middleware.Session :=
  let userId := headersGet headers "x-user-id" in
  let email := headersGet headers "x-user-email" in
  let role := headersGet headers "x-user-role" in
  let firstName := headersGet headers "x-user-firstname" in
  let lastName := headersGet headers "x-user-lastname" in
  match orUndefined userId, orUndefined email, orUndefined role,
        orUndefined firstName, orUndefined lastName with
  | Some userId, Some email, Some role, Some firstName, Some lastName =>
      Some {| Middleware.userId := js userId;
              Middleware.email := js email;
              Middleware.role := js role;
              Middleware.firstName := js firstName;
              Middleware.lastName := js lastName |}
  | _, _, _, _, _ =>
      match orUndefined cookie with
      | None => None
      | Some token => verifyJWT token
      end
  end.

End Verify.
End Auth.

(* ================================================================== *)
(** ** A small clinic, for concrete runs *)

Module Clinic.

Definition question (n : Z) (text : string) : Question.t :=
  {| Question.questionNum := n; Question.questionText := text;
     Question.minValue := 0; Question.maxValue := 3 |}.

Definition phq9 : Measure.t :=
  {| Measure.id := "m-phq9"; Measure.name := "PHQ-9";
     Measure.description := "Patient Health Questionnaire";
     Measure.questions :=
       map (fun n => question n "Over the last 2 weeks ...")
         [1; 2; 3; 4; 5; 6; 7; 8; 9] |}.

Definition gad7 : Measure.t :=
  {| Measure.id := "m-gad7"; Measure.name := "GAD-7";
     Measure.description := "Generalized Anxiety Disorder scale";
     Measure.questions :=
       map (fun n => question n "Over the last 2 weeks ...")
         [1; 2; 3; 4; 5; 6; 7] |}.

Definition ann : Patient.t :=
  {| Patient.id := "p-ann"; Patient.firstName := "Ann";
     Patient.lastName := "Lee"; Patient.email := Some "ann@example.org";
     Patient.clinicianId := "k-1" |}.

Definition day (n : Z) : Date := n * MS_PER_DAY.

(** An instance of PHQ-9 for Ann, due on day 0. *)
Definition instance (key : string) (st : MeasureInstanceStatus)
    (expires : Date) : MeasureInstance.t :=
  {| MeasureInstance.id := "i-" ++ key;
     MeasureInstance.token := "t-" ++ key;
     MeasureInstance.patientId := "p-ann";
     MeasureInstance.measureId := "m-phq9";
     MeasureInstance.appointmentId := None;
     MeasureInstance.dueDate := day 0;
     MeasureInstance.expiresAt := expires;
     MeasureInstance.status := st;
     MeasureInstance.sentAt := None;
     MeasureInstance.startedAt := None;
     MeasureInstance.completedAt := None |}.

Definition visit : Appointment.t :=
  {| Appointment.id := "a-1"; Appointment.patientId := "p-ann";
     Appointment.scheduledAt := day 3; Appointment.isCancelled := false |}.

Definition database (instances : list MeasureInstance.t) : Db :=
  {| mbcPolicies := [defaultPolicyData]; patients := [ann];
     measures := [phq9; gad7]; appointments := [visit];
     measureInstances := instances; measureResponses := [];
     auditEvents := []; nextCuid := 0 |}.

Definition world (instances : list MeasureInstance.t) : World :=
  {| db := database instances; writes := 0; auditWrites := 0 |}.

Definition noHeaders : RequestHeaders :=
  {| xForwardedFor := None; headerUserAgent := None |}.

Definition answer (n v : Z) : Scoring.Answer :=
  {| Scoring.questionNum := n; Scoring.value := v |}.

Definition mailer (data : MagicLinkEmailData) : EmailResult :=
  {| er_success := true; er_messageId := Some "msg-1"; er_error := None |}.

End Clinic.

(* ================================================================== *)
(** ** Vocabulary of the specification *)

(** [COMPLETED], [EXPIRED] and [CANCELLED] are the terminal states. *)
Definition terminalb (s : MeasureInstanceStatus) : bool :=
  match s with
  | COMPLETED | EXPIRED | CANCELLED => true
  | PENDING | SENT | STARTED => false
  end.

(** The same, as a proposition. *)
Definition terminal (s : MeasureInstanceStatus) : Prop :=
  s = COMPLETED \/ s = EXPIRED \/ s = CANCELLED.

(** A non-terminal instance whose expiry lies strictly before [now]. *)
Definition openPastExpiry (now : Date) (i : MeasureInstance.t) : bool :=
  negb (terminalb (MeasureInstance.status i))
  && (MeasureInstance.expiresAt i <? now).

(** Two rows that differ in nothing but, possibly, their status. *)
Definition sameButStatus (a b : MeasureInstance.t) : Prop :=
  MeasureInstance.id a = MeasureInstance.id b
  /\ MeasureInstance.token a = MeasureInstance.token b
  /\ MeasureInstance.patientId a = MeasureInstance.patientId b
  /\ MeasureInstance.measureId a = MeasureInstance.measureId b
  /\ MeasureInstance.appointmentId a = MeasureInstance.appointmentId b
  /\ MeasureInstance.dueDate a = MeasureInstance.dueDate b
  /\ MeasureInstance.expiresAt a = MeasureInstance.expiresAt b
  /\ MeasureInstance.sentAt a = MeasureInstance.sentAt b
  /\ MeasureInstance.startedAt a = MeasureInstance.startedAt b
  /\ MeasureInstance.completedAt a = MeasureInstance.completedAt b.

(** What the sweep at [now] does to one row. *)
Definition sweptAt (now : Date) (before after : MeasureInstance.t) : Prop :=
  if openPastExpiry now before
  then MeasureInstance.status after = EXPIRED /\ sameButStatus before after
  else after = before.

(** Everything in the database except the instance table. *)
Definition besidesInstances (d : Db) : Db := withInstances d [].

(** Everything in the database except the audit table. *)
Definition besidesAudit (d : Db) : Db := withAuditEvents d [].

(** The row a magic-link token resolves to. *)
Definition findByToken (d : Db) (token : Cuid) : option MeasureInstance.t :=
  find (fun i => cuid_eqb (MeasureInstance.token i) token)
    (measureInstances d).

(** Unfolds a handler down to its first lookup. *)
Ltac run_handler h :=
  unfold h, prisma_measureInstance_findByToken,
    prisma_measureInstance_findById, getDb;
  unfold bind, ret; cbv beta iota.

(** The statuses of the instance table after a run. *)
Definition statusesAfter {A} (run : World * Result A)
  : list MeasureInstanceStatus :=
  map MeasureInstance.status (measureInstances (db (fst run))).

(** The HTTP status a run answered with, if it answered. *)
Definition responseCode (run : World * Result HttpResponse) : option Z :=
  match snd run with
  | Ok r => Some (httpStatus r)
  | Throw _ => None
  end.

(** Nine answers of value 1, one per PHQ-9 question. *)
Definition nineAnswers : list Scoring.Answer :=
  map (fun n => Clinic.answer n 1) [1; 2; 3; 4; 5; 6; 7; 8; 9].

(** Ann's PHQ-9 link, valid until day 7, with stored status [st]. *)
Definition annsLink (st : MeasureInstanceStatus) : World :=
  Clinic.world [Clinic.instance "x" st (Clinic.day 7)].

(** Ann opens her link at [now]. *)
Definition opens (now : Date) (st : MeasureInstanceStatus)
  : World * Result HttpResponse :=
  Questionnaire.GET noFaults now "t-x" Clinic.noHeaders (annsLink st).

(** Ann submits [answers] at [now]. *)
Definition submits (now : Date) (st : MeasureInstanceStatus)
    (answers : list Scoring.Answer) : World * Result HttpResponse :=
  Questionnaire.POST noFaults now "t-x" Clinic.noHeaders
    (Some (Some answers)) (annsLink st).

(** The row an instance key resolves to. *)
Definition findById (d : Db) (id : Cuid) : option MeasureInstance.t :=
  find (fun i => cuid_eqb (MeasureInstance.id i) id) (measureInstances d).

(** A value the scoring callback refuses. *)
Definition outOfRange (a : Scoring.Answer) : Prop :=
  Scoring.value a < 0 \/ 3 < Scoring.value a.

(** A value the scoring callback lets through. *)
Definition inRange (a : Scoring.Answer) : Prop :=
  0 <= Scoring.value a <= 3.

(** [r] is [q] rounded to one decimal place, a tie going up. *)
Definition roundedToOneDecimal (q r : Q) : Prop :=
  exists k : Z,
    (r == inject_Z k / 10)%Q
    /\ (q - (1 # 20) < r)%Q /\ (r <= q + (1 # 20))%Q.

(** The [metrics] member of the compliance answer of a run. *)
Definition reportedMetrics (run : World * Result HttpResponse)
  : option Metrics :=
  match snd run with
  | Ok {| body := ComplianceBody _ _ _ m _ _ _ |} => Some m
  | _ => None
  end.

(** How many instances satisfy [p]. *)
Definition countWhere (p : MeasureInstance.t -> bool) (d : Db) : Z :=
  Z.of_nat (List.length (filter p (measureInstances d))).

(** The start of the reporting window of [days] days ending at [now];
    thirty days when the query names none. *)
Definition windowStart (now : Date) (days : option Z) : Date :=
  now - match days with Some n => n | None => 30 end * MS_PER_DAY.

(** An instance due between [start] and [finish], both included. *)
Definition dueWithin (start finish : Date) (i : MeasureInstance.t) : bool :=
  (start <=? MeasureInstance.dueDate i)
  && (MeasureInstance.dueDate i <=? finish).

(** Eighty of Ann's instances fell due on day 0; twenty-three of them
    were completed on day 1, the others are open until day 17. *)
Definition twentyThreeOfEighty : World :=
  let done (n : nat) :=
    MeasureInstance.markCompleted (Clinic.day 1)
      (Clinic.instance (showZ (Z.of_nat n)) PENDING (Clinic.day 7)) in
  let waiting (n : nat) :=
    Clinic.instance (showZ (Z.of_nat n)) PENDING (Clinic.day 17) in
  Clinic.world (map done (seq 0 23) ++ map waiting (seq 23 57))%list.

(** Four of Ann's instances fall due in the window; three of them were
    completed on day 1. *)
Definition fourDueThreeCompleted : World :=
  let done (key : string) :=
    MeasureInstance.markCompleted (Clinic.day 1)
      (Clinic.instance key PENDING (Clinic.day 7)) in
  Clinic.world
    [done "a"; done "b"; done "c";
     Clinic.instance "d" PENDING (Clinic.day 17)].

(** The world an audit call leaves. *)
Definition afterAudit (F : Faults) (eventType : AuditEventType)
    (context : AuditContext) (w : World) : World :=
  fst (logAuditEvent F eventType context w).

(** Every stored response belongs to COMPLETED instances only. *)
Definition responsesCompleteIn (responses : list MeasureResponse.t)
    (instances : list MeasureInstance.t) : Prop :=
  forall r i,
    In r responses -> In i instances ->
    MeasureInstance.id i = MeasureResponse.measureInstanceId r ->
    MeasureInstance.status i = COMPLETED.

(** The same, of a database. *)
Definition responsesComplete (d : Db) : Prop :=
  responsesCompleteIn (measureResponses d) (measureInstances d).

(** The instance table after the rows keyed [id] are completed. *)
Definition completeRows (now : Date) (id : Cuid)
    (l : list MeasureInstance.t) : list MeasureInstance.t :=
  map (fun r => if cuid_eqb (MeasureInstance.id r) id
                then MeasureInstance.markCompleted now r else r) l.

(** The answer to an accepted submission. *)
Definition accepted : HttpResponse :=
  json (SubmittedBody true Messages.thankYou) 200.

(** A submission that changed neither table and was not accepted. *)
Definition refusedOutcome (w : World) (run : World * Result HttpResponse)
  : Prop :=
  measureResponses (db (fst run)) = measureResponses (db w)
  /\ measureInstances (db (fst run)) = measureInstances (db w)
  /\ snd run <> Ok accepted.

(** A submission that stored its response, completed the rows of its
    instance, and was accepted. *)
Definition committedOutcome (now : Date) (token : Cuid) (w : World)
    (run : World * Result HttpResponse) : Prop :=
  exists instance response,
    findByToken (db w) token = Some instance
    /\ MeasureResponse.measureInstanceId response
       = MeasureInstance.id instance
    /\ measureResponses (db (fst run))
       = (measureResponses (db w) ++ [response])%list
    /\ measureInstances (db (fst run))
       = completeRows now (MeasureInstance.id instance)
           (measureInstances (db w))
    /\ snd run = Ok accepted.

(** Ann, having opened her link, submits nine answers on day 1. *)
Definition annSubmits : World * Result HttpResponse :=
  submits (Clinic.day 1) STARTED nineAnswers.

(** A fault plan: which writes fail, and which audit writes fail. *)
Definition plan (writePlan auditPlan : nat -> bool) : Faults :=
  {| writeFails := writePlan; auditFails := auditPlan |}.

(** What a run leaves behind apart from the audit trail: the other
    tables, the number of writes attempted on them, and the outcome. *)
Definition primary {A} (run : World * Result A) : Db * nat * Result A :=
  (besidesAudit (db (fst run)), writes (fst run), snd run).

(** The policy row the service looks up. *)
Definition isDefault (p : MbcPolicy.t) : bool :=
  String.eqb (MbcPolicy.name p) "default".

(** The policy in force: the row named "default", or the built-in one
    that [getDefaultPolicy] stores when there is none. *)
Definition activePolicy (d : Db) : MbcPolicy.t :=
  match find isDefault (mbcPolicies d) with
  | Some p => p
  | None => defaultPolicyData
  end.

(** The measures of the catalogue the policy in force requires. *)
Definition requiredMeasures (d : Db) : list Measure.t :=
  filter (fun m => existsb (String.eqb (Measure.name m))
                     (MbcPolicy.measuresRequired (activePolicy d)))
    (measures d).

(** What generation never changes. *)
Definition catalogue (d : Db) :=
  (activePolicy d, patients d, measures d, appointments d,
   measureResponses d).

(** The due date a call works with. *)
Definition effectiveDue (now : Date) (options : CreateInstancesOptions)
  : Date :=
  match opt_dueDate options with Some d => d | None => now end.

(** A row as the generator makes it for [options] under [policy]. *)
Definition generatedFor (options : CreateInstancesOptions)
    (policy : MbcPolicy.t) (now : Date) (i : MeasureInstance.t) : Prop :=
  MeasureInstance.patientId i = opt_patientId options
  /\ MeasureInstance.appointmentId i = opt_appointmentId options
  /\ MeasureInstance.dueDate i = effectiveDue now options
  /\ MeasureInstance.expiresAt i
     = MeasureInstance.dueDate i
       + MbcPolicy.expirationDays policy * MS_PER_DAY
  /\ MeasureInstance.status i = PENDING.

(** One result of the batch: the appointment's key with the instances
    made for it. *)
Definition resultFor (d : Db) (a : Appointment.t)
    (result : Cuid * list MeasureInstance.t) : Prop :=
  fst result = Appointment.id a
  /\ map MeasureInstance.measureId (snd result)
     = map Measure.id (requiredMeasures d)
  /\ Forall (fun i => MeasureInstance.appointmentId i
                      = Some (Appointment.id a))
       (snd result).

(** The generator called for Ann's visit of day 3. *)
Definition forVisit : CreateInstancesOptions :=
  {| opt_patientId := "p-ann"; opt_appointmentId := Some "a-1";
     opt_dueDate := Some (Clinic.day 3); opt_userId := None |}.

(** The clinic after one call, and after a second one. *)
Definition generatedOnce : World :=
  fst (createMeasureInstances noFaults (Clinic.day 0) forVisit
         (Clinic.world [])).

Definition generatedTwice : World :=
  fst (createMeasureInstances noFaults (Clinic.day 0) forVisit
         generatedOnce).

(** [b] covers [score]: the test [getSeverityBand] searches with. *)
Definition covers (score : Z) (b : Scoring.SeverityBand) : bool :=
  (Scoring.minScore b <=? score) && (score <=? Scoring.maxScore b).

(** The sum of the answer values. *)
Definition sumValues (answers : list Scoring.Answer) : Z :=
  fold_right (fun a acc => Scoring.value a + acc) 0 answers.

(** The top score of a measure, by its upper-cased name. *)
Definition topScore (upperName : string) : option Z :=
  if String.eqb upperName "PHQ-9" then Some 27
  else if String.eqb upperName "GAD-7" then Some 21
  else None.

(** The lists [getDueAssessments] returns at [now] when no write fails. *)
Definition dueAt (now : Date) (w : World) : list MeasureInstance.t :=
  match snd (getDueAssessments noFaults now w) with
  | Ok (due, _) => due
  | Throw _ => []
  end.

Definition overdueAt (now : Date) (w : World) : list MeasureInstance.t :=
  match snd (getDueAssessments noFaults now w) with
  | Ok (_, overdue) => overdue
  | Throw _ => []
  end.

(** An instance as [createMeasureInstances] makes it for an appointment:
    tied to it and its patient, due when it is scheduled. *)
Definition madeFor (a : Appointment.t) (policy : MbcPolicy.t)
    (i : MeasureInstance.t) : Prop :=
  MeasureInstance.appointmentId i = Some (Appointment.id a)
  /\ MeasureInstance.patientId i = Appointment.patientId a
  /\ MeasureInstance.dueDate i = Appointment.scheduledAt a
  /\ MeasureInstance.expiresAt i
     = Appointment.scheduledAt a
       + MbcPolicy.expirationDays policy * MS_PER_DAY
  /\ MeasureInstance.status i = PENDING.

(** An instance made for a patient outside any appointment, due at
    [due]. *)
Definition standalone (patient : Cuid) (due : Date) (policy : MbcPolicy.t)
    (i : MeasureInstance.t) : Prop :=
  MeasureInstance.patientId i = patient
  /\ MeasureInstance.appointmentId i = None
  /\ MeasureInstance.dueDate i = due
  /\ MeasureInstance.expiresAt i
     = addDays due (MbcPolicy.expirationDays policy)
  /\ MeasureInstance.status i = PENDING.

(** The appointments [generateUpcomingInstances] serves. *)
Definition upcoming (now : Date) (daysAhead : Z) (d : Db)
  : list Appointment.t :=
  filter (upcomingWithoutInstances now (addDays now daysAhead) d)
    (appointments d).


(** The answers of the cron routes. *)
Definition cronUnauthorized : CronResponse :=
  cronJson (CronError "Unauthorized") 401.

Definition generationFailed : CronResponse :=
  cronJson (CronError "Failed to generate instances") 500.

Definition notificationsFailed : CronResponse :=
  cronJson (CronError "Failed to send notifications") 500.





(** The instance table after the rows keyed [id] are started, or sent. *)
Definition startRows (now : Date) (id : Cuid)
    (l : list MeasureInstance.t) : list MeasureInstance.t :=
  map (fun r => if cuid_eqb (MeasureInstance.id r) id
                then MeasureInstance.markStarted now r else r) l.

Definition sendRows (now : Date) (id : Cuid)
    (l : list MeasureInstance.t) : list MeasureInstance.t :=
  map (fun r => if cuid_eqb (MeasureInstance.id r) id
                then MeasureInstance.markSent now r else r) l.

(** The questionnaire as the link serves it. *)
Definition served (instance : MeasureInstance.t) (measure : Measure.t)
    (patient : Patient.t) : HttpResponse :=
  json
    (QuestionnaireBody (MeasureInstance.id instance)
       (Measure.name measure) (Measure.description measure)
       (Patient.firstName patient)
       (orderByAsc Question.questionNum (Measure.questions measure)))
    200.

(** The audit event of a first opening. *)
Definition startedEvent (headers : RequestHeaders)
    (instance : MeasureInstance.t) : AuditEvent.t :=
  {| AuditEvent.eventType := QUESTIONNAIRE_STARTED;
     AuditEvent.context :=
       {| userId := None;
          patientId := Some (MeasureInstance.patientId instance);
          resourceType := Some "MeasureInstance";
          resourceId := Some (MeasureInstance.id instance);
          metadata := [];
          ipAddress := orUndefined (xForwardedFor headers);
          userAgent := orUndefined (headerUserAgent headers) |} |}.

(** The event types of a trail, in order. *)
Definition eventTypes (l : list AuditEvent.t) : list AuditEventType :=
  map AuditEvent.eventType l.

(** The response row a submission of [answers] stores for [instance]. *)
Definition storedResponse (d : Db) (instance : MeasureInstance.t)
    (answers : list Scoring.Answer) (band : string) : MeasureResponse.t :=
  {| MeasureResponse.id := cuid (nextCuid d);
     MeasureResponse.measureInstanceId := MeasureInstance.id instance;
     MeasureResponse.answers := answers;
     MeasureResponse.totalScore := sumValues answers;
     MeasureResponse.severityBand := band |}.

(** An audit event of type [eventType] about the resource [resource] of
    the patient of [instance]. *)
Definition eventAbout (eventType : AuditEventType) (resource : Cuid)
    (instance : MeasureInstance.t) (ev : AuditEvent.t) : Prop :=
  AuditEvent.eventType ev = eventType
  /\ resourceId (AuditEvent.context ev) = Some resource
  /\ patientId (AuditEvent.context ev)
     = Some (MeasureInstance.patientId instance).

(** The answer to a submission for a completed instance. *)
Definition alreadyCompleted : HttpResponse :=
  json (ErrorBody Messages.alreadyCompleted) 400.

(** The mail the send routes hand to the provider for [instance]. *)
Definition linkMail (appUrl : option string) (instance : MeasureInstance.t)
    (patient : Patient.t) (measure : Measure.t) (email : string)
  : MagicLinkEmailData :=
  {| ml_patientFirstName := Patient.firstName patient;
     ml_patientEmail := email;
     ml_measureName := Measure.name measure;
     ml_dueDate := MeasureInstance.dueDate instance;
     ml_magicLinkUrl :=
       match orUndefined appUrl with
       | Some u => u
       | None => "http://localhost:3000"
       end ++ "/q/" ++ MeasureInstance.token instance;
     ml_expiresAt := MeasureInstance.expiresAt instance |}.

(** A request to send the link of [id] by email. *)
Definition byEmail (id : Cuid) : option SendNotificationRequest :=
  Some {| req_instanceId := Some id; req_channel := "email" |}.


(** The answer to a request through an expired link. *)
Definition linkExpired : HttpResponse :=
  json (ErrorBody Messages.linkExpired) 400.

(** A computation under which the database only ever moves along [R]. *)
Definition keeps (R : Db -> Db -> Prop) {A} (m : M A) : Prop :=
  forall w, R (db w) (db (fst (m w))).

(** The audit trail of [d'] is the trail of [d] with events appended. *)
Definition trailExtended (d d' : Db) : Prop :=
  exists extra, auditEvents d' = (auditEvents d ++ extra)%list.

(** What identifies an instance and fixes its schedule. *)
Definition identity (i : MeasureInstance.t) :=
  (MeasureInstance.id i, MeasureInstance.token i,
   MeasureInstance.patientId i, MeasureInstance.measureId i,
   MeasureInstance.appointmentId i, MeasureInstance.dueDate i,
   MeasureInstance.expiresAt i).

(** The instances of [d] are all still in [d'], in place and with their
    identity, followed by new ones; and so are the responses, unchanged. *)
Definition rowsKept (d d' : Db) : Prop :=
  (exists extra,
      map identity (measureInstances d')
      = (map identity (measureInstances d) ++ extra)%list)
  /\ (exists extra,
        measureResponses d' = (measureResponses d ++ extra)%list).

(** The headers of a request after the middleware has set the identity
    of [session] on them, when every value is accepted. *)
Definition withIdentity (session : Middleware.Session) (headers : Headers)
  : Result Headers :=
  andThen (headersSet headers "x-user-id" (Middleware.userId session))
    (fun h1 =>
  andThen (headersSet h1 "x-user-email" (Middleware.email session))
    (fun h2 =>
  andThen (headersSet h2 "x-user-role" (Middleware.role session))
    (fun h3 =>
  andThen (headersSet h3 "x-user-firstname" (Middleware.firstName session))
    (fun h4 =>
  headersSet h4 "x-user-lastname" (Middleware.lastName session))))).

(** A string [Headers] accepts as a value: no code unit above 255, and,
    the whitespace at its ends apart, no NUL, line feed or carriage
    return. *)
Definition acceptable (value : JsString) : bool :=
  match toByteString value with
  | Ok bytes => isHeaderValue (normalizeValue bytes)
  | Throw _ => false
  end.

(** The five fields of a session. *)
Definition fields (session : Middleware.Session) : list JsString :=
  [Middleware.userId session; Middleware.email session;
   Middleware.role session; Middleware.firstName session;
   Middleware.lastName session].

(** A string as it comes back from a header it was set on: without the
    whitespace at its ends. *)
Definition asHeader (value : JsString) : JsString :=
  match toByteString value with
  | Ok bytes => js (normalizeValue bytes)
  | Throw _ => value
  end.

(** A session as [getAuthenticatedUser] reads it back from the identity
    headers. *)
Definition readBack (session : Middleware.Session) : Middleware.Session :=
  {| Middleware.userId := asHeader (Middleware.userId session);
     Middleware.email := asHeader (Middleware.email session);
     Middleware.role := asHeader (Middleware.role session);
     Middleware.firstName := asHeader (Middleware.firstName session);
     Middleware.lastName := asHeader (Middleware.lastName session) |}.

Definition unauthorized : Middleware.Response :=
  Middleware.jsonError "Unauthorized" 401.

(** The empty string, which JavaScript takes for false. *)
Definition blank (value : JsString) : bool :=
  match value with [] => true | _ :: _ => false end.

(** Two clinicians: Kim, whose first name is stored with a space after
    it, and one whose first name starts with U+0141. *)
Definition kim : Middleware.Session :=
  {| Middleware.userId := js "u-1";
     Middleware.email := js "kim@example.org";
     Middleware.role := js "CLINICIAN";
     Middleware.firstName := js "Kim ";
     Middleware.lastName := js "Roe" |}.

Definition lukasz : Middleware.Session :=
  {| Middleware.userId := js "u-2";
     Middleware.email := js "lukasz@example.org";
     Middleware.role := js "CLINICIAN";
     Middleware.firstName := 321%N :: js "ukasz";
     Middleware.lastName := js "Nowak" |}.

(* ================================================================== *)
(** * Properties *)

(* ================================================================== *)
(** ** The expiration sweep *)

Lemma isExpirable_openPastExpiry : forall now i,
  isExpirable now i = openPastExpiry now i.
Proof.
  intros now i. unfold isExpirable, openPastExpiry, statusIn, openStatuses.
  destruct (MeasureInstance.status i); reflexivity.
Qed.

Lemma markExpired_not_expirable : forall now i,
  isExpirable now (MeasureInstance.markExpired i) = false.
Proof. intros. reflexivity. Qed.

Lemma sweep_rows : forall now l,
  Forall2 (sweptAt now) l
    (map (fun r => if isExpirable now r then MeasureInstance.markExpired r
                   else r) l).
Proof.
  intros now l. induction l as [|i l IH]; cbn [map]; constructor; auto.
  unfold sweptAt. rewrite <- isExpirable_openPastExpiry.
  destruct (isExpirable now i); [|reflexivity].
  split; [reflexivity|]. unfold sameButStatus. cbn. repeat split.
Qed.

Lemma sweep_twice : forall now l,
  let once := map (fun r => if isExpirable now r
                            then MeasureInstance.markExpired r else r) l in
  map (fun r => if isExpirable now r then MeasureInstance.markExpired r
                else r) once = once
  /\ filter (isExpirable now) once = [].
Proof.
  intros now l. induction l as [|i l [IH1 IH2]]; cbn; [split; reflexivity|].
  destruct (isExpirable now i) eqn:E.
  - rewrite markExpired_not_expirable. split; [f_equal|]; assumption.
  - rewrite E. split; [f_equal|]; assumption.
Qed.

(** C7. The sweep [markExpiredInstances] turns exactly the PENDING, SENT
    and STARTED instances whose [expiresAt] lies before [now] into
    EXPIRED, changes no other row and no other table, and returns how
    many rows it changed; run again at once it changes nothing and
    returns zero. *)
Theorem markExpiredInstances_sweeps : forall (now : Date) (w : World),
  exists w' w'' : World,
    markExpiredInstances noFaults now w
      = (w', Ok (Z.of_nat
                   (List.length
                      (filter (openPastExpiry now)
                         (measureInstances (db w))))))
    /\ Forall2 (sweptAt now)
         (measureInstances (db w)) (measureInstances (db w'))
    /\ besidesInstances (db w') = besidesInstances (db w)
    /\ markExpiredInstances noFaults now w' = (w'', Ok 0)
    /\ db w'' = db w'.
Proof.
  intros now w.
  unfold markExpiredInstances, prisma_measureInstance_updateMany, dbWrite.
  cbn [writeFails noFaults].
  eexists. eexists. split; [|split; [|split; [|split]]].
  - rewrite (filter_ext _ _ (isExpirable_openPastExpiry now)). reflexivity.
  - cbn. apply sweep_rows.
  - reflexivity.
  - cbn [db measureInstances withInstances].
    destruct (sweep_twice now (measureInstances (db w))) as [_ H0].
    cbv zeta in H0. rewrite H0. reflexivity.
  - cbn [db measureInstances withInstances].
    destruct (sweep_twice now (measureInstances (db w))) as [H1 _].
    cbv zeta in H1. rewrite H1. reflexivity.
Qed.

(* ================================================================== *)
(** ** Opening the link *)

(** C10. A CANCELLED instance whose [expiresAt] is later than [now] is
    served: the GET-by-token handler answers 200 with the instance id, the
    measure's name and description, the patient's first name and every
    question in question order, and writes nothing, so status and
    timestamps stay as they were.  The only refusals the handler ever
    answers are for an unknown token, a COMPLETED or EXPIRED status, or an
    expiry already past. *)
Theorem GET_cancelled_served :
  forall (F : Faults) (now : Date) (token : Cuid) (headers : RequestHeaders)
         (w : World),
    (forall instance measure patient,
        findByToken (db w) token = Some instance ->
        MeasureInstance.status instance = CANCELLED ->
        now < MeasureInstance.expiresAt instance ->
        joinedMeasure (db w) instance = Some measure ->
        joinedPatient (db w) instance = Some patient ->
        Questionnaire.GET F now token headers w
        = (w, Ok (json
                    (QuestionnaireBody (MeasureInstance.id instance)
                       (Measure.name measure) (Measure.description measure)
                       (Patient.firstName patient)
                       (orderByAsc Question.questionNum
                          (Measure.questions measure)))
                    200)))
    /\ (forall w' response,
          Questionnaire.GET F now token headers w = (w', Ok response) ->
          httpStatus response <> 200 ->
          findByToken (db w) token = None
          \/ exists instance,
               findByToken (db w) token = Some instance
               /\ (MeasureInstance.status instance = COMPLETED
                   \/ MeasureInstance.status instance = EXPIRED
                   \/ MeasureInstance.expiresAt instance < now)).
Proof.
  intros F now token headers w. split.
  - intros instance measure patient Hfind Hst Hexp Hm Hp.
    unfold Questionnaire.GET, prisma_measureInstance_findByToken, getDb.
    unfold bind, ret. cbv beta iota.
    unfold findByToken in Hfind. rewrite Hfind, Hst. cbn.
    replace (MeasureInstance.expiresAt instance <? now) with false
      by (symmetry; apply Z.ltb_ge; lia).
    rewrite Hm, Hp. reflexivity.
  - intros w' response Hrun Hcode.
    unfold Questionnaire.GET, prisma_measureInstance_findByToken, getDb in Hrun.
    unfold bind, ret in Hrun. cbv beta iota in Hrun.
    fold (findByToken (db w) token) in Hrun.
    destruct (findByToken (db w) token) as [instance|]; [|left; reflexivity].
    right. exists instance. split; [reflexivity|].
    destruct (status_eqb (MeasureInstance.status instance) COMPLETED)
      eqn:Ec.
    { left.
      destruct (MeasureInstance.status instance); cbn in Ec; congruence. }
    destruct (status_eqb (MeasureInstance.status instance) EXPIRED) eqn:Ee.
    { right; left.
      destruct (MeasureInstance.status instance); cbn in Ee; congruence. }
    destruct (MeasureInstance.expiresAt instance <? now) eqn:Ex.
    { right; right. apply Z.ltb_lt; assumption. }
    exfalso. cbn [orb] in Hrun.
    match type of Hrun with
    | (let (_, _) := ?run in _) = _ => destruct run as [w1 [[]|e]]
    end; [|discriminate].
    unfold liftResult, deref in Hrun.
    destruct (joinedMeasure (db w) instance); [|discriminate].
    destruct (joinedPatient (db w) instance); [|discriminate].
    inversion Hrun; subst response. apply Hcode. reflexivity.
Qed.

(** C10 at a concrete link: Ann's cancelled PHQ-9, opened on day 1 of a
    seven-day validity. *)
Lemma GET_cancelled_served_witness :
  opens (Clinic.day 1) CANCELLED
  = (annsLink CANCELLED,
     Ok (json
           (QuestionnaireBody "i-x" "PHQ-9" "Patient Health Questionnaire"
              "Ann" (Measure.questions Clinic.phq9))
           200)).
Proof.
  exact (proj1
           (GET_cancelled_served noFaults (Clinic.day 1) "t-x"
              Clinic.noHeaders (annsLink CANCELLED))
           (Clinic.instance "x" CANCELLED (Clinic.day 7))
           Clinic.phq9 Clinic.ann
           eq_refl eq_refl eq_refl eq_refl eq_refl).
Defined.

(* ================================================================== *)
(** ** Expired links *)

Lemma status_eqb_eq : forall a b, status_eqb a b = true <-> a = b.
Proof. intros a b; destruct a, b; cbn; split; congruence. Qed.

Lemma status_eqb_neq : forall a b, a <> b -> status_eqb a b = false.
Proof.
  intros a b H. destruct (status_eqb a b) eqn:E; [|reflexivity].
  apply status_eqb_eq in E. contradiction.
Qed.

(** C3 (amended). For an instance that is not COMPLETED and whose
    [expiresAt] lies strictly before [now] -- whatever its stored status,
    PENDING, SENT and STARTED included -- both opening the link and
    submitting answers fail with the expiration error (HTTP 400, "This
    link has expired") and leave the database as it was. *)
Theorem expired_link_refused :
  forall (F : Faults) (now : Date) (token : Cuid) (headers : RequestHeaders)
         (requestBody : option (option (list Scoring.Answer)))
         (w : World) (instance : MeasureInstance.t),
    findByToken (db w) token = Some instance ->
    MeasureInstance.status instance <> COMPLETED ->
    MeasureInstance.expiresAt instance < now ->
    Questionnaire.GET F now token headers w
      = (w, Ok (json (ErrorBody Messages.linkExpired) 400))
    /\ Questionnaire.POST F now token headers requestBody w
      = (w, Ok (json (ErrorBody Messages.linkExpired) 400)).
Proof.
  intros F now token headers requestBody w instance Hfind Hst Hexp.
  unfold findByToken in Hfind.
  apply Z.ltb_lt in Hexp. apply status_eqb_neq in Hst.
  split.
  - run_handler Questionnaire.GET.
    rewrite Hfind, Hst, Hexp, orb_true_r. reflexivity.
  - run_handler Questionnaire.POST. rewrite Hfind, Hst, Hexp. reflexivity.
Qed.

(** C3 at a concrete link: Ann's PENDING PHQ-9 that expired on day 7,
    opened and answered on day 8. *)
Lemma expired_link_refused_witness :
  opens (Clinic.day 8) PENDING
  = (annsLink PENDING, Ok (json (ErrorBody Messages.linkExpired) 400))
  /\ submits (Clinic.day 8) PENDING nineAnswers
     = (annsLink PENDING, Ok (json (ErrorBody Messages.linkExpired) 400)).
Proof.
  apply (expired_link_refused noFaults (Clinic.day 8) "t-x" Clinic.noHeaders
           (Some (Some nineAnswers)) (annsLink PENDING)
           (Clinic.instance "x" PENDING (Clinic.day 7))).
  - reflexivity.
  - discriminate.
  - reflexivity.
Defined.

(** C3, counterexample.  At the very instant [now = expiresAt] a PENDING
    instance is still served: the link opens (200, the instance becomes
    STARTED) and a submission is accepted (200, the instance becomes
    COMPLETED). *)
Lemma link_live_at_expiry_instant :
  map MeasureInstance.expiresAt (measureInstances (db (annsLink PENDING)))
  = [Clinic.day 7]
  /\ responseCode (opens (Clinic.day 7) PENDING) = Some 200
  /\ statusesAfter (opens (Clinic.day 7) PENDING) = [STARTED]
  /\ snd (submits (Clinic.day 7) PENDING nineAnswers) = Ok accepted
  /\ statusesAfter (submits (Clinic.day 7) PENDING nineAnswers)
     = [COMPLETED].
Proof. repeat split; vm_compute; reflexivity. Qed.

(* ================================================================== *)
(** ** Terminal states *)

(** The manual send route refuses every terminal instance and writes
    nothing. *)
Lemma sendPOST_refuses_terminal :
  forall (F : Faults) (mailer : MagicLinkEmailData -> EmailResult)
         (appUrl : option string) (now : Date) (id : Cuid) (channel : string)
         (w : World) (instance : MeasureInstance.t),
    findById (db w) id = Some instance ->
    terminal (MeasureInstance.status instance) ->
    exists message code,
      NotificationsSend.POST F mailer appUrl now
        (Some {| req_instanceId := Some id; req_channel := channel |}) w
      = (w, Ok (json (ErrorBody message) code))
      /\ (code = 400 \/ code = 500).
Proof.
  intros F mailer appUrl now id channel w instance Hfind Hterm.
  unfold NotificationsSend.POST, tryCatch, NotificationsSend.attempt.
  cbn [req_instanceId req_channel].
  destruct (falsy (Some id)) eqn:Hid.
  { do 2 eexists. split; [reflexivity|left; reflexivity]. }
  destruct (negb (channel =? "email")%string).
  { do 2 eexists. split; [reflexivity|left; reflexivity]. }
  unfold prisma_measureInstance_findById, getDb, bind, ret, showOpt.
  cbv beta iota. unfold findById in Hfind. rewrite Hfind.
  unfold liftResult, deref.
  destruct (joinedPatient (db w) instance) as [patient|].
  2:{ do 2 eexists. split; [reflexivity|right; reflexivity]. }
  destruct (falsy (Patient.email patient)).
  { do 2 eexists. split; [reflexivity|left; reflexivity]. }
  destruct Hterm as [H|[H|H]]; rewrite H; cbn [status_eqb orb];
    do 2 eexists; (split; [reflexivity|left; reflexivity]).
Qed.

(** C1, at the failing input.  Ann's PHQ-9 instance is CANCELLED and its
    link is still inside its validity; a submission of nine valid answers
    is accepted: the handler answers 200, stores a response and moves the
    instance from CANCELLED to COMPLETED. *)
Theorem POST_completes_cancelled_instance :
  snd (submits (Clinic.day 1) CANCELLED nineAnswers) = Ok accepted
  /\ statusesAfter (submits (Clinic.day 1) CANCELLED nineAnswers)
     = [COMPLETED]
  /\ map MeasureResponse.measureInstanceId
       (measureResponses
          (db (fst (submits (Clinic.day 1) CANCELLED nineAnswers))))
     = ["i-x"].
Proof. repeat split; vm_compute; reflexivity. Qed.

(* ================================================================== *)
(** ** Validation of a submission *)

Lemma sumAnswers_refuses : forall answers sum,
  Exists outOfRange answers ->
  exists message, Scoring.sumAnswers answers sum = Throw message.
Proof.
  induction answers as [|a rest IH]; intros sum H; inversion H; subst; cbn.
  - assert (Hb : (Scoring.value a <? 0) || (Scoring.value a >? 3) = true).
    { apply orb_true_iff. destruct H1; [left|right].
      - apply Z.ltb_lt; assumption.
      - apply Z.gtb_lt; assumption. }
    rewrite Hb. eexists; reflexivity.
  - destruct ((Scoring.value a <? 0) || (Scoring.value a >? 3)).
    + eexists; reflexivity.
    + apply IH; assumption.
Qed.

Lemma scoreAssessment_refuses : forall answers bands count,
  answers = [] \/ Exists outOfRange answers ->
  exists message,
    Scoring.scoreAssessment answers bands count = Throw message.
Proof.
  intros answers bands count [->|H]; [eexists; reflexivity|].
  unfold Scoring.scoreAssessment.
  destruct (sumAnswers_refuses answers 0 H) as [m Hm]. rewrite Hm.
  destruct answers; eexists; reflexivity.
Qed.

Lemma scoreMeasure_refuses : forall name answers,
  answers = [] \/ Exists outOfRange answers ->
  exists message, Scoring.scoreMeasure name answers = Throw message.
Proof.
  intros name answers H. unfold Scoring.scoreMeasure.
  destruct (Scoring.toUpperCase name =? "PHQ-9")%string.
  { apply scoreAssessment_refuses; assumption. }
  destruct (Scoring.toUpperCase name =? "GAD-7")%string.
  { apply scoreAssessment_refuses; assumption. }
  eexists; reflexivity.
Qed.

Lemma sumAnswers_accepts : forall answers sum,
  Forall inRange answers ->
  exists total,
    Scoring.sumAnswers answers sum = Ok total
    /\ sum <= total <= sum + 3 * Z.of_nat (List.length answers).
Proof.
  induction answers as [|a rest IH]; intros sum H.
  - exists sum. cbn. split; [reflexivity|lia].
  - inversion H as [|? ? Ha Hrest]; subst. unfold inRange in Ha.
    cbn [Scoring.sumAnswers].
    replace ((Scoring.value a <? 0) || (Scoring.value a >? 3)) with false.
    2:{ symmetry. apply orb_false_iff. split.
        - apply Z.ltb_ge; lia.
        - rewrite Z.gtb_ltb. apply Z.ltb_ge; lia. }
    destruct (IH (sum + Scoring.value a) Hrest) as [total [Hrun Hb]].
    exists total. split; [exact Hrun|].
    change (List.length (a :: rest)) with (S (List.length rest)). lia.
Qed.

Lemma PHQ9_bands_cover : forall score,
  0 <= score <= 27 ->
  exists l,
    Scoring.getSeverityBand score Scoring.PHQ9_SEVERITY_BANDS = Ok l.
Proof.
  intros score H.
  unfold Scoring.getSeverityBand, Scoring.PHQ9_SEVERITY_BANDS, Scoring.band.
  cbn [find Scoring.minScore Scoring.maxScore Scoring.label].
  repeat match goal with
         | |- context [(?a <=? ?b) && (?c <=? ?d)] =>
             destruct (Z.leb_spec a b); destruct (Z.leb_spec c d);
             cbn [andb]; try (eexists; reflexivity); try lia
         end.
Qed.

(** The nine-question PHQ-9 scores any one to nine answers in range. *)
Lemma scorePHQ9_ignores_count : forall answers,
  answers <> [] ->
  Forall inRange answers ->
  (List.length answers <= 9)%nat ->
  exists r,
    Scoring.scorePHQ9 answers = Ok r
    /\ Scoring.answeredQuestions r = Z.of_nat (List.length answers)
    /\ Scoring.maxPossibleScore r = 27.
Proof.
  intros answers Hne Hall Hlen.
  unfold Scoring.scorePHQ9, Scoring.scoreAssessment.
  destruct (sumAnswers_accepts answers 0 Hall) as [total [Hrun Hb]].
  rewrite Hrun.
  destruct (PHQ9_bands_cover total) as [l Hl]; [lia|].
  rewrite Hl. destruct answers as [|a rest]; [contradiction|].
  eexists. split; [reflexivity|]. split; reflexivity.
Qed.

(** C4 (amended). A submission whose [answers] member is missing or not
    an array, whose answer list is empty, or which contains a value below
    0 or above 3, is answered with HTTP 400 and an error message, and the
    database is left as it was: the instance is not completed and no
    response is stored.  (The number of answers is not compared with the
    measure's question count.) *)
Theorem invalid_submission_rejected :
  forall (F : Faults) (now : Date) (token : Cuid) (headers : RequestHeaders)
         (requestBody : option (list Scoring.Answer))
         (w : World) (instance : MeasureInstance.t),
    findByToken (db w) token = Some instance ->
    (requestBody = None
     \/ requestBody = Some []
     \/ exists answers,
          requestBody = Some answers /\ Exists outOfRange answers) ->
    exists message,
      Questionnaire.POST F now token headers (Some requestBody) w
      = (w, Ok (json (ErrorBody message) 400)).
Proof.
  intros F now token headers requestBody w instance Hfind Hbad.
  run_handler Questionnaire.POST. unfold findByToken in Hfind. rewrite Hfind.
  destruct (status_eqb (MeasureInstance.status instance) COMPLETED).
  { eexists; reflexivity. }
  destruct (MeasureInstance.expiresAt instance <? now).
  { eexists; reflexivity. }
  destruct requestBody as [answers|]; [|eexists; reflexivity].
  assert (Hans : answers = [] \/ Exists outOfRange answers).
  { destruct Hbad as [H|[H|[a [H Ha]]]]; try discriminate;
      inversion H; subst; auto. }
  unfold deref.
  destruct (joinedMeasure (db w) instance) as [measure|];
    [|eexists; reflexivity].
  destruct (scoreMeasure_refuses (Measure.name measure) answers Hans)
    as [m Hm].
  rewrite Hm. eexists; reflexivity.
Qed.

(** C4 at a concrete submission: one answer of value 5 for Ann's PENDING
    PHQ-9. *)
Lemma invalid_submission_rejected_witness :
  exists message,
    submits (Clinic.day 1) PENDING [Clinic.answer 1 5]
    = (annsLink PENDING, Ok (json (ErrorBody message) 400)).
Proof.
  apply (invalid_submission_rejected noFaults (Clinic.day 1) "t-x"
           Clinic.noHeaders (Some [Clinic.answer 1 5]) (annsLink PENDING)
           (Clinic.instance "x" PENDING (Clinic.day 7))).
  - reflexivity.
  - right; right. exists [Clinic.answer 1 5]. split; [reflexivity|].
    constructor. right. reflexivity.
Defined.

(** C4, counterexample.  PHQ-9 has nine questions; a submission holding a
    single answer, in range, is accepted: the handler answers 200, the
    instance becomes COMPLETED and a response with total score 2 is
    stored. *)
Lemma short_submission_accepted :
  List.length (Measure.questions Clinic.phq9) = 9%nat
  /\ snd (submits (Clinic.day 1) PENDING [Clinic.answer 1 2]) = Ok accepted
  /\ statusesAfter (submits (Clinic.day 1) PENDING [Clinic.answer 1 2])
     = [COMPLETED]
  /\ map MeasureResponse.totalScore
       (measureResponses
          (db (fst (submits (Clinic.day 1) PENDING [Clinic.answer 1 2]))))
     = [2].
Proof. repeat split; vm_compute; reflexivity. Qed.

(* ================================================================== *)
(** ** Compliance rate *)

(** The specification's example: four due, three completed, reported as
    75. *)
Lemma compliance_rate_example :
  reportedMetrics
    (Compliance.GET noFaults (Clinic.day 10) None None fourDueThreeCompleted)
  = Some {| totalDue := 4; totalCompleted := 3; totalOverdue := 1;
            complianceRate := 75%float |}.
Proof. vm_compute. reflexivity. Qed.

(** The rate the claim asks for at 23 completed of 80 due: 28.75
    rounded to one decimal place is 28.8, and no other value is. *)
Lemma rounding_of_23_of_80 : forall r : Q,
  roundedToOneDecimal (100 * inject_Z 23 / inject_Z 80) r
  <-> (r == 288 # 10)%Q.
Proof.
  intro r. unfold roundedToOneDecimal. split.
  - intros (k & Hk & Hlo & Hhi). rewrite Hk in *.
    assert (H : k = 288).
    { unfold Qlt, Qle, Qdiv, Qmult, Qplus, Qminus, Qopp, Qinv, inject_Z
        in Hlo, Hhi.
      cbn in Hlo, Hhi. lia. }
    subst k. reflexivity.
  - intro H. exists 288. rewrite H.
    split; [reflexivity|]. split; [reflexivity|discriminate].
Qed.

(** C9, at the failing inputs.  With 23 of 80 due instances completed
    the claim asks for 100 * 23 / 80 = 28.75 rounded to one decimal
    place, 28.8; the route reports 28.7.  It divides first and
    multiplies by 100 afterwards, and in binary64 that product falls
    just below 28.75; computed in the claim's order, 100 * 23 / 80, the
    same rounding gives 28.8.  And with no instance due in the reporting
    window, whose end the answer gives as [now], the claim asks for 100;
    an instance due after [now] makes the route count one due and report
    0. *)
Theorem compliance_rate_misrounds :
  reportedMetrics
    (Compliance.GET noFaults (Clinic.day 10) None None twentyThreeOfEighty)
  = Some {| totalDue := 80; totalCompleted := 23; totalOverdue := 57;
            complianceRate := (287 / 10)%float |}
  /\ roundedToOneDecimal (100 * inject_Z 23 / inject_Z 80) (288 # 10)
  /\ PrimFloat.eqb (287 / 10) (288 / 10) = false
  /\ PrimFloat.ltb (rawComplianceRate 23 80) (2875 / 100) = true
  /\ roundToTenth (ofZ 100 * ofZ 23 / ofZ 80) = (288 / 10)%float
  /\ countWhere
       (dueWithin (windowStart (Clinic.day (-5)) None) (Clinic.day (-5)))
       (db (annsLink PENDING))
     = 0
  /\ reportedMetrics
       (Compliance.GET noFaults (Clinic.day (-5)) None None
          (annsLink PENDING))
     = Some {| totalDue := 1; totalCompleted := 0; totalOverdue := 0;
               complianceRate := 0%float |}.
Proof.
  split; [vm_compute; reflexivity|].
  split; [apply rounding_of_23_of_80; reflexivity|].
  repeat split; vm_compute; reflexivity.
Qed.

(* ================================================================== *)
(** ** Audit writes never surface *)

Lemma logAuditEvent_run : forall F eventType context w,
  logAuditEvent F eventType context w
  = (afterAudit F eventType context w, Ok tt).
Proof.
  intros. unfold afterAudit, logAuditEvent, tryCatch,
    prisma_auditEvent_create, ret.
  destruct (auditFails F (auditWrites w)); reflexivity.
Qed.

Lemma afterAudit_besides : forall F eventType context w,
  besidesAudit (db (afterAudit F eventType context w)) = besidesAudit (db w)
  /\ writes (afterAudit F eventType context w) = writes w.
Proof.
  intros. unfold afterAudit, logAuditEvent, tryCatch,
    prisma_auditEvent_create, ret.
  destruct (auditFails F (auditWrites w)); split; reflexivity.
Qed.

Lemma besidesAudit_tables : forall d d',
  besidesAudit d = besidesAudit d' ->
  mbcPolicies d = mbcPolicies d' /\ patients d = patients d'
  /\ measures d = measures d' /\ appointments d = appointments d'
  /\ measureInstances d = measureInstances d'
  /\ measureResponses d = measureResponses d'
  /\ nextCuid d = nextCuid d'.
Proof.
  intros d d' H. unfold besidesAudit, withAuditEvents in H.
  injection H as -> -> -> -> -> -> ->. repeat split.
Qed.

Lemma afterAudit_instances : forall F eventType context w,
  measureInstances (db (afterAudit F eventType context w))
  = measureInstances (db w).
Proof.
  intros. destruct (afterAudit_besides F eventType context w) as [H _].
  apply besidesAudit_tables in H. tauto.
Qed.

Lemma afterAudit_responses : forall F eventType context w,
  measureResponses (db (afterAudit F eventType context w))
  = measureResponses (db w).
Proof.
  intros. destruct (afterAudit_besides F eventType context w) as [H _].
  apply besidesAudit_tables in H. tauto.
Qed.

(* ================================================================== *)
(** ** Completion is atomic *)

Lemma cuid_eqb_eq : forall a b, cuid_eqb a b = true <-> a = b.
Proof. intros. apply String.eqb_eq. Qed.

Lemma responsesComplete_commit :
  forall now responses instances instance response,
    responsesCompleteIn responses instances ->
    MeasureResponse.measureInstanceId response
    = MeasureInstance.id instance ->
    responsesCompleteIn (responses ++ [response])%list
      (completeRows now (MeasureInstance.id instance) instances).
Proof.
  intros now responses instances instance response Hinv Hid r0 i0 Hin Hin0 Hk.
  unfold completeRows in Hin0. apply in_map_iff in Hin0.
  destruct Hin0 as [i [Hi0 Hini]].
  destruct (cuid_eqb (MeasureInstance.id i) (MeasureInstance.id instance))
    eqn:E.
  - subst i0. reflexivity.
  - subst i0. apply in_app_or in Hin. destruct Hin as [Hold|[<-|[]]].
    + apply (Hinv r0 i Hold Hini Hk).
    + rewrite Hid in Hk. apply cuid_eqb_eq in Hk. congruence.
Qed.

(** C5. Whatever writes fail, a submission either stores the response
    and turns the instance COMPLETED, both, answering 200; or it stores no
    response and leaves the instance table as it was, and does not answer
    with the acceptance.  In particular a database in which every response
    belongs to a COMPLETED instance is still such a database afterwards. *)
Theorem POST_completion_atomic :
  forall (F : Faults) (now : Date) (token : Cuid) (headers : RequestHeaders)
         (requestBody : option (option (list Scoring.Answer))) (w : World),
    responsesComplete (db w) ->
    responsesComplete
      (db (fst (Questionnaire.POST F now token headers requestBody w)))
    /\ (refusedOutcome w
          (Questionnaire.POST F now token headers requestBody w)
        \/ committedOutcome now token w
             (Questionnaire.POST F now token headers requestBody w)).
Proof.
  intros F now token headers requestBody w Hinv.
  assert (Hsame : forall run : World * Result HttpResponse,
            fst run = w -> snd run <> Ok accepted ->
            responsesComplete (db (fst run))
            /\ (refusedOutcome w run \/ committedOutcome now token w run)).
  { intros run Hw Hne. rewrite Hw. split; [assumption|left].
    unfold refusedOutcome. rewrite Hw. repeat split. assumption. }
  unfold committedOutcome in *.
  run_handler Questionnaire.POST. fold (findByToken (db w) token).
  destruct (findByToken (db w) token) as [instance|] eqn:Hfind;
    [|apply Hsame; [reflexivity|discriminate]].
  destruct (status_eqb (MeasureInstance.status instance) COMPLETED);
    [apply Hsame; [reflexivity|discriminate]|].
  destruct (MeasureInstance.expiresAt instance <? now);
    [apply Hsame; [reflexivity|discriminate]|].
  destruct requestBody as [[answers|]|];
    [| apply Hsame; [reflexivity|discriminate]
     | apply Hsame; [reflexivity|discriminate]].
  destruct (deref (joinedMeasure (db w) instance) Measure.name)
    as [measureName|e]; [|apply Hsame; [reflexivity|discriminate]].
  destruct (Scoring.scoreMeasure measureName answers) as [scoringResult|e];
    [|apply Hsame; [reflexivity|discriminate]].
  unfold transaction, prisma_measureResponse_create,
    prisma_measureInstance_update, dbWrite.
  cbv beta iota.
  destruct (writeFails F (writes w)).
  { cbn. split; [assumption|left; repeat split; discriminate]. }
  cbn [db writes auditWrites].
  destruct (writeFails F (S (writes w))).
  { cbn. split; [assumption|left; repeat split; discriminate]. }
  cbn [measureInstances withNextCuid withResponses withInstances].
  destruct (find (fun i => cuid_eqb (MeasureInstance.id i)
                             (MeasureInstance.id instance))
              (measureInstances (db w))) as [row|] eqn:Hrow.
  2:{ exfalso. unfold findByToken in Hfind. apply find_some in Hfind.
      destruct Hfind as [Hin _].
      apply (find_none _ _ Hrow) in Hin.
      unfold cuid_eqb in Hin. rewrite String.eqb_refl in Hin.
      discriminate. }
  unfold audit.questionnaireSubmitted, audit.scoreComputed.
  rewrite !logAuditEvent_run. cbn [fst snd]. unfold responsesComplete.
  rewrite !afterAudit_instances, !afterAudit_responses.
  cbn [db measureInstances measureResponses withNextCuid withResponses
         withInstances].
  split.
  - apply responsesComplete_commit; [exact Hinv|reflexivity].
  - right. eexists instance, _. repeat split; reflexivity.
Qed.

(** C5 at Ann's submission. *)
Lemma POST_completion_atomic_witness :
  responsesComplete (db (fst annSubmits))
  /\ (refusedOutcome (annsLink STARTED) annSubmits
      \/ committedOutcome (Clinic.day 1) "t-x" (annsLink STARTED)
           annSubmits).
Proof.
  apply (POST_completion_atomic noFaults (Clinic.day 1) "t-x"
           Clinic.noHeaders (Some (Some nineAnswers)) (annsLink STARTED)).
  intros r i [].
Defined.

(* ------------------------------------------------------------------ *)
(** *** The other lifecycle steps keep responses on COMPLETED rows *)

Lemma responsesComplete_update :
  forall responses instances instance data,
    responsesCompleteIn responses instances ->
    In instance instances ->
    MeasureInstance.status instance <> COMPLETED ->
    (forall r, MeasureInstance.id (data r) = MeasureInstance.id r) ->
    responsesCompleteIn responses
      (map (fun r => if cuid_eqb (MeasureInstance.id r)
                          (MeasureInstance.id instance)
                     then data r else r)
         instances).
Proof.
  intros responses instances instance data Hinv Hin Hst Hid r i' Hr Hi' Hk.
  apply in_map_iff in Hi'. destruct Hi' as [i [Hi Hini]].
  destruct (cuid_eqb (MeasureInstance.id i) (MeasureInstance.id instance))
    eqn:E.
  - exfalso. apply Hst. apply (Hinv r instance Hr Hin).
    apply cuid_eqb_eq in E. rewrite <- E, <- Hk, <- Hi. symmetry. apply Hid.
  - subst i'. apply (Hinv r i Hr Hini Hk).
Qed.

Lemma GET_keeps_responsesComplete :
  forall F now token headers w,
    responsesComplete (db w) ->
    responsesComplete (db (fst (Questionnaire.GET F now token headers w))).
Proof.
  intros F now token headers w Hinv.
  run_handler Questionnaire.GET.
  destruct (find _ (measureInstances (db w))) as [instance|] eqn:Hfind;
    [|exact Hinv].
  destruct (status_eqb (MeasureInstance.status instance) COMPLETED) eqn:Ec;
    [exact Hinv|].
  destruct (status_eqb (MeasureInstance.status instance) EXPIRED
            || (MeasureInstance.expiresAt instance <? now));
    [exact Hinv|].
  unfold liftResult.
  destruct (status_eqb (MeasureInstance.status instance) PENDING
            || status_eqb (MeasureInstance.status instance) SENT).
  - unfold prisma_measureInstance_update, dbWrite.
    destruct (writeFails F (writes w)); [exact Hinv|].
    destruct (find (fun i => cuid_eqb (MeasureInstance.id i)
                               (MeasureInstance.id instance))
                (measureInstances (db w))); [|exact Hinv].
    unfold audit.questionnaireStarted. rewrite logAuditEvent_run.
    assert (Hnew : responsesComplete
                     (db (afterAudit F QUESTIONNAIRE_STARTED
                            {| userId := None;
                               patientId :=
                                 Some (MeasureInstance.patientId instance);
                               resourceType := Some "MeasureInstance";
                               resourceId :=
                                 Some (MeasureInstance.id instance);
                               metadata := [];
                               ipAddress :=
                                 orUndefined (xForwardedFor headers);
                               userAgent :=
                                 orUndefined (headerUserAgent headers) |}
                            {| db :=
                                 withInstances (db w)
                                   (map (fun r =>
                                           if cuid_eqb (MeasureInstance.id r)
                                                (MeasureInstance.id instance)
                                           then MeasureInstance.markStarted
                                                  now r
                                           else r)
                                      (measureInstances (db w)));
                               writes := S (writes w);
                               auditWrites := auditWrites w |}))).
    { unfold responsesComplete.
      rewrite afterAudit_instances, afterAudit_responses.
      cbn [db measureInstances measureResponses withInstances].
      apply responsesComplete_update; [exact Hinv| | |reflexivity].
      - apply find_some in Hfind. tauto.
      - intro H. rewrite H in Ec. discriminate. }
    repeat match goal with
           | |- context [deref ?x ?f] => destruct (deref x f)
           end; exact Hnew.
  - repeat match goal with
           | |- context [deref ?x ?f] => destruct (deref x f)
           end; exact Hinv.
Qed.

Lemma sweep_keeps_responsesComplete : forall F now w,
  responsesComplete (db w) ->
  responsesComplete (db (fst (markExpiredInstances F now w))).
Proof.
  intros F now w Hinv.
  unfold markExpiredInstances, prisma_measureInstance_updateMany, dbWrite.
  destruct (writeFails F (writes w)); [exact Hinv|].
  cbn [fst db]. unfold responsesComplete.
  cbn [measureInstances measureResponses withInstances].
  intros r i' Hr Hi' Hk.
  apply in_map_iff in Hi'. destruct Hi' as [i [Hi Hini]].
  destruct (isExpirable now i) eqn:E.
  - exfalso. subst i'. cbn [MeasureInstance.markExpired MeasureInstance.id]
      in Hk.
    pose proof (Hinv r i Hr Hini Hk) as Hc.
    unfold isExpirable in E. rewrite Hc in E. discriminate.
  - subst i'. apply (Hinv r i Hr Hini Hk).
Qed.

Lemma send_keeps_responsesComplete :
  forall F mailer appUrl now request w,
    responsesComplete (db w) ->
    responsesComplete
      (db (fst (NotificationsSend.POST F mailer appUrl now request w))).
Proof.
  intros F mailer appUrl now request w Hinv.
  unfold NotificationsSend.POST, tryCatch, NotificationsSend.attempt.
  destruct request as [body|]; [|exact Hinv].
  destruct (falsy (req_instanceId body)); [exact Hinv|].
  destruct (negb (req_channel body =? "email")%string); [exact Hinv|].
  unfold prisma_measureInstance_findById, getDb, bind, ret, liftResult.
  cbv beta iota.
  destruct (find (fun i => cuid_eqb (MeasureInstance.id i)
                             (showOpt (req_instanceId body)))
              (measureInstances (db w))) as [instance|] eqn:Hfind;
    [|exact Hinv].
  destruct (deref (joinedPatient (db w) instance) Patient.email)
    as [email|]; [|exact Hinv].
  destruct (falsy email); [exact Hinv|].
  destruct (status_eqb (MeasureInstance.status instance) COMPLETED) eqn:Ec;
    [exact Hinv|].
  cbn [orb].
  destruct (status_eqb (MeasureInstance.status instance) CANCELLED);
    [exact Hinv|].
  destruct (status_eqb (MeasureInstance.status instance) EXPIRED);
    [exact Hinv|].
  destruct (deref (joinedPatient (db w) instance) Patient.firstName);
    [|exact Hinv].
  destruct (deref (joinedMeasure (db w) instance) Measure.name);
    [|exact Hinv].
  match goal with
  | |- context [negb (er_success ?r)] => destruct (negb (er_success r))
  end; [exact Hinv|].
  unfold prisma_measureInstance_update, dbWrite.
  destruct (writeFails F (writes w)); [exact Hinv|].
  rewrite Hfind.
  unfold audit.linkSent. rewrite logAuditEvent_run. cbn [fst].
  unfold responsesComplete.
  rewrite afterAudit_instances, afterAudit_responses.
  cbn [db measureInstances measureResponses withInstances].
  apply find_some in Hfind. destruct Hfind as [Hin Hid].
  apply cuid_eqb_eq in Hid. rewrite <- Hid.
  apply responsesComplete_update; [exact Hinv|exact Hin| |reflexivity].
  intro H. rewrite H in Ec. discriminate.
Qed.

(** What the submit handler accepts: the status may be anything but
    COMPLETED (CANCELLED and EXPIRED included), [now] may equal
    [expiresAt], and the answers may be fewer than the questions. *)
Lemma valid_submission_accepted :
  forall now token headers answers w instance measure,
    findByToken (db w) token = Some instance ->
    MeasureInstance.status instance <> COMPLETED ->
    now <= MeasureInstance.expiresAt instance ->
    joinedMeasure (db w) instance = Some measure ->
    Scoring.toUpperCase (Measure.name measure) = "PHQ-9" ->
    answers <> [] -> Forall inRange answers ->
    (List.length answers <= 9)%nat ->
    committedOutcome now token w
      (Questionnaire.POST noFaults now token headers (Some (Some answers))
         w).
Proof.
  intros now token headers answers w instance measure
    Hfind Hst Hexp Hm Hname Hne Hall Hlen.
  unfold committedOutcome. rewrite Hfind.
  run_handler Questionnaire.POST.
  unfold findByToken in Hfind. rewrite Hfind.
  rewrite (status_eqb_neq _ _ Hst).
  replace (MeasureInstance.expiresAt instance <? now) with false
    by (symmetry; apply Z.ltb_ge; lia).
  rewrite Hm. cbn [deref]. unfold Scoring.scoreMeasure. rewrite Hname.
  cbn [String.eqb Ascii.eqb Bool.eqb].
  destruct (scorePHQ9_ignores_count answers Hne Hall Hlen) as [r [Hr _]].
  rewrite Hr.
  unfold transaction, prisma_measureResponse_create,
    prisma_measureInstance_update, dbWrite.
  cbv beta iota. cbn [writeFails noFaults db writes auditWrites].
  cbn [measureInstances withNextCuid withResponses withInstances].
  destruct (find (fun i => cuid_eqb (MeasureInstance.id i)
                             (MeasureInstance.id instance))
              (measureInstances (db w))) as [row|] eqn:Hrow.
  2:{ exfalso. apply find_some in Hfind. destruct Hfind as [Hin _].
      apply (find_none _ _ Hrow) in Hin.
      unfold cuid_eqb in Hin. rewrite String.eqb_refl in Hin.
      discriminate. }
  unfold audit.questionnaireSubmitted, audit.scoreComputed.
  rewrite !logAuditEvent_run. cbn [fst snd].
  rewrite !afterAudit_instances, !afterAudit_responses.
  cbn [db measureInstances measureResponses withNextCuid withResponses
         withInstances].
  eexists instance, _. repeat split; reflexivity.
Qed.

Lemma primary_afterAudit : forall A F eventType context w (r : Result A),
  primary (afterAudit F eventType context w, r) = primary (w, r).
Proof.
  intros. unfold primary. cbn [fst snd].
  destruct (afterAudit_besides F eventType context w) as [-> ->].
  reflexivity.
Qed.

Lemma forEach_logAuditEvent :
  forall A F eventType (context : A -> AuditContext) (l : list A) w,
  exists w',
    forEach l (fun x => logAuditEvent F eventType (context x)) w
    = (w', Ok tt)
    /\ forall B (r : Result B), primary (w', r) = primary (w, r).
Proof.
  intros A F eventType context l. induction l as [|x l IH]; intro w.
  - exists w. split; reflexivity.
  - cbn [forEach]. unfold bind. rewrite logAuditEvent_run.
    destruct (IH (afterAudit F eventType (context x) w)) as [w' [Hrun Hp]].
    exists w'. split; [exact Hrun|].
    intros B r. rewrite Hp. apply primary_afterAudit.
Qed.

(** C6. A failing audit write is swallowed: [logAuditEvent] returns
    normally for every event kind and context and touches no table but
    the audit trail; and whether audit writes fail or succeed, opening a
    link, submitting answers, sending a notification and generating
    instances answer the same and leave the same rows behind. *)
Theorem audit_failure_never_surfaces :
  forall (writePlan auditPlan auditPlan' : nat -> bool),
    (forall eventType context w,
        snd (logAuditEvent (plan writePlan auditPlan) eventType context w)
        = Ok tt
        /\ besidesAudit
             (db (fst (logAuditEvent (plan writePlan auditPlan)
                         eventType context w)))
           = besidesAudit (db w))
    /\ (forall now token headers w,
          primary
            (Questionnaire.GET (plan writePlan auditPlan) now token headers w)
          = primary
              (Questionnaire.GET (plan writePlan auditPlan') now token
                 headers w))
    /\ (forall now token headers requestBody w,
          primary
            (Questionnaire.POST (plan writePlan auditPlan) now token headers
               requestBody w)
          = primary
              (Questionnaire.POST (plan writePlan auditPlan') now token
                 headers requestBody w))
    /\ (forall mailer appUrl now request w,
          primary
            (NotificationsSend.POST (plan writePlan auditPlan) mailer appUrl
               now request w)
          = primary
              (NotificationsSend.POST (plan writePlan auditPlan') mailer
                 appUrl now request w))
    /\ (forall now options w,
          primary (createMeasureInstances (plan writePlan auditPlan) now
                     options w)
          = primary (createMeasureInstances (plan writePlan auditPlan') now
                       options w)).
Proof.
  intros writePlan auditPlan auditPlan'.
  split; [|split; [|split; [|split]]].
  - intros eventType context w. rewrite logAuditEvent_run. cbn [fst snd].
    split; [reflexivity|apply afterAudit_besides].
  - intros now token headers w. run_handler Questionnaire.GET.
    destruct (find _ (measureInstances (db w))) as [instance|];
      [|reflexivity].
    destruct (status_eqb (MeasureInstance.status instance) COMPLETED);
      [reflexivity|].
    destruct (status_eqb (MeasureInstance.status instance) EXPIRED
              || (MeasureInstance.expiresAt instance <? now));
      [reflexivity|].
    unfold liftResult.
    destruct (status_eqb (MeasureInstance.status instance) PENDING
              || status_eqb (MeasureInstance.status instance) SENT).
    + unfold prisma_measureInstance_update, dbWrite, plan.
      cbn [writeFails].
      destruct (writePlan (writes w)); [reflexivity|].
      destruct (find _ (measureInstances (db w))); [|reflexivity].
      unfold audit.questionnaireStarted. rewrite !logAuditEvent_run.
      repeat match goal with
             | |- context [deref ?x ?f] => destruct (deref x f)
             end;
        rewrite !primary_afterAudit; reflexivity.
    + reflexivity.
  - intros now token headers requestBody w. run_handler Questionnaire.POST.
    destruct (find _ (measureInstances (db w))) as [instance|];
      [|reflexivity].
    destruct (status_eqb (MeasureInstance.status instance) COMPLETED);
      [reflexivity|].
    destruct (MeasureInstance.expiresAt instance <? now); [reflexivity|].
    destruct requestBody as [[answers|]|]; try reflexivity.
    destruct (deref (joinedMeasure (db w) instance) Measure.name)
      as [measureName|]; [|reflexivity].
    destruct (Scoring.scoreMeasure measureName answers); [|reflexivity].
    unfold transaction, prisma_measureResponse_create,
      prisma_measureInstance_update, dbWrite, plan.
    cbv beta iota. cbn [writeFails].
    destruct (writePlan (writes w)); [reflexivity|].
    cbn [db writes auditWrites].
    destruct (writePlan (S (writes w))); [reflexivity|].
    cbn [measureInstances withNextCuid withResponses withInstances].
    destruct (find _ (measureInstances (db w))); [|reflexivity].
    unfold audit.questionnaireSubmitted, audit.scoreComputed.
    rewrite !logAuditEvent_run. rewrite !primary_afterAudit. reflexivity.
  - intros mailer appUrl now request w.
    unfold NotificationsSend.POST, tryCatch, NotificationsSend.attempt.
    destruct request as [body|]; [|reflexivity].
    destruct (falsy (req_instanceId body)); [reflexivity|].
    destruct (negb (req_channel body =? "email")%string); [reflexivity|].
    unfold prisma_measureInstance_findById, getDb, bind, ret, liftResult.
    cbv beta iota.
    destruct (find _ (measureInstances (db w))) as [instance|];
      [|reflexivity].
    destruct (deref (joinedPatient (db w) instance) Patient.email)
      as [email|]; [|reflexivity].
    destruct (falsy email); [reflexivity|].
    destruct (status_eqb (MeasureInstance.status instance) COMPLETED
              || status_eqb (MeasureInstance.status instance) CANCELLED);
      [reflexivity|].
    destruct (status_eqb (MeasureInstance.status instance) EXPIRED);
      [reflexivity|].
    destruct (deref (joinedPatient (db w) instance) Patient.firstName);
      [|reflexivity].
    destruct (deref (joinedMeasure (db w) instance) Measure.name);
      [|reflexivity].
    match goal with
    | |- context [negb (er_success ?r)] => destruct (negb (er_success r))
    end; [reflexivity|].
    unfold prisma_measureInstance_update, dbWrite, plan. cbn [writeFails].
    destruct (writePlan (writes w)); [reflexivity|].
    destruct (find _ (measureInstances (db w))); [|reflexivity].
    unfold audit.linkSent. rewrite !logAuditEvent_run.
    rewrite !primary_afterAudit. reflexivity.
  - intros now options w. unfold createMeasureInstances.
    unfold getDefaultPolicy, prisma_mbcPolicy_findUnique,
      prisma_mbcPolicy_create, prisma_measure_findMany,
      prisma_measureInstance_create, dbWrite, getDb, plan.
    unfold bind, ret. cbv beta iota. cbn [writeFails].
    match goal with
    | |- primary (let (_, _) := ?prefix in _) = _ =>
        destruct prefix as [w1 [policy|e]]; [|reflexivity]
    end.
    match goal with
    | |- primary (let (_, _) := ?prefix in _) = _ =>
        destruct prefix as [w2 [instances|e]]; [|reflexivity]
    end.
    unfold audit.instanceCreated.
    match goal with
    | |- primary
           (let (_, _) :=
              forEach ?l (fun x => logAuditEvent ?F ?ev (@?c x)) ?w in _)
         = primary
             (let (_, _) :=
                forEach _ (fun y => logAuditEvent ?F' _ _) _ in _) =>
        destruct (forEach_logAuditEvent _ F ev c l w) as [wa [-> Ha]];
        destruct (forEach_logAuditEvent _ F' ev c l w) as [wb [-> Hb]]
    end.
    rewrite Ha, Hb. reflexivity.
Qed.

(* ================================================================== *)
(** ** Instance generation *)

Lemma requiredMeasures_catalogue : forall d d',
  catalogue d' = catalogue d -> requiredMeasures d' = requiredMeasures d.
Proof.
  intros d d' H. unfold catalogue in H. injection H as Hp _ Hm _ _.
  unfold requiredMeasures. rewrite Hp, Hm. reflexivity.
Qed.

Lemma besidesAudit_catalogue : forall d d',
  besidesAudit d' = besidesAudit d ->
  catalogue d' = catalogue d
  /\ measureInstances d' = measureInstances d.
Proof.
  intros d d' H. apply besidesAudit_tables in H.
  destruct H as (Hp & Hpa & Hm & Ha & Hi & Hr & _).
  unfold catalogue, activePolicy. rewrite Hp, Hpa, Hm, Ha, Hr.
  split; [reflexivity|assumption].
Qed.

Lemma find_app_none : forall A (f : A -> bool) l x,
  find f l = None -> f x = true -> find f (l ++ [x])%list = Some x.
Proof.
  intros A f l x. induction l as [|y l IH]; cbn; intros Hn Hx.
  - rewrite Hx. reflexivity.
  - destruct (f y); [discriminate|]. apply IH; assumption.
Qed.

Lemma getDefaultPolicy_spec : forall F w,
  exists w' r,
    getDefaultPolicy F w = (w', r)
    /\ catalogue (db w') = catalogue (db w)
    /\ measureInstances (db w') = measureInstances (db w)
    /\ (r = Ok (activePolicy (db w))
        \/ exists e, r = Throw e /\ exists n, writeFails F n = true).
Proof.
  intros F w.
  unfold getDefaultPolicy, prisma_mbcPolicy_findUnique,
    prisma_mbcPolicy_create, dbWrite, getDb.
  unfold bind, ret. cbv beta iota.
  fold isDefault. unfold catalogue, activePolicy.
  change (fun p : MbcPolicy.t => (MbcPolicy.name p =? "default")%string)
    with isDefault.
  destruct (find isDefault (mbcPolicies (db w))) as [p|] eqn:Hp.
  - do 2 eexists. split; [reflexivity|]. rewrite Hp.
    repeat split. left; reflexivity.
  - destruct (writeFails F (writes w)) eqn:Hw.
    + do 2 eexists. split; [reflexivity|]. cbn. rewrite Hp.
      repeat split. right. eexists. split; [reflexivity|eauto].
    + do 2 eexists. split; [reflexivity|]. cbn.
      rewrite (find_app_none _ isDefault _ defaultPolicyData Hp eq_refl).
      repeat split. left; reflexivity.
Qed.

Section Creation.

Variable F : Faults.
Variables (now : Date) (options : CreateInstancesOptions).
Variable policy : MbcPolicy.t.

Let creation (measure : Measure.t) : M MeasureInstance.t :=
  prisma_measureInstance_create F (opt_patientId options)
    (Measure.id measure) (opt_appointmentId options)
    (effectiveDue now options)
    (addDays (effectiveDue now options) (MbcPolicy.expirationDays policy))
    PENDING.

Lemma promiseAll_create_spec : forall (ms : list Measure.t) (w : World),
  exists w' r created,
    promiseAll (map creation ms) w = (w', r)
    /\ measureInstances (db w') = (measureInstances (db w) ++ created)%list
    /\ Forall (generatedFor options policy now) created
    /\ catalogue (db w') = catalogue (db w)
    /\ ((r = Ok created
         /\ map MeasureInstance.measureId created = map Measure.id ms)
        \/ exists e, r = Throw e /\ exists n, writeFails F n = true).
Proof.
  induction ms as [|m ms IH]; intro w.
  - exists w, (Ok []), []. cbn. rewrite app_nil_r.
    repeat split; auto.
  - cbn [map promiseAll].
    unfold creation at 1, prisma_measureInstance_create, dbWrite.
    destruct (writeFails F (writes w)) eqn:Hw.
    + match goal with
      | |- context [promiseAll _ ?w1] =>
          destruct (IH w1) as (w' & r & created & Hrun & Hi & Hall & Hc & _)
      end.
      rewrite Hrun. cbn [fst].
      exists w', (Throw "database write failed"), created.
      repeat split; try assumption.
      right. eexists. split; [reflexivity|eauto].
    + match goal with
      | |- context [promiseAll _ ?w1] =>
          destruct (IH w1) as (w' & r & created & Hrun & Hi & Hall & Hc & Hr)
      end.
      rewrite Hrun. cbn [db measureInstances withNextCuid withInstances] in Hi.
      rewrite <- app_assoc in Hi. cbn [app] in Hi.
      match type of Hi with
      | _ = (_ ++ ?row :: _)%list =>
          assert (Hrow : generatedFor options policy now row)
            by (unfold generatedFor, addDays; cbn; repeat split)
      end.
      destruct Hr as [[-> Hids]|[e [-> Hn]]].
      * do 3 eexists. split; [reflexivity|].
        split; [exact Hi|]. split; [constructor; assumption|].
        split; [exact Hc|]. left. split; [reflexivity|].
        cbn [map MeasureInstance.measureId]. rewrite Hids. reflexivity.
      * do 3 eexists. split; [reflexivity|].
        split; [exact Hi|]. split; [constructor; assumption|].
        split; [exact Hc|]. right. eauto.
Qed.

End Creation.

Lemma createMeasureInstances_spec : forall F now options w,
  exists w' r created,
    createMeasureInstances F now options w = (w', r)
    /\ measureInstances (db w') = (measureInstances (db w) ++ created)%list
    /\ Forall (generatedFor options (activePolicy (db w)) now) created
    /\ catalogue (db w') = catalogue (db w)
    /\ ((r = Ok created
         /\ map MeasureInstance.measureId created
            = map Measure.id (requiredMeasures (db w)))
        \/ exists e, r = Throw e /\ exists n, writeFails F n = true).
Proof.
  intros F now options w. unfold createMeasureInstances.
  unfold bind at 1.
  destruct (getDefaultPolicy_spec F w) as (w0 & r0 & Hrun0 & Hc0 & Hi0 & Hr0).
  rewrite Hrun0.
  destruct Hr0 as [->|[e [-> Hn]]].
  2:{ exists w0, (Throw e), []. rewrite app_nil_r.
      repeat split; auto. right; eauto. }
  unfold prisma_measure_findMany, getDb. unfold bind, ret. cbv beta iota.
  fold (effectiveDue now options).
  assert (Hreq : filter
                   (fun m => existsb (String.eqb (Measure.name m))
                               (MbcPolicy.measuresRequired
                                  (activePolicy (db w))))
                   (measures (db w0))
                 = requiredMeasures (db w)).
  { unfold requiredMeasures. unfold catalogue in Hc0.
    injection Hc0 as _ _ -> _ _. reflexivity. }
  rewrite Hreq.
  destruct (promiseAll_create_spec F now options (activePolicy (db w))
              (requiredMeasures (db w)) w0)
    as (w1 & r1 & created & Hrun1 & Hi1 & Hall & Hc1 & Hr1).
  cbv zeta in Hrun1. rewrite Hrun1.
  rewrite Hi0 in Hi1. rewrite Hc0 in Hc1.
  destruct Hr1 as [[-> Hids]|[e [-> Hn]]].
  2:{ exists w1, (Throw e), created. repeat split; auto. right; eauto. }
  unfold audit.instanceCreated.
  match goal with
  | |- context [forEach ?l (fun x => logAuditEvent ?G ?ev (@?c x)) ?w] =>
      destruct (forEach_logAuditEvent _ G ev c l w) as [wa [-> Ha]]
  end.
  specialize (Ha unit (Ok tt)). unfold primary in Ha. cbn [fst snd] in Ha.
  apply (f_equal (fun t => fst (fst t))) in Ha. cbn [fst] in Ha.
  apply besidesAudit_catalogue in Ha.
  destruct Ha as [Hca Hia].
  exists wa, (Ok created), created. split; [reflexivity|].
  rewrite Hia, Hca. repeat split; auto.
Qed.

Lemma createMeasureInstances_noFaults : forall now options w,
  exists w' created,
    createMeasureInstances noFaults now options w = (w', Ok created)
    /\ measureInstances (db w') = (measureInstances (db w) ++ created)%list
    /\ Forall (generatedFor options (activePolicy (db w)) now) created
    /\ catalogue (db w') = catalogue (db w)
    /\ map MeasureInstance.measureId created
       = map Measure.id (requiredMeasures (db w)).
Proof.
  intros now options w.
  destruct (createMeasureInstances_spec noFaults now options w)
    as (w' & r & created & Hrun & Hi & Hall & Hc & Hr).
  destruct Hr as [[-> Hids]|[e [_ [n Hn]]]]; [|discriminate].
  exists w', created. repeat split; assumption.
Qed.

(** C8. Every instance the generator stores -- under any policy in
    force, and whichever writes fail -- has the call's due date ([now]
    when the call names none), expires [expirationDays] days after its
    due date, and is PENDING; the instances the call returns are exactly
    those it stored.  When no write fails the call returns, with one
    instance per required measure of the catalogue. *)
Theorem generated_instances_expire_by_policy :
  forall (F : Faults) (now : Date) (options : CreateInstancesOptions)
         (w : World),
    (exists created,
        measureInstances (db (fst (createMeasureInstances F now options w)))
        = (measureInstances (db w) ++ created)%list
        /\ Forall (generatedFor options (activePolicy (db w)) now) created
        /\ forall instances,
             snd (createMeasureInstances F now options w) = Ok instances ->
             instances = created)
    /\ (exists instances,
          snd (createMeasureInstances noFaults now options w) = Ok instances
          /\ map MeasureInstance.measureId instances
             = map Measure.id (requiredMeasures (db w))).
Proof.
  intros F now options w. split.
  - destruct (createMeasureInstances_spec F now options w)
      as (w' & r & created & Hrun & Hi & Hall & _ & Hr).
    rewrite Hrun. cbn [fst snd]. exists created.
    split; [exact Hi|]. split; [exact Hall|].
    intros instances Hok.
    destruct Hr as [[-> _]|[e [-> _]]]; congruence.
  - destruct (createMeasureInstances_noFaults now options w)
      as (w' & created & Hrun & _ & _ & _ & Hids).
    rewrite Hrun. exists created. split; [reflexivity|exact Hids].
Qed.

(* ------------------------------------------------------------------ *)
(** *** Repeated generation *)

Lemma map_eq_nil_inv : forall A B (f : A -> B) l, map f l = [] -> l = [].
Proof. intros A B f [|x l] H; [reflexivity|discriminate]. Qed.

Lemma generateForAppointments_spec : forall now apps w,
  exists w' results,
    generateForAppointments noFaults now apps w = (w', Ok results)
    /\ measureInstances (db w')
       = (measureInstances (db w) ++ List.concat (map snd results))%list
    /\ catalogue (db w') = catalogue (db w)
    /\ Forall2 (resultFor (db w)) apps results.
Proof.
  intros now apps. induction apps as [|a apps IH]; intro w.
  - exists w, []. cbn. rewrite app_nil_r. repeat split; constructor.
  - cbn [generateForAppointments]. unfold bind at 1.
    match goal with
    | |- context [createMeasureInstances noFaults now ?o w] =>
        destruct (createMeasureInstances_noFaults now o w)
          as (w1 & created & Hrun & Hi & Hall & Hc & Hids)
    end.
    rewrite Hrun. unfold bind.
    destruct (IH w1) as (w' & results & Hrun' & Hi' & Hc' & Hres).
    rewrite Hrun'. unfold ret.
    exists w', ((Appointment.id a, created) :: results).
    split; [reflexivity|]. split.
    { rewrite Hi', Hi. cbn [map List.concat snd]. rewrite app_assoc.
      reflexivity. }
    split; [congruence|].
    constructor.
    + split; [reflexivity|]. split; [exact Hids|]. cbn [snd].
      eapply Forall_impl; [|exact Hall]. intros i Hg.
      destruct Hg as (_ & Happ & _). exact Happ.
    + eapply Forall2_impl; [|exact Hres].
      intros a0 res. unfold resultFor.
      rewrite (requiredMeasures_catalogue _ _ Hc). tauto.
Qed.

Lemma generateForAppointments_nothing : forall now apps w,
  requiredMeasures (db w) = [] ->
  measureInstances (db (fst (generateForAppointments noFaults now apps w)))
  = measureInstances (db w).
Proof.
  intros now apps w Hnone.
  destruct (generateForAppointments_spec now apps w)
    as (w' & results & Hrun & Hi & _ & Hres).
  rewrite Hrun. cbn [fst]. rewrite Hi.
  assert (Hempty : List.concat (map snd results) = []).
  { clear Hrun Hi. induction Hres as [|a res apps results Hr _ IH];
      [reflexivity|].
    cbn [map List.concat]. rewrite IH.
    destruct Hr as (_ & Hids & _). rewrite Hnone in Hids.
    apply map_eq_nil_inv in Hids. rewrite Hids. reflexivity. }
  rewrite Hempty. apply app_nil_r.
Qed.

Lemma hasNoInstances_app : forall d d' a extra,
  measureInstances d' = (measureInstances d ++ extra)%list ->
  hasNoInstances d' a = true -> hasNoInstances d a = true.
Proof.
  intros d d' a extra Hi. unfold hasNoInstances. rewrite Hi.
  rewrite existsb_app, negb_orb. intro H.
  apply andb_true_iff in H. tauto.
Qed.

Lemma served_appointment_has_instances :
  forall d d' apps results a,
    Forall2 (resultFor d) apps results ->
    requiredMeasures d <> [] ->
    In a apps ->
    (forall i, In i (List.concat (map snd results)) ->
               In i (measureInstances d')) ->
    hasNoInstances d' a = false.
Proof.
  intros d d' apps results a Hres Hreq Hin Hsub.
  induction Hres as [|a0 res apps results Hr _ IH]; [contradiction|].
  destruct Hin as [->|Hin].
  - destruct Hr as (_ & Hids & Happ).
    destruct (snd res) as [|i rest] eqn:Hsnd.
    { cbn in Hids. symmetry in Hids. apply map_eq_nil_inv in Hids.
      contradiction. }
    unfold hasNoInstances. apply negb_false_iff. apply existsb_exists.
    exists i. split.
    + apply Hsub. cbn [map List.concat]. rewrite Hsnd. left; reflexivity.
    + inversion Happ as [|? ? Hi _]; subst. rewrite Hi.
      unfold cuid_eqb. apply String.eqb_refl.
  - apply IH; [assumption|].
    intros i Hi. apply Hsub. cbn [map List.concat]. apply in_or_app.
    right; assumption.
Qed.

Lemma filter_none : forall A (f : A -> bool) l,
  (forall x, In x l -> f x = false) -> filter f l = [].
Proof.
  intros A f l. induction l as [|x l IH]; intro H; [reflexivity|].
  cbn. rewrite (H x (or_introl eq_refl)). apply IH.
  intros y Hy. apply H. right; exact Hy.
Qed.

Lemma generateUpcomingInstances_idempotent : forall now daysAhead w,
  measureInstances
    (db (fst (generateUpcomingInstances noFaults now daysAhead
                (fst (generateUpcomingInstances noFaults now daysAhead w)))))
  = measureInstances
      (db (fst (generateUpcomingInstances noFaults now daysAhead w))).
Proof.
  intros now daysAhead w.
  unfold generateUpcomingInstances at 2 3.
  unfold getDb, bind. cbv beta iota.
  set (futureDate := addDays now daysAhead).
  set (selected := filter (upcomingWithoutInstances now futureDate (db w))
                     (appointments (db w))).
  destruct (generateForAppointments_spec now selected w)
    as (w1 & results & Hrun & Hi & Hc & Hres).
  rewrite Hrun. cbn [fst].
  unfold generateUpcomingInstances, getDb, bind. cbv beta iota.
  fold futureDate.
  destruct (requiredMeasures (db w)) as [|m ms] eqn:Hreq.
  - apply generateForAppointments_nothing.
    rewrite (requiredMeasures_catalogue _ _ Hc). exact Hreq.
  - assert (Hnone : filter (upcomingWithoutInstances now futureDate (db w1))
                      (appointments (db w1)) = []).
    { assert (Happ : appointments (db w1) = appointments (db w)).
      { unfold catalogue in Hc. injection Hc as _ _ _ Ha _. exact Ha. }
      rewrite Happ.
      apply filter_none. intros a Hin.
      destruct (upcomingWithoutInstances now futureDate (db w1) a) eqn:Hup;
        [|reflexivity].
      exfalso. unfold upcomingWithoutInstances in Hup.
      apply andb_true_iff in Hup. destruct Hup as [Hwin Hno].
      assert (Hsel : In a selected).
      { unfold selected. apply filter_In. split; [exact Hin|].
        unfold upcomingWithoutInstances. rewrite Hwin.
        apply (hasNoInstances_app _ _ _ _ Hi Hno). }
      assert (Hhas : hasNoInstances (db w1) a = false).
      { apply (served_appointment_has_instances (db w) (db w1) selected
                 results a Hres); [rewrite Hreq; discriminate|exact Hsel|].
        intros i Hini. rewrite Hi. apply in_or_app. right; exact Hini. }
      congruence. }
    rewrite Hnone. reflexivity.
Qed.

(** C2 (amended). [createMeasureInstances] does not look at the
    instances already stored: with no write failing, a call appends one
    PENDING instance per required measure of the catalogue, and a second
    call with the same arguments appends another one per required measure.
    It is the batch [generateUpcomingInstances] that is idempotent per
    encounter: it serves only appointments that have no instance, and run
    twice at the same instant it leaves the instance table as one run
    does. *)
Theorem generation_idempotent_only_in_batch :
  (forall (now : Date) (options : CreateInstancesOptions) (w : World),
      exists first second,
        measureInstances
          (db (fst (createMeasureInstances noFaults now options w)))
        = (measureInstances (db w) ++ first)%list
        /\ measureInstances
             (db (fst (createMeasureInstances noFaults now options
                         (fst (createMeasureInstances noFaults now options
                                 w)))))
           = (measureInstances (db w) ++ first ++ second)%list
        /\ map MeasureInstance.measureId first
           = map Measure.id (requiredMeasures (db w))
        /\ map MeasureInstance.measureId second
           = map Measure.id (requiredMeasures (db w))
        /\ Forall (generatedFor options (activePolicy (db w)) now) first
        /\ Forall (generatedFor options (activePolicy (db w)) now) second)
  /\ (forall (now : Date) (daysAhead : Z) (w : World),
        measureInstances
          (db (fst (generateUpcomingInstances noFaults now daysAhead
                      (fst (generateUpcomingInstances noFaults now
                              daysAhead w)))))
        = measureInstances
            (db (fst (generateUpcomingInstances noFaults now daysAhead
                        w)))).
Proof.
  split; [|exact generateUpcomingInstances_idempotent].
  intros now options w.
  destruct (createMeasureInstances_noFaults now options w)
    as (w1 & first & Hrun1 & Hi1 & Hall1 & Hc1 & Hids1).
  rewrite Hrun1. cbn [fst].
  destruct (createMeasureInstances_noFaults now options w1)
    as (w2 & second & Hrun2 & Hi2 & Hall2 & Hc2 & Hids2).
  rewrite Hrun2. cbn [fst].
  exists first, second.
  rewrite (requiredMeasures_catalogue _ _ Hc1) in Hids2.
  assert (Hp : activePolicy (db w1) = activePolicy (db w)).
  { unfold catalogue in Hc1. injection Hc1 as Hp _ _ _ _. exact Hp. }
  rewrite Hp in Hall2. rewrite Hi2, Hi1, <- app_assoc.
  repeat split; assumption.
Qed.

(** C2, counterexample.  Called twice for the same patient and
    encounter, the generator leaves four instances where one call leaves
    two: PHQ-9 and GAD-7 are each instantiated twice for Ann's visit. *)
Lemma createMeasureInstances_duplicates :
  map (fun i => (MeasureInstance.patientId i, MeasureInstance.measureId i,
                 MeasureInstance.appointmentId i))
    (measureInstances (db generatedOnce))
  = [ ("p-ann", "m-phq9", Some "a-1"); ("p-ann", "m-gad7", Some "a-1") ]
  /\ map (fun i => (MeasureInstance.patientId i,
                    MeasureInstance.measureId i,
                    MeasureInstance.appointmentId i))
       (measureInstances (db generatedTwice))
     = [ ("p-ann", "m-phq9", Some "a-1"); ("p-ann", "m-gad7", Some "a-1");
         ("p-ann", "m-phq9", Some "a-1"); ("p-ann", "m-gad7", Some "a-1") ].
Proof. split; vm_compute; reflexivity. Qed.

(* ================================================================== *)
(** * Further properties of the services and handlers *)

(* ================================================================== *)
(** ** Scoring: bands, sums and clinical flags *)

Lemma PHQ9_band_cases : forall score l,
  Scoring.getSeverityBand score Scoring.PHQ9_SEVERITY_BANDS = Ok l ->
  (0 <= score <= 4 /\ l = "minimal")
  \/ (5 <= score <= 9 /\ l = "mild")
  \/ (10 <= score <= 14 /\ l = "moderate")
  \/ (15 <= score <= 19 /\ l = "moderately_severe")
  \/ (20 <= score <= 27 /\ l = "severe").
Proof.
  intros score l.
  unfold Scoring.getSeverityBand, Scoring.PHQ9_SEVERITY_BANDS, Scoring.band.
  cbn [find Scoring.minScore Scoring.maxScore Scoring.label].
  repeat match goal with
         | |- context [(?a <=? ?b) && (?c <=? ?d)] =>
             destruct (Z.leb_spec a b); destruct (Z.leb_spec c d);
             cbn [andb]
         end;
    intro Hfound; inversion Hfound; subst; try lia; tauto.
Qed.

Lemma GAD7_band_cases : forall score l,
  Scoring.getSeverityBand score Scoring.GAD7_SEVERITY_BANDS = Ok l ->
  (0 <= score <= 4 /\ l = "minimal")
  \/ (5 <= score <= 9 /\ l = "mild")
  \/ (10 <= score <= 14 /\ l = "moderate")
  \/ (15 <= score <= 21 /\ l = "severe").
Proof.
  intros score l.
  unfold Scoring.getSeverityBand, Scoring.GAD7_SEVERITY_BANDS, Scoring.band.
  cbn [find Scoring.minScore Scoring.maxScore Scoring.label].
  repeat match goal with
         | |- context [(?a <=? ?b) && (?c <=? ?d)] =>
             destruct (Z.leb_spec a b); destruct (Z.leb_spec c d);
             cbn [andb]
         end;
    intro Hfound; inversion Hfound; subst; try lia; tauto.
Qed.

Lemma GAD7_bands_cover : forall score,
  0 <= score <= 21 ->
  exists l,
    Scoring.getSeverityBand score Scoring.GAD7_SEVERITY_BANDS = Ok l.
Proof.
  intros score H.
  unfold Scoring.getSeverityBand, Scoring.GAD7_SEVERITY_BANDS, Scoring.band.
  cbn [find Scoring.minScore Scoring.maxScore Scoring.label].
  repeat match goal with
         | |- context [(?a <=? ?b) && (?c <=? ?d)] =>
             destruct (Z.leb_spec a b); destruct (Z.leb_spec c d);
             cbn [andb]; try (eexists; reflexivity); try lia
         end.
Qed.

(** X1. The severity bands of both measures partition the score range:
    [getSeverityBand] finds a band exactly for the integer scores 0..27
    (PHQ-9) and 0..21 (GAD-7) and throws for every other score, and no
    score is covered by two bands. *)
Theorem severity_bands_partition : forall score : Z,
  ((exists l,
       Scoring.getSeverityBand score Scoring.PHQ9_SEVERITY_BANDS = Ok l)
   <-> 0 <= score <= 27)
  /\ ((exists l,
         Scoring.getSeverityBand score Scoring.GAD7_SEVERITY_BANDS = Ok l)
      <-> 0 <= score <= 21)
  /\ (List.length (filter (covers score) Scoring.PHQ9_SEVERITY_BANDS)
      <= 1)%nat
  /\ (List.length (filter (covers score) Scoring.GAD7_SEVERITY_BANDS)
      <= 1)%nat.
Proof.
  intro score. split; [|split; [|split]].
  - split; [|apply PHQ9_bands_cover].
    intros [l Hl]. apply PHQ9_band_cases in Hl. lia.
  - split; [|apply GAD7_bands_cover].
    intros [l Hl]. apply GAD7_band_cases in Hl. lia.
  - unfold Scoring.PHQ9_SEVERITY_BANDS, Scoring.band, covers.
    cbn [filter Scoring.minScore Scoring.maxScore].
    repeat match goal with
           | |- context [(?a <=? ?b) && (?c <=? ?d)] =>
               destruct (Z.leb_spec a b); destruct (Z.leb_spec c d);
               cbn [andb]
           end; cbn [List.length]; lia.
  - unfold Scoring.GAD7_SEVERITY_BANDS, Scoring.band, covers.
    cbn [filter Scoring.minScore Scoring.maxScore].
    repeat match goal with
           | |- context [(?a <=? ?b) && (?c <=? ?d)] =>
               destruct (Z.leb_spec a b); destruct (Z.leb_spec c d);
               cbn [andb]
           end; cbn [List.length]; lia.
Qed.

Lemma sumAnswers_sum : forall answers sum total,
  Scoring.sumAnswers answers sum = Ok total ->
  Forall inRange answers /\ total = sum + sumValues answers.
Proof.
  induction answers as [|a rest IH]; intros sum total H; cbn in H.
  - injection H as <-. split; [constructor|cbn; lia].
  - destruct (Scoring.value a <? 0) eqn:Hlo; [discriminate|].
    destruct (Scoring.value a >? 3) eqn:Hhi; [discriminate|].
    cbn [orb] in H. apply IH in H. destruct H as [Hall ->].
    split.
    + constructor; [|exact Hall]. unfold inRange.
      apply Z.ltb_ge in Hlo. rewrite Z.gtb_ltb in Hhi.
      apply Z.ltb_ge in Hhi. lia.
    + cbn [sumValues fold_right]. fold (sumValues rest). lia.
Qed.

Lemma sumAnswers_of_inRange : forall answers sum,
  Forall inRange answers ->
  Scoring.sumAnswers answers sum = Ok (sum + sumValues answers).
Proof.
  intros answers sum Hall.
  destruct (sumAnswers_accepts answers sum Hall) as [total [Hrun _]].
  rewrite Hrun. apply sumAnswers_sum in Hrun. destruct Hrun as [_ ->].
  reflexivity.
Qed.

Lemma sumValues_nonneg : forall answers,
  Forall inRange answers -> 0 <= sumValues answers.
Proof.
  induction 1 as [|a rest Ha _ IH]; cbn; [lia|].
  fold (sumValues rest). unfold inRange in Ha. lia.
Qed.

(** What [scoreAssessment] returns, when it returns. *)
Lemma scoreAssessment_result : forall answers bands count r,
  Scoring.scoreAssessment answers bands count = Ok r ->
  answers <> [] /\ Forall inRange answers
  /\ Scoring.totalScore r = sumValues answers
  /\ Scoring.getSeverityBand (sumValues answers) bands
     = Ok (Scoring.severityBand r)
  /\ Scoring.maxPossibleScore r = count * 3
  /\ Scoring.answeredQuestions r = Z.of_nat (List.length answers).
Proof.
  intros answers bands count r H. unfold Scoring.scoreAssessment in H.
  destruct answers as [|a rest]; [discriminate|].
  destruct (Scoring.sumAnswers (a :: rest) 0) as [total|] eqn:Hsum;
    [|discriminate].
  apply sumAnswers_sum in Hsum. destruct Hsum as [Hall ->].
  rewrite Z.add_0_l in H.
  destruct (Scoring.getSeverityBand (sumValues (a :: rest)) bands)
    as [l|] eqn:Hband; [|discriminate].
  injection H as <-. cbn.
  repeat split; try assumption; try reflexivity. discriminate.
Qed.

Lemma scoreAssessment_accepts : forall answers bands count l,
  answers <> [] -> Forall inRange answers ->
  Scoring.getSeverityBand (sumValues answers) bands = Ok l ->
  exists r, Scoring.scoreAssessment answers bands count = Ok r.
Proof.
  intros answers bands count l Hne Hall Hband.
  unfold Scoring.scoreAssessment.
  rewrite (sumAnswers_of_inRange answers 0 Hall), Z.add_0_l, Hband.
  destruct answers; [contradiction|]. eexists; reflexivity.
Qed.

(** X2. On answers whose values are integers -- the answers of this
    embedding -- [scoreMeasure] returns a result exactly when the
    measure name is PHQ-9 or GAD-7 in any letter case, the answer list is
    not empty, every value lies in 0..3, and the sum of the values does
    not exceed the measure's top score (27, 21); the number of answers
    plays no part.  (Fractional values are not covered: their sum can
    fall between two bands.) *)
Theorem scoreMeasure_accepts_iff :
  forall (name : string) (answers : list Scoring.Answer),
    (exists r, Scoring.scoreMeasure name answers = Ok r)
    <-> (answers <> [] /\ Forall inRange answers
         /\ exists top,
              topScore (Scoring.toUpperCase name) = Some top
              /\ sumValues answers <= top).
Proof.
  intros name answers. unfold Scoring.scoreMeasure, topScore.
  destruct (Scoring.toUpperCase name =? "PHQ-9")%string.
  { unfold Scoring.scorePHQ9. split.
    - intros [r Hr]. apply scoreAssessment_result in Hr.
      destruct Hr as (Hne & Hall & _ & Hband & _).
      apply PHQ9_band_cases in Hband.
      repeat split; try assumption. exists 27. split; [reflexivity|lia].
    - intros (Hne & Hall & top & Htop & Hle). injection Htop as <-.
      destruct (PHQ9_bands_cover (sumValues answers)) as [l Hl].
      { pose proof (sumValues_nonneg answers Hall). lia. }
      eapply scoreAssessment_accepts; eassumption. }
  destruct (Scoring.toUpperCase name =? "GAD-7")%string.
  { unfold Scoring.scoreGAD7. split.
    - intros [r Hr]. apply scoreAssessment_result in Hr.
      destruct Hr as (Hne & Hall & _ & Hband & _).
      apply GAD7_band_cases in Hband.
      repeat split; try assumption. exists 21. split; [reflexivity|lia].
    - intros (Hne & Hall & top & Htop & Hle). injection Htop as <-.
      destruct (GAD7_bands_cover (sumValues answers)) as [l Hl].
      { pose proof (sumValues_nonneg answers Hall). lia. }
      eapply scoreAssessment_accepts; eassumption. }
  split.
  - intros [r Hr]. discriminate.
  - intros (_ & _ & top & Htop & _). discriminate.
Qed.

(** X3. A result of [scoreMeasure] carries the sum of the answer values
    as its total; the total lies between 0 and the measure's
    [maxPossibleScore] whatever the number of answers, and
    [answeredQuestions] is that number. *)
Theorem scoreMeasure_result :
  forall (name : string) (answers : list Scoring.Answer)
         (r : Scoring.ScoringResult),
    Scoring.scoreMeasure name answers = Ok r ->
    Scoring.totalScore r = sumValues answers
    /\ 0 <= Scoring.totalScore r <= Scoring.maxPossibleScore r
    /\ topScore (Scoring.toUpperCase name)
       = Some (Scoring.maxPossibleScore r)
    /\ Scoring.answeredQuestions r = Z.of_nat (List.length answers).
Proof.
  intros name answers r H. unfold Scoring.scoreMeasure in H.
  unfold topScore.
  destruct (Scoring.toUpperCase name =? "PHQ-9")%string.
  { apply scoreAssessment_result in H.
    destruct H as (_ & _ & Ht & Hband & Hmax & Hn).
    apply PHQ9_band_cases in Hband. rewrite Ht, Hmax, Hn.
    unfold Scoring.PHQ9_QUESTION_COUNT. repeat split; lia. }
  destruct (Scoring.toUpperCase name =? "GAD-7")%string.
  { apply scoreAssessment_result in H.
    destruct H as (_ & _ & Ht & Hband & Hmax & Hn).
    apply GAD7_band_cases in Hband. rewrite Ht, Hmax, Hn.
    unfold Scoring.GAD7_QUESTION_COUNT. repeat split; lia. }
  discriminate.
Qed.

(** X3 at twelve answers of value 2 for the nine-question PHQ-9. *)
Lemma scoreMeasure_result_witness :
  Scoring.totalScore
    {| Scoring.totalScore := 24; Scoring.severityBand := "severe";
       Scoring.maxPossibleScore := 27; Scoring.answeredQuestions := 12 |}
  = sumValues (repeat (Clinic.answer 1 2) 12)
  /\ 0 <= 24 <= 27
  /\ topScore (Scoring.toUpperCase "phq-9") = Some 27
  /\ 12 = Z.of_nat (List.length (repeat (Clinic.answer 1 2) 12)).
Proof.
  exact (scoreMeasure_result "phq-9" (repeat (Clinic.answer 1 2) 12)
           {| Scoring.totalScore := 24; Scoring.severityBand := "severe";
              Scoring.maxPossibleScore := 27;
              Scoring.answeredQuestions := 12 |}
           eq_refl).
Defined.

(** X4. The clinical flags agree with the severity band of a result:
    [isElevated] holds exactly for the bands moderate and above, and
    [needsFollowUp] exactly for moderately severe and severe. *)
Theorem clinical_flags_follow_bands :
  forall (name : string) (answers : list Scoring.Answer)
         (r : Scoring.ScoringResult),
    Scoring.scoreMeasure name answers = Ok r ->
    (ScoringHelpers.isElevated name (Scoring.totalScore r) = true
     <-> In (Scoring.severityBand r)
           ["moderate"; "moderately_severe"; "severe"])
    /\ (ScoringHelpers.needsFollowUp name (Scoring.totalScore r) = true
        <-> In (Scoring.severityBand r) ["moderately_severe"; "severe"]).
Proof.
  intros name answers r H. unfold Scoring.scoreMeasure in H.
  unfold ScoringHelpers.isElevated, ScoringHelpers.needsFollowUp.
  destruct (Scoring.toUpperCase name =? "PHQ-9")%string.
  { apply scoreAssessment_result in H.
    destruct H as (_ & _ & Ht & Hband & _). rewrite Ht.
    apply PHQ9_band_cases in Hband. rewrite !Z.leb_le. cbn [In].
    destruct Hband as [[Hs Hl]|[[Hs Hl]|[[Hs Hl]|[[Hs Hl]|[Hs Hl]]]]];
      rewrite Hl; split; split; intro Hx;
      try lia; try tauto;
      try (repeat destruct Hx as [Hx|Hx]; try discriminate; contradiction). }
  destruct (Scoring.toUpperCase name =? "GAD-7")%string.
  { apply scoreAssessment_result in H.
    destruct H as (_ & _ & Ht & Hband & _). rewrite Ht.
    apply GAD7_band_cases in Hband. rewrite !Z.leb_le. cbn [In].
    destruct Hband as [[Hs Hl]|[[Hs Hl]|[[Hs Hl]|[Hs Hl]]]];
      rewrite Hl; split; split; intro Hx;
      try lia; try tauto;
      try (repeat destruct Hx as [Hx|Hx]; try discriminate; contradiction). }
  discriminate.
Qed.

(** X4 at seven answers of value 2 for GAD-7: a total of 14, moderate,
    elevated, no follow-up. *)
Lemma clinical_flags_follow_bands_witness :
  (ScoringHelpers.isElevated "GAD-7" 14 = true
   <-> In "moderate" ["moderate"; "moderately_severe"; "severe"])
  /\ (ScoringHelpers.needsFollowUp "GAD-7" 14 = true
      <-> In "moderate" ["moderately_severe"; "severe"]).
Proof.
  exact (clinical_flags_follow_bands "GAD-7"
           (repeat (Clinic.answer 1 2) 7)
           {| Scoring.totalScore := 14; Scoring.severityBand := "moderate";
              Scoring.maxPossibleScore := 21;
              Scoring.answeredQuestions := 7 |}
           eq_refl).
Defined.

(* ================================================================== *)
(** ** The due and overdue lists *)

Lemma insertBy_perm : forall A (key : A -> Z) x l,
  Permutation (insertBy key x l) (x :: l).
Proof.
  intros A key x l. induction l as [|y l IH]; cbn; [reflexivity|].
  destruct (key x <? key y); [reflexivity|].
  rewrite IH. apply perm_swap.
Qed.

Lemma orderByAsc_perm : forall A (key : A -> Z) l,
  Permutation (orderByAsc key l) l.
Proof.
  intros A key l. unfold orderByAsc.
  assert (H : forall acc,
             Permutation (fold_left (fun acc x => insertBy key x acc) l acc)
               (acc ++ l)%list).
  { induction l as [|x l IH]; intro acc; cbn.
    - rewrite app_nil_r. reflexivity.
    - rewrite IH, insertBy_perm. cbn.
      apply Permutation_middle. }
  apply (H []).
Qed.

Lemma insertBy_sorted : forall A (key : A -> Z) x l,
  StronglySorted Z.le (map key l) ->
  StronglySorted Z.le (map key (insertBy key x l)).
Proof.
  intros A key x l. induction l as [|y l IH]; intro Hs; cbn.
  - constructor; constructor.
  - inversion Hs as [|? ? Hrest Hall]; subst.
    destruct (key x <? key y) eqn:E.
    + cbn [map]. constructor; [exact Hs|].
      apply Z.ltb_lt in E. constructor; [lia|].
      eapply Forall_impl; [|exact Hall]. cbn. intros; lia.
    + cbn [map]. apply Z.ltb_ge in E. constructor; [apply IH; exact Hrest|].
      apply Forall_forall. intros k Hk. apply in_map_iff in Hk.
      destruct Hk as [z [<- Hz]].
      apply (Permutation_in _ (insertBy_perm A key x l)) in Hz.
      destruct Hz as [<-|Hz]; [exact E|].
      rewrite Forall_forall in Hall. apply Hall. apply in_map. exact Hz.
Qed.

Lemma orderByAsc_sorted : forall A (key : A -> Z) l,
  StronglySorted Z.le (map key (orderByAsc key l)).
Proof.
  intros A key l. unfold orderByAsc.
  assert (H : forall acc,
             StronglySorted Z.le (map key acc) ->
             StronglySorted Z.le
               (map key (fold_left (fun acc x => insertBy key x acc) l acc))).
  { induction l as [|x l IH]; intros acc Hacc; cbn; [exact Hacc|].
    apply IH. apply insertBy_sorted. exact Hacc. }
  apply H. constructor.
Qed.

Lemma getDefaultPolicy_noFaults : forall w,
  exists w',
    getDefaultPolicy noFaults w = (w', Ok (activePolicy (db w)))
    /\ catalogue (db w') = catalogue (db w)
    /\ measureInstances (db w') = measureInstances (db w).
Proof.
  intro w.
  destruct (getDefaultPolicy_spec noFaults w) as (w' & r & Hrun & Hc & Hi & Hr).
  destruct Hr as [->|[e [_ [n Hn]]]]; [|discriminate].
  exists w'. repeat split; assumption.
Qed.

Lemma statusIn_open : forall s,
  statusIn s openStatuses = negb (terminalb s).
Proof. intros []; reflexivity. Qed.

(** X5. [getDueAssessments] returns, in ascending order of due date and
    with no row lost or repeated, on the due list the open instances due
    within the grace window ending [now], and on the overdue list the
    open instances due before that window whose link has not yet
    expired; no instance is on both lists. *)
Theorem due_and_overdue_lists : forall (now : Date) (w : World),
  exists w' due overdue,
    getDueAssessments noFaults now w = (w', Ok (due, overdue))
    /\ (forall i,
          In i due
          <-> In i (measureInstances (db w))
              /\ terminalb (MeasureInstance.status i) = false
              /\ now - MbcPolicy.graceWindowDays (activePolicy (db w))
                       * MS_PER_DAY
                 <= MeasureInstance.dueDate i <= now)
    /\ (forall i,
          In i overdue
          <-> In i (measureInstances (db w))
              /\ terminalb (MeasureInstance.status i) = false
              /\ MeasureInstance.dueDate i
                 < now - MbcPolicy.graceWindowDays (activePolicy (db w))
                         * MS_PER_DAY
              /\ now < MeasureInstance.expiresAt i)
    /\ StronglySorted Z.le (map MeasureInstance.dueDate due)
    /\ StronglySorted Z.le (map MeasureInstance.dueDate overdue)
    /\ (exists graceStart,
          Permutation due
            (filter (isDue now graceStart) (measureInstances (db w)))
          /\ Permutation overdue
               (filter (isOverdue now graceStart)
                  (measureInstances (db w))))
    /\ (forall i, In i due -> ~ In i overdue).
Proof.
  intros now w. unfold getDueAssessments. unfold bind at 1.
  destruct (getDefaultPolicy_noFaults w) as (w0 & Hrun & _ & Hi).
  rewrite Hrun. unfold getDb, bind, ret. cbv beta iota. rewrite Hi.
  set (g := addDays now
              (- MbcPolicy.graceWindowDays (activePolicy (db w)))).
  assert (Hg : g = now - MbcPolicy.graceWindowDays (activePolicy (db w))
                       * MS_PER_DAY)
    by (unfold g, addDays; lia).
  rewrite <- Hg.
  assert (Hdue : forall i,
             In i (orderByAsc MeasureInstance.dueDate
                     (filter (isDue now g) (measureInstances (db w))))
             <-> In i (measureInstances (db w))
                 /\ terminalb (MeasureInstance.status i) = false
                 /\ g <= MeasureInstance.dueDate i <= now).
  { intro i. split.
    - intro H. apply (Permutation_in _ (orderByAsc_perm _ _ _)) in H.
      apply filter_In in H. destruct H as [Hin Hc]. unfold isDue in Hc.
      rewrite statusIn_open in Hc.
      apply andb_true_iff in Hc. destruct Hc as [Hc H3].
      apply andb_true_iff in Hc. destruct Hc as [H1 H2].
      apply negb_true_iff in H1. apply Z.leb_le in H2, H3. tauto.
    - intros (Hin & Hs & Hlo & Hhi).
      apply (Permutation_in _ (Permutation_sym (orderByAsc_perm _ _ _))).
      apply filter_In. split; [exact Hin|]. unfold isDue.
      rewrite statusIn_open, Hs. cbn [negb andb].
      apply andb_true_iff. split; apply Z.leb_le; assumption. }
  assert (Hover : forall i,
             In i (orderByAsc MeasureInstance.dueDate
                     (filter (isOverdue now g) (measureInstances (db w))))
             <-> In i (measureInstances (db w))
                 /\ terminalb (MeasureInstance.status i) = false
                 /\ MeasureInstance.dueDate i < g
                 /\ now < MeasureInstance.expiresAt i).
  { intro i. split.
    - intro H. apply (Permutation_in _ (orderByAsc_perm _ _ _)) in H.
      apply filter_In in H. destruct H as [Hin Hc]. unfold isOverdue in Hc.
      rewrite statusIn_open in Hc.
      apply andb_true_iff in Hc. destruct Hc as [Hc H3].
      apply andb_true_iff in Hc. destruct Hc as [H1 H2].
      apply negb_true_iff in H1. apply Z.ltb_lt in H2, H3. tauto.
    - intros (Hin & Hs & Hlo & Hhi).
      apply (Permutation_in _ (Permutation_sym (orderByAsc_perm _ _ _))).
      apply filter_In. split; [exact Hin|]. unfold isOverdue.
      rewrite statusIn_open, Hs. cbn [negb andb].
      apply andb_true_iff. split; apply Z.ltb_lt; assumption. }
  do 3 eexists. split; [reflexivity|].
  split; [exact Hdue|]. split; [exact Hover|].
  split; [apply orderByAsc_sorted|]. split; [apply orderByAsc_sorted|].
  split.
  { exists g. split; apply orderByAsc_perm. }
  intros i Hd Ho. apply Hdue in Hd. apply Hover in Ho. lia.
Qed.

Lemma getDueAssessments_run : forall F now w,
  exists w' r,
    getDueAssessments F now w = (w', r)
    /\ catalogue (db w') = catalogue (db w)
    /\ measureInstances (db w') = measureInstances (db w)
    /\ (r = Ok (orderByAsc MeasureInstance.dueDate
                  (filter
                     (isDue now
                        (addDays now
                           (- MbcPolicy.graceWindowDays
                                (activePolicy (db w)))))
                     (measureInstances (db w))),
                orderByAsc MeasureInstance.dueDate
                  (filter
                     (isOverdue now
                        (addDays now
                           (- MbcPolicy.graceWindowDays
                                (activePolicy (db w)))))
                     (measureInstances (db w))))
        \/ exists e, r = Throw e /\ exists n, writeFails F n = true).
Proof.
  intros F now w. unfold getDueAssessments. unfold bind at 1.
  destruct (getDefaultPolicy_spec F w) as (w0 & r0 & Hrun & Hc & Hi & Hr).
  rewrite Hrun. destruct Hr as [->|[e [-> Hn]]].
  - unfold getDb, bind, ret. cbv beta iota. rewrite Hi.
    do 2 eexists. split; [reflexivity|].
    split; [exact Hc|]. split; [exact Hi|]. left. reflexivity.
  - do 2 eexists. split; [reflexivity|].
    split; [exact Hc|]. split; [exact Hi|]. right. eauto.
Qed.

Lemma filter_map_stable : forall A (p : A -> bool) (f : A -> A) l,
  (forall x, In x l -> p (f x) = p x /\ (p x = true -> f x = x)) ->
  filter p (map f l) = filter p l.
Proof.
  intros A p f l. induction l as [|x l IH]; intro H; [reflexivity|].
  cbn. destruct (H x (or_introl eq_refl)) as [Hp Hf]. rewrite Hp.
  destruct (p x) eqn:E.
  - rewrite (Hf eq_refl). f_equal. apply IH. intros y Hy. apply H.
    right; exact Hy.
  - apply IH. intros y Hy. apply H. right; exact Hy.
Qed.

Lemma lists_after : forall now w,
  dueAt now w
  = orderByAsc MeasureInstance.dueDate
      (filter
         (isDue now
            (addDays now
               (- MbcPolicy.graceWindowDays (activePolicy (db w)))))
         (measureInstances (db w)))
  /\ overdueAt now w
     = orderByAsc MeasureInstance.dueDate
         (filter
            (isOverdue now
               (addDays now
                  (- MbcPolicy.graceWindowDays (activePolicy (db w)))))
            (measureInstances (db w))).
Proof.
  intros now w. unfold dueAt, overdueAt.
  destruct (getDueAssessments_run noFaults now w)
    as (w' & r & Hrun & _ & _ & Hr).
  rewrite Hrun. cbn [snd].
  destruct Hr as [->|[e [_ [n Hn]]]]; [|discriminate].
  split; reflexivity.
Qed.

(** X6. After the expiration sweep at [now] no open instance is left
    whose expiry lies before [now]; the sweep leaves the overdue list of
    that instant exactly as it was, and removes from the due list exactly
    the instances whose link had expired. *)
Theorem sweep_and_the_lists : forall (now : Date) (w : World),
  (forall i,
      In i (measureInstances (db (fst (markExpiredInstances noFaults now w))))
      -> terminalb (MeasureInstance.status i) = false
      -> now <= MeasureInstance.expiresAt i)
  /\ overdueAt now (fst (markExpiredInstances noFaults now w))
     = overdueAt now w
  /\ (forall i,
        In i (dueAt now (fst (markExpiredInstances noFaults now w)))
        <-> In i (dueAt now w) /\ now <= MeasureInstance.expiresAt i).
Proof.
  intros now w.
  destruct (lists_after now w) as [Hd Ho].
  destruct (lists_after now (fst (markExpiredInstances noFaults now w)))
    as [Hd1 Ho1].
  rewrite Hd, Ho, Hd1, Ho1. clear Hd Ho Hd1 Ho1.
  unfold markExpiredInstances, prisma_measureInstance_updateMany, dbWrite.
  cbn [writeFails noFaults fst db measureInstances withInstances].
  change (activePolicy (withInstances (db w) _)) with (activePolicy (db w)).
  set (g := addDays now
              (- MbcPolicy.graceWindowDays (activePolicy (db w)))).
  set (sweep := fun r => if isExpirable now r
                         then MeasureInstance.markExpired r else r).
  split; [|split].
  - intros i Hin Hopen. apply in_map_iff in Hin.
    destruct Hin as [r [<- Hr]]. unfold sweep in *.
    destruct (isExpirable now r) eqn:E; [discriminate|].
    unfold isExpirable in E. rewrite statusIn_open, Hopen in E.
    cbn [negb andb] in E. apply Z.ltb_ge in E. exact E.
  - f_equal. apply filter_map_stable. intros r _. unfold sweep.
    destruct (isExpirable now r) eqn:E; [|split; reflexivity].
    unfold isExpirable in E. apply andb_true_iff in E.
    destruct E as [_ E]. apply Z.ltb_lt in E.
    assert (Hno : isOverdue now g r = false).
    { unfold isOverdue. replace (now <? MeasureInstance.expiresAt r)
        with false by (symmetry; apply Z.ltb_ge; lia).
      apply andb_false_r. }
    rewrite Hno. split; [reflexivity|discriminate].
  - intro i. split.
    + intro H. apply (Permutation_in _ (orderByAsc_perm _ _ _)) in H.
      apply filter_In in H. destruct H as [Hin Hc].
      apply in_map_iff in Hin. destruct Hin as [r [<- Hr]].
      unfold sweep in *.
      destruct (isExpirable now r) eqn:E; [discriminate|].
      split.
      * apply (Permutation_in _ (Permutation_sym (orderByAsc_perm _ _ _))).
        apply filter_In. split; assumption.
      * unfold isDue in Hc. apply andb_true_iff in Hc.
        destruct Hc as [Hc _]. apply andb_true_iff in Hc.
        destruct Hc as [Hopen _]. unfold isExpirable in E.
        rewrite Hopen in E. cbn [andb] in E. apply Z.ltb_ge in E. exact E.
    + intros [H Hexp].
      apply (Permutation_in _ (orderByAsc_perm _ _ _)) in H.
      apply filter_In in H. destruct H as [Hin Hc].
      apply (Permutation_in _ (Permutation_sym (orderByAsc_perm _ _ _))).
      assert (Hsame : sweep i = i).
      { unfold sweep, isExpirable.
        replace (MeasureInstance.expiresAt i <? now) with false
          by (symmetry; apply Z.ltb_ge; lia).
        rewrite andb_false_r. reflexivity. }
      apply filter_In. split; [|exact Hc].
      rewrite <- Hsame. apply in_map. exact Hin.
Qed.

(* ================================================================== *)
(** ** The policy *)

(** X7. [getDefaultPolicy] is a get-or-create: a stored policy named
    "default" is returned as it is and nothing is written; when there is
    none the built-in policy (cadence 14, grace 3, expiration 7, PHQ-9
    and GAD-7, intake required) is stored and returned; and after any
    successful call the policy returned is the stored one, so that a
    second call returns it again and writes nothing. *)
Theorem getDefaultPolicy_get_or_create : forall (F : Faults) (w : World),
  (forall p,
      find isDefault (mbcPolicies (db w)) = Some p ->
      getDefaultPolicy F w = (w, Ok p))
  /\ (find isDefault (mbcPolicies (db w)) = None ->
      writeFails F (writes w) = false ->
      snd (getDefaultPolicy F w) = Ok defaultPolicyData
      /\ mbcPolicies (db (fst (getDefaultPolicy F w)))
         = (mbcPolicies (db w) ++ [defaultPolicyData])%list)
  /\ (forall p,
        snd (getDefaultPolicy F w) = Ok p ->
        getDefaultPolicy F (fst (getDefaultPolicy F w))
        = (fst (getDefaultPolicy F w), Ok p)).
Proof.
  intros F w.
  unfold getDefaultPolicy, prisma_mbcPolicy_findUnique,
    prisma_mbcPolicy_create, dbWrite, getDb.
  unfold bind, ret. cbv beta iota.
  change (fun p : MbcPolicy.t => (MbcPolicy.name p =? "default")%string)
    with isDefault.
  split; [|split].
  - intros p Hp. rewrite Hp. reflexivity.
  - intros Hnone Hw. rewrite Hnone, Hw. cbn. split; reflexivity.
  - intros p.
    destruct (find isDefault (mbcPolicies (db w))) as [q|] eqn:Hq.
    + cbn [fst snd]. intro H. injection H as <-. rewrite Hq. reflexivity.
    + destruct (writeFails F (writes w)); [discriminate|].
      cbn [fst snd db mbcPolicies withPolicies]. intro H.
      injection H as <-.
      rewrite (find_app_none _ isDefault _ defaultPolicyData Hq eq_refl).
      reflexivity.
Qed.

(** X7 at the clinic, whose policy is stored, and at an empty policy
    table. *)
Lemma getDefaultPolicy_get_or_create_witness :
  getDefaultPolicy noFaults (Clinic.world [])
  = (Clinic.world [], Ok defaultPolicyData)
  /\ (snd (getDefaultPolicy noFaults
             {| db := withPolicies (Clinic.database []) [];
                writes := 0; auditWrites := 0 |})
      = Ok defaultPolicyData
      /\ mbcPolicies
           (db (fst (getDefaultPolicy noFaults
                       {| db := withPolicies (Clinic.database []) [];
                          writes := 0; auditWrites := 0 |})))
         = [defaultPolicyData]).
Proof.
  split.
  - exact (proj1 (getDefaultPolicy_get_or_create noFaults (Clinic.world []))
             defaultPolicyData eq_refl).
  - exact (proj1 (proj2 (getDefaultPolicy_get_or_create noFaults
                           {| db := withPolicies (Clinic.database []) [];
                              writes := 0; auditWrites := 0 |}))
             eq_refl eq_refl).
Defined.

(* ================================================================== *)
(** ** Intake and follow-up assessments *)

Lemma activePolicy_catalogue : forall d d',
  catalogue d' = catalogue d -> activePolicy d' = activePolicy d.
Proof.
  intros d d' H. unfold catalogue in H. injection H as Hp _ _ _ _.
  exact Hp.
Qed.

(** What a service function does after [const policy = await
    getDefaultPolicy()]. *)
Lemma after_getDefaultPolicy :
  forall F A (k : MbcPolicy.t -> M A) (w : World),
  exists w0,
    catalogue (db w0) = catalogue (db w)
    /\ measureInstances (db w0) = measureInstances (db w)
    /\ (bind (getDefaultPolicy F) k w = k (activePolicy (db w)) w0
        \/ exists e,
             bind (getDefaultPolicy F) k w = (w0, Throw e)
             /\ exists n, writeFails F n = true).
Proof.
  intros F A k w. unfold bind.
  destruct (getDefaultPolicy_spec F w) as (w0 & r0 & Hrun & Hc & Hi & Hr).
  rewrite Hrun. exists w0. split; [exact Hc|]. split; [exact Hi|].
  destruct Hr as [->|[e [-> Hn]]]; [left; reflexivity|right; eauto].
Qed.

Lemma generatedFor_standalone : forall patient due user policy now i,
  generatedFor
    {| opt_patientId := patient; opt_appointmentId := None;
       opt_dueDate := Some due; opt_userId := user |} policy now i ->
  standalone patient due policy i.
Proof.
  intros patient due user policy now i (Hp & Ha & Hd & He & Hs).
  cbn in Hp, Ha, Hd. unfold standalone, addDays.
  rewrite He, Hd. repeat split; assumption.
Qed.

(** X8. [createIntakeAssessments] follows the policy in force: when it
    does not require assessments at intake nothing is created and the
    call returns the empty list; otherwise every instance created is the
    patient's, belongs to no appointment, is due at once, expires
    [expirationDays] days later and is PENDING, and when no write fails
    there is one per required measure. *)
Theorem intake_assessments_follow_policy :
  forall (F : Faults) (now : Date) (patient : Cuid) (user : option Cuid)
         (w : World),
    (exists created,
        measureInstances
          (db (fst (createIntakeAssessments F now patient user w)))
        = (measureInstances (db w) ++ created)%list
        /\ Forall (standalone patient now (activePolicy (db w))) created
        /\ (MbcPolicy.requireAtIntake (activePolicy (db w)) = false ->
            created = [])
        /\ forall instances,
             snd (createIntakeAssessments F now patient user w)
             = Ok instances ->
             instances = created)
    /\ (exists instances,
          snd (createIntakeAssessments noFaults now patient user w)
          = Ok instances
          /\ map MeasureInstance.measureId instances
             = if MbcPolicy.requireAtIntake (activePolicy (db w))
               then map Measure.id (requiredMeasures (db w))
               else []).
Proof.
  intros F now patient user w. unfold createIntakeAssessments. split.
  - match goal with
    | |- context [bind (getDefaultPolicy F) ?k w] =>
        destruct (after_getDefaultPolicy F _ k w)
          as (w0 & Hc & Hi & [Hrun|[e [Hrun _]]])
    end.
    2:{ rewrite Hrun. exists []. cbn [fst snd]. rewrite app_nil_r.
        repeat split; auto. intros; discriminate. }
    rewrite Hrun. clear Hrun.
    destruct (MbcPolicy.requireAtIntake (activePolicy (db w))) eqn:Hreq;
      cbn [negb].
    + match goal with
      | |- context [createMeasureInstances F now ?o w0] =>
          destruct (createMeasureInstances_spec F now o w0)
            as (w1 & r & created & Hrun & Hi1 & Hall & _ & Hr)
      end.
      rewrite Hrun. cbn [fst snd]. exists created.
      rewrite Hi1, Hi. split; [reflexivity|]. split.
      { rewrite (activePolicy_catalogue _ _ Hc) in Hall.
        eapply Forall_impl; [|exact Hall]. intros i.
        apply generatedFor_standalone. }
      split; [discriminate|].
      intros instances Hok.
      destruct Hr as [[-> _]|[e [-> _]]]; congruence.
    + exists []. unfold ret. cbn [fst snd]. rewrite app_nil_r, Hi.
      repeat split; auto. intros instances H. congruence.
  - match goal with
    | |- context [bind (getDefaultPolicy noFaults) ?k w] =>
        destruct (after_getDefaultPolicy noFaults _ k w)
          as (w0 & Hc & Hi & [Hrun|[e [_ [n Hn]]]]); [|discriminate]
    end.
    rewrite Hrun. clear Hrun.
    destruct (MbcPolicy.requireAtIntake (activePolicy (db w))); cbn [negb].
    + match goal with
      | |- context [createMeasureInstances noFaults now ?o w0] =>
          destruct (createMeasureInstances_noFaults now o w0)
            as (w1 & created & Hrun & _ & _ & _ & Hids)
      end.
      rewrite Hrun. exists created. split; [reflexivity|].
      rewrite Hids. rewrite (requiredMeasures_catalogue _ _ Hc).
      reflexivity.
    + exists []. split; reflexivity.
Qed.

(** X9. [scheduleNextAssessments] makes the follow-up assessments due
    [cadenceDays] days after the call and lets them expire
    [expirationDays] days after that, under the policy in force; they
    are the patient's, belong to no appointment and are PENDING, and
    when no write fails there is one per required measure. *)
Theorem next_assessments_follow_cadence :
  forall (F : Faults) (now : Date) (patient : Cuid) (user : option Cuid)
         (w : World),
    (exists created,
        measureInstances
          (db (fst (scheduleNextAssessments F now patient user w)))
        = (measureInstances (db w) ++ created)%list
        /\ Forall
             (standalone patient
                (addDays now (MbcPolicy.cadenceDays (activePolicy (db w))))
                (activePolicy (db w)))
             created
        /\ forall instances,
             snd (scheduleNextAssessments F now patient user w)
             = Ok instances ->
             instances = created)
    /\ (exists instances,
          snd (scheduleNextAssessments noFaults now patient user w)
          = Ok instances
          /\ map MeasureInstance.measureId instances
             = map Measure.id (requiredMeasures (db w))).
Proof.
  intros F now patient user w. unfold scheduleNextAssessments. split.
  - match goal with
    | |- context [bind (getDefaultPolicy F) ?k w] =>
        destruct (after_getDefaultPolicy F _ k w)
          as (w0 & Hc & Hi & [Hrun|[e [Hrun _]]])
    end.
    2:{ rewrite Hrun. exists []. cbn [fst snd]. rewrite app_nil_r.
        repeat split; auto. intros; discriminate. }
    rewrite Hrun. clear Hrun. cbv zeta.
    match goal with
    | |- context [createMeasureInstances F now ?o w0] =>
        destruct (createMeasureInstances_spec F now o w0)
          as (w1 & r & created & Hrun & Hi1 & Hall & _ & Hr)
    end.
    rewrite Hrun. cbn [fst snd]. exists created.
    rewrite Hi1, Hi. split; [reflexivity|]. split.
    { rewrite (activePolicy_catalogue _ _ Hc) in Hall.
      eapply Forall_impl; [|exact Hall]. intros i.
      apply generatedFor_standalone. }
    intros instances Hok.
    destruct Hr as [[-> _]|[e [-> _]]]; congruence.
  - match goal with
    | |- context [bind (getDefaultPolicy noFaults) ?k w] =>
        destruct (after_getDefaultPolicy noFaults _ k w)
          as (w0 & Hc & Hi & [Hrun|[e [_ [n Hn]]]]); [|discriminate]
    end.
    rewrite Hrun. clear Hrun. cbv zeta.
    match goal with
    | |- context [createMeasureInstances noFaults now ?o w0] =>
        destruct (createMeasureInstances_noFaults now o w0)
          as (w1 & created & Hrun & _ & _ & _ & Hids)
    end.
    rewrite Hrun. exists created. split; [reflexivity|].
    rewrite Hids. apply f_equal. apply requiredMeasures_catalogue. exact Hc.
Qed.

(* ================================================================== *)
(** ** Which appointments generation serves *)

Lemma generatedFor_madeFor : forall a policy now i,
  generatedFor
    {| opt_patientId := Appointment.patientId a;
       opt_appointmentId := Some (Appointment.id a);
       opt_dueDate := Some (Appointment.scheduledAt a);
       opt_userId := None |} policy now i ->
  madeFor a policy i.
Proof.
  intros a policy now i (Hp & Ha & Hd & He & Hs).
  cbn in Hp, Ha, Hd. unfold madeFor. rewrite He, Hd.
  repeat split; assumption.
Qed.

Lemma generateForAppointments_made : forall now apps w,
  exists w' results,
    generateForAppointments noFaults now apps w = (w', Ok results)
    /\ map fst results = map Appointment.id apps
    /\ forall i, In i (List.concat (map snd results)) ->
         exists a, In a apps /\ madeFor a (activePolicy (db w)) i.
Proof.
  intros now apps. induction apps as [|a apps IH]; intro w.
  - exists w, []. cbn. repeat split; auto. intros i [].
  - cbn [generateForAppointments]. unfold bind at 1.
    match goal with
    | |- context [createMeasureInstances noFaults now ?o w] =>
        destruct (createMeasureInstances_noFaults now o w)
          as (w1 & created & Hrun & _ & Hall & Hc & _)
    end.
    rewrite Hrun. unfold bind.
    destruct (IH w1) as (w' & results & Hrun' & Hkeys & Hmade).
    rewrite Hrun'. unfold ret.
    exists w', ((Appointment.id a, created) :: results).
    split; [reflexivity|]. split; [cbn; rewrite Hkeys; reflexivity|].
    intros i Hin. cbn [map List.concat snd] in Hin.
    apply in_app_or in Hin. destruct Hin as [Hin|Hin].
    + exists a. split; [left; reflexivity|].
      rewrite Forall_forall in Hall.
      eapply generatedFor_madeFor. apply Hall. exact Hin.
    + destruct (Hmade i Hin) as (a0 & Ha0 & Hm).
      exists a0. split; [right; exact Ha0|].
      rewrite <- (activePolicy_catalogue _ _ Hc). exact Hm.
Qed.

Lemma generateUpcomingInstances_run : forall now daysAhead w,
  exists w' results,
    generateUpcomingInstances noFaults now daysAhead w = (w', Ok results)
    /\ map fst results = map Appointment.id (upcoming now daysAhead (db w))
    /\ measureInstances (db w')
       = (measureInstances (db w) ++ List.concat (map snd results))%list
    /\ catalogue (db w') = catalogue (db w)
    /\ Forall2 (resultFor (db w)) (upcoming now daysAhead (db w)) results
    /\ forall i, In i (List.concat (map snd results)) ->
         exists a,
           In a (appointments (db w))
           /\ now <= Appointment.scheduledAt a <= addDays now daysAhead
           /\ Appointment.isCancelled a = false
           /\ hasNoInstances (db w) a = true
           /\ madeFor a (activePolicy (db w)) i.
Proof.
  intros now daysAhead w.
  unfold generateUpcomingInstances, getDb, bind. cbv beta iota zeta.
  fold (upcoming now daysAhead (db w)).
  destruct (generateForAppointments_made now (upcoming now daysAhead (db w)) w)
    as (w' & results & Hrun & Hkeys & Hmade).
  destruct (generateForAppointments_spec now (upcoming now daysAhead (db w)) w)
    as (w2 & results2 & Hrun2 & Hi & Hc & Hres).
  rewrite Hrun in Hrun2. injection Hrun2 as <- <-.
  rewrite Hrun. exists w', results.
  split; [reflexivity|]. split; [exact Hkeys|]. split; [exact Hi|].
  split; [exact Hc|]. split; [exact Hres|].
  intros i Hin. destruct (Hmade i Hin) as (a & Ha & Hm).
  exists a. unfold upcoming in Ha. apply filter_In in Ha.
  destruct Ha as [Ha Hup]. unfold upcomingWithoutInstances in Hup.
  apply andb_true_iff in Hup. destruct Hup as [Hup Hnone].
  apply andb_true_iff in Hup. destruct Hup as [Hup Hlive].
  apply andb_true_iff in Hup. destruct Hup as [Hlo Hhi].
  apply Z.leb_le in Hlo, Hhi. apply negb_true_iff in Hlive.
  split; [exact Ha|]. split; [split; assumption|].
  split; [exact Hlive|]. split; [exact Hnone|exact Hm].
Qed.

(** X10. When no write fails, [generateUpcomingInstances] answers with
    one result per appointment that is scheduled within the next
    [daysAhead] days, is not cancelled and has no instance yet.  Its
    query names no order and the statement fixes none: the keys of the
    results are those appointments in some order, and in whatever order
    [served] the appointments come, the loop over them answers with one
    result per appointment in that order.  Either way the instances
    added are those of the results, and each of them is tied to such an
    appointment and to its patient, is due when the appointment is
    scheduled, expires [expirationDays] days later and is PENDING. *)
Theorem generation_serves_upcoming_appointments :
  forall (now : Date) (daysAhead : Z) (w : World),
    (exists results,
        snd (generateUpcomingInstances noFaults now daysAhead w)
        = Ok results
        /\ Permutation (map fst results)
             (map Appointment.id (upcoming now daysAhead (db w)))
        /\ measureInstances
             (db (fst (generateUpcomingInstances noFaults now daysAhead w)))
           = (measureInstances (db w)
                ++ List.concat (map snd results))%list
        /\ forall i, In i (List.concat (map snd results)) ->
             exists a,
               In a (appointments (db w))
               /\ now <= Appointment.scheduledAt a <= addDays now daysAhead
               /\ Appointment.isCancelled a = false
               /\ hasNoInstances (db w) a = true
               /\ madeFor a (activePolicy (db w)) i)
    /\ (forall served,
          Permutation served (upcoming now daysAhead (db w)) ->
          exists results,
            snd (generateForAppointments noFaults now served w)
            = Ok results
            /\ map fst results = map Appointment.id served
            /\ measureInstances
                 (db (fst (generateForAppointments noFaults now served w)))
               = (measureInstances (db w)
                    ++ List.concat (map snd results))%list
            /\ forall i, In i (List.concat (map snd results)) ->
                 exists a,
                   In a (appointments (db w))
                   /\ now <= Appointment.scheduledAt a
                      <= addDays now daysAhead
                   /\ Appointment.isCancelled a = false
                   /\ hasNoInstances (db w) a = true
                   /\ madeFor a (activePolicy (db w)) i).
Proof.
  intros now daysAhead w. split.
  - destruct (generateUpcomingInstances_run now daysAhead w)
      as (w' & results & Hrun & Hkeys & Hi & _ & _ & Hmade).
    rewrite Hrun. cbn [fst snd]. exists results.
    split; [reflexivity|]. split; [rewrite Hkeys; reflexivity|].
    split; [exact Hi|]. exact Hmade.
  - intros served Hperm.
    destruct (generateForAppointments_made now served w)
      as (w' & results & Hrun & Hkeys & Hmade).
    destruct (generateForAppointments_spec now served w)
      as (w2 & results2 & Hrun2 & Hi & _ & _).
    rewrite Hrun in Hrun2. injection Hrun2 as <- <-.
    rewrite Hrun. cbn [fst snd]. exists results.
    split; [reflexivity|]. split; [exact Hkeys|]. split; [exact Hi|].
    intros i Hin. destruct (Hmade i Hin) as (a & Ha & Hm).
    exists a. apply (Permutation_in _ Hperm) in Ha.
    unfold upcoming in Ha. apply filter_In in Ha.
    destruct Ha as [Ha Hup]. unfold upcomingWithoutInstances in Hup.
    apply andb_true_iff in Hup. destruct Hup as [Hup Hnone].
    apply andb_true_iff in Hup. destruct Hup as [Hup Hlive].
    apply andb_true_iff in Hup. destruct Hup as [Hlo Hhi].
    apply Z.leb_le in Hlo, Hhi. apply negb_true_iff in Hlive.
    split; [exact Ha|]. split; [split; assumption|].
    split; [exact Hlive|]. split; [exact Hnone|exact Hm].
Qed.

(* ================================================================== *)
(** ** The generation cron route *)

Lemma secretMismatch_true : forall cronSecret authHeader,
  secretMismatch cronSecret authHeader = true
  <-> exists secret,
        cronSecret = Some secret /\ secret <> ""
        /\ authHeader <> Some ("Bearer " ++ secret).
Proof.
  intros cronSecret authHeader. unfold secretMismatch, orUndefined. split.
  - destruct cronSecret as [secret|]; [|discriminate].
    destruct (String.eqb_spec secret ""); [discriminate|].
    intro H. exists secret. split; [reflexivity|]. split; [assumption|].
    destruct authHeader as [header|]; [|discriminate].
    apply negb_true_iff in H. apply String.eqb_neq in H. congruence.
  - intros (secret & -> & Hne & Hh).
    destruct (String.eqb_spec secret ""); [contradiction|].
    destruct authHeader as [header|]; [|reflexivity].
    apply negb_true_iff. apply String.eqb_neq. congruence.
Qed.





Lemma generateForAppointments_throws : forall F now apps w w' e,
  generateForAppointments F now apps w = (w', Throw e) ->
  exists n, writeFails F n = true.
Proof.
  intros F now apps. induction apps as [|a apps IH]; intros w w' e.
  - discriminate.
  - cbn [generateForAppointments]. unfold bind at 1.
    match goal with
    | |- context [createMeasureInstances F now ?o w] =>
        destruct (createMeasureInstances_spec F now o w)
          as (w1 & r & created & Hrun & _ & _ & _ & Hr)
    end.
    rewrite Hrun. destruct Hr as [[-> _]|[e1 [-> Hn]]]; [|intros _; exact Hn].
    unfold bind.
    destruct (generateForAppointments F now apps w1) as [w2 [results|e2]] eqn:E.
    + discriminate.
    + intros _. exact (IH _ _ _ E).
Qed.

Lemma generateUpcomingInstances_throws : forall F now daysAhead w w' e,
  generateUpcomingInstances F now daysAhead w = (w', Throw e) ->
  exists n, writeFails F n = true.
Proof.
  intros F now daysAhead w w' e.
  unfold generateUpcomingInstances, getDb, bind. cbv beta iota zeta.
  apply generateForAppointments_throws.
Qed.



(** X12. The guard of the generation cron route: [POST] answers 401,
    and touches nothing, exactly when a non-empty [CRON_SECRET] is
    configured and the request's authorization header is not the bearer
    of it; in every other case it does what [GET] does, which runs the
    job unguarded and always answers, with a 200 or -- when generation
    or the sweep throws -- a 500. *)
Theorem cron_generate_guard :
  forall (F : Faults) (cronSecret authHeader : option string) (now : Date)
         (w : World),
    ((exists secret,
         cronSecret = Some secret /\ secret <> ""
         /\ authHeader <> Some ("Bearer " ++ secret))
     /\ CronGenerate.POST F cronSecret now authHeader w
        = (w, Ok cronUnauthorized)
     \/ ~ (exists secret,
             cronSecret = Some secret /\ secret <> ""
             /\ authHeader <> Some ("Bearer " ++ secret))
        /\ CronGenerate.POST F cronSecret now authHeader w
           = CronGenerate.GET F now w)
    /\ exists w' response,
         CronGenerate.GET F now w = (w', Ok response)
         /\ (cronStatus response = 200
             \/ response = generationFailed
                /\ exists n, writeFails F n = true).
Proof.
  intros F cronSecret authHeader now w. split.
  - unfold CronGenerate.POST.
    destruct (secretMismatch cronSecret authHeader) eqn:E.
    + left. split; [apply secretMismatch_true; exact E|reflexivity].
    + right. split; [|reflexivity]. intro H.
      apply secretMismatch_true in H. congruence.
  - unfold CronGenerate.GET, tryCatch, bind.
    destruct (generateUpcomingInstances F now 7 w) as [w1 [generated|e]] eqn:Hg.
    + unfold markExpiredInstances, prisma_measureInstance_updateMany, dbWrite.
      destruct (writeFails F (writes w1)) eqn:Hw.
      * do 2 eexists. split; [reflexivity|]. right. split; [reflexivity|].
        eauto.
      * do 2 eexists. split; [reflexivity|]. left. reflexivity.
    + do 2 eexists. split; [reflexivity|]. right. split; [reflexivity|].
      apply (generateUpcomingInstances_throws F now 7 w w1 e Hg).
Qed.

(* ================================================================== *)
(** ** Opening the link for the first time *)

Lemma find_present : forall A (p : A -> bool) l x,
  In x l -> p x = true -> exists y, find p l = Some y.
Proof.
  intros A p l x. induction l as [|z l IH]; intros Hin Hp; [contradiction|].
  cbn. destruct (p z) eqn:E; [eauto|].
  destruct Hin as [->|Hin]; [congruence|]. apply IH; assumption.
Qed.

(** The row a token resolves to after the rows with its key went
    through an update that keeps tokens. *)
Lemma findByToken_updated :
  forall (data : MeasureInstance.t -> MeasureInstance.t) l token instance,
    (forall r, MeasureInstance.token (data r) = MeasureInstance.token r) ->
    find (fun i => cuid_eqb (MeasureInstance.token i) token) l
    = Some instance ->
    find (fun i => cuid_eqb (MeasureInstance.token i) token)
      (map (fun r => if cuid_eqb (MeasureInstance.id r)
                          (MeasureInstance.id instance)
                     then data r else r) l)
    = Some (data instance).
Proof.
  intros data l token instance Hkeep.
  induction l as [|r l IH]; [discriminate|]. cbn [find map].
  destruct (cuid_eqb (MeasureInstance.token r) token) eqn:E.
  - intro H. injection H as ->.
    replace (cuid_eqb (MeasureInstance.id instance)
               (MeasureInstance.id instance))
      with true by (symmetry; apply String.eqb_refl).
    rewrite Hkeep, E. reflexivity.
  - intro H.
    destruct (cuid_eqb (MeasureInstance.id r) (MeasureInstance.id instance));
      [rewrite Hkeep|]; rewrite E; apply IH; exact H.
Qed.

(** X13. The first opening of a PENDING or SENT link that has not
    expired, when no write fails: the questionnaire is served, the rows
    of the instance become STARTED with [startedAt] the instant of the
    opening, and one QUESTIONNAIRE_STARTED event is appended to the
    trail.  Opening the link again, at any instant up to its expiry,
    serves the same questionnaire and changes nothing: [startedAt] keeps
    the first opening and no second event is written. *)
Theorem first_opening_starts_once :
  forall (now later : Date) (token : Cuid) (headers : RequestHeaders)
         (w : World) (instance : MeasureInstance.t) (measure : Measure.t)
         (patient : Patient.t),
    findByToken (db w) token = Some instance ->
    MeasureInstance.status instance = PENDING
    \/ MeasureInstance.status instance = SENT ->
    now <= MeasureInstance.expiresAt instance ->
    later <= MeasureInstance.expiresAt instance ->
    joinedMeasure (db w) instance = Some measure ->
    joinedPatient (db w) instance = Some patient ->
    exists w',
      Questionnaire.GET noFaults now token headers w
      = (w', Ok (served instance measure patient))
      /\ measureInstances (db w')
         = startRows now (MeasureInstance.id instance)
             (measureInstances (db w))
      /\ findByToken (db w') token
         = Some (MeasureInstance.markStarted now instance)
      /\ auditEvents (db w')
         = (auditEvents (db w) ++ [startedEvent headers instance])%list
      /\ Questionnaire.GET noFaults later token headers w'
         = (w', Ok (served instance measure patient)).
Proof.
  intros now later token headers w instance measure patient
    Hfind Hst Hnow Hlater Hm Hp.
  unfold findByToken in Hfind.
  assert (Hin : In instance (measureInstances (db w)))
    by (apply find_some in Hfind; tauto).
  destruct (find_present _
              (fun i => cuid_eqb (MeasureInstance.id i)
                          (MeasureInstance.id instance))
              _ _ Hin (String.eqb_refl _)) as [first Hfirst].
  assert (Hopen : status_eqb (MeasureInstance.status instance) COMPLETED
                  = false
                  /\ status_eqb (MeasureInstance.status instance) EXPIRED
                     = false
                  /\ status_eqb (MeasureInstance.status instance) PENDING
                     || status_eqb (MeasureInstance.status instance) SENT
                     = true)
    by (destruct Hst as [-> | ->]; repeat split).
  destruct Hopen as (Hc & He & Hps).
  set (w' := {| db := withAuditEvents
                        (withInstances (db w)
                           (startRows now (MeasureInstance.id instance)
                              (measureInstances (db w))))
                        (auditEvents (db w)
                           ++ [startedEvent headers instance])%list;
                writes := S (writes w);
                auditWrites := S (auditWrites w) |}).
  assert (Hfind' : findByToken (db w') token
                   = Some (MeasureInstance.markStarted now instance)).
  { unfold findByToken, w', startRows.
    cbn [db measureInstances withAuditEvents withInstances].
    apply findByToken_updated; [reflexivity|exact Hfind]. }
  exists w'. split; [|split; [reflexivity|split; [exact Hfind'|split;
                                                   [reflexivity|]]]].
  - run_handler Questionnaire.GET.
    rewrite Hfind, Hc, He. cbn [orb].
    replace (MeasureInstance.expiresAt instance <? now) with false
      by (symmetry; apply Z.ltb_ge; lia).
    rewrite Hps.
    unfold prisma_measureInstance_update, dbWrite.
    cbn [writeFails noFaults]. rewrite Hfirst.
    unfold audit.questionnaireStarted, logAuditEvent, tryCatch,
      prisma_auditEvent_create.
    cbn [auditFails noFaults auditWrites db writes].
    unfold liftResult. rewrite Hm, Hp. cbn [deref]. reflexivity.
  - run_handler Questionnaire.GET.
    unfold findByToken in Hfind'. rewrite Hfind'.
    cbn [MeasureInstance.status MeasureInstance.markStarted status_eqb orb
         MeasureInstance.expiresAt].
    replace (MeasureInstance.expiresAt instance <? later) with false
      by (symmetry; apply Z.ltb_ge; lia).
    unfold liftResult.
    change (joinedMeasure (db w')
              (MeasureInstance.markStarted now instance))
      with (joinedMeasure (db w) instance).
    change (joinedPatient (db w')
              (MeasureInstance.markStarted now instance))
      with (joinedPatient (db w) instance).
    rewrite Hm, Hp. cbn [deref]. reflexivity.
Qed.

(** X13 for Ann's link, sent to her and valid until day 7: she opens it
    on day 1 and again on day 2. *)
Lemma first_opening_starts_once_witness :
  exists w',
    opens (Clinic.day 1) SENT
    = (w', Ok (served (Clinic.instance "x" SENT (Clinic.day 7))
                 Clinic.phq9 Clinic.ann))
    /\ measureInstances (db w')
       = startRows (Clinic.day 1) "i-x"
           [Clinic.instance "x" SENT (Clinic.day 7)]
    /\ findByToken (db w') "t-x"
       = Some (MeasureInstance.markStarted (Clinic.day 1)
                 (Clinic.instance "x" SENT (Clinic.day 7)))
    /\ auditEvents (db w')
       = [startedEvent Clinic.noHeaders
            (Clinic.instance "x" SENT (Clinic.day 7))]
    /\ Questionnaire.GET noFaults (Clinic.day 2) "t-x" Clinic.noHeaders w'
       = (w', Ok (served (Clinic.instance "x" SENT (Clinic.day 7))
                    Clinic.phq9 Clinic.ann)).
Proof.
  apply (first_opening_starts_once (Clinic.day 1) (Clinic.day 2) "t-x"
           Clinic.noHeaders (annsLink SENT)
           (Clinic.instance "x" SENT (Clinic.day 7)) Clinic.phq9 Clinic.ann
           eq_refl (or_intror eq_refl)).
  - vm_compute. discriminate.
  - vm_compute. discriminate.
  - reflexivity.
  - reflexivity.
Defined.

(* ================================================================== *)
(** ** What a submission stores *)

Lemma scoreMeasure_total : forall name answers r,
  Scoring.scoreMeasure name answers = Ok r ->
  Scoring.totalScore r = sumValues answers.
Proof.
  intros name answers r H. unfold Scoring.scoreMeasure in H.
  destruct (Scoring.toUpperCase name =? "PHQ-9")%string.
  { apply scoreAssessment_result in H. tauto. }
  destruct (Scoring.toUpperCase name =? "GAD-7")%string.
  { apply scoreAssessment_result in H. tauto. }
  discriminate.
Qed.

(** X14. A submission that scores, for an instance that is not
    COMPLETED and whose expiry has not passed, when no write fails: the
    answer is the acceptance; one response row is stored, keyed to the
    instance, with the answers as submitted, their sum as total score
    and the band of the scoring result; the rows of the instance become
    COMPLETED at [now]; a QUESTIONNAIRE_SUBMITTED and then a
    SCORE_COMPUTED event about the new response are appended to the
    trail.  A second submission through the same link, whatever it
    carries, is refused with a 400 and changes nothing. *)
Theorem submission_stores_score_once :
  forall (now later : Date) (token : Cuid) (headers : RequestHeaders)
         (answers : list Scoring.Answer)
         (again : option (option (list Scoring.Answer)))
         (w : World) (instance : MeasureInstance.t) (measure : Measure.t)
         (r : Scoring.ScoringResult),
    findByToken (db w) token = Some instance ->
    MeasureInstance.status instance <> COMPLETED ->
    now <= MeasureInstance.expiresAt instance ->
    joinedMeasure (db w) instance = Some measure ->
    Scoring.scoreMeasure (Measure.name measure) answers = Ok r ->
    exists w' submitted scored,
      Questionnaire.POST noFaults now token headers (Some (Some answers)) w
      = (w', Ok accepted)
      /\ measureResponses (db w')
         = (measureResponses (db w)
              ++ [storedResponse (db w) instance answers
                    (Scoring.severityBand r)])%list
      /\ measureInstances (db w')
         = completeRows now (MeasureInstance.id instance)
             (measureInstances (db w))
      /\ auditEvents (db w')
         = (auditEvents (db w) ++ [submitted; scored])%list
      /\ eventAbout QUESTIONNAIRE_SUBMITTED (cuid (nextCuid (db w)))
           instance submitted
      /\ eventAbout SCORE_COMPUTED (cuid (nextCuid (db w))) instance scored
      /\ Questionnaire.POST noFaults later token headers again w'
         = (w', Ok alreadyCompleted).
Proof.
  intros now later token headers answers again w instance measure r
    Hfind Hst Hexp Hm Hscore.
  unfold findByToken in Hfind.
  assert (Hin : In instance (measureInstances (db w)))
    by (apply find_some in Hfind; tauto).
  destruct (find_present _
              (fun i => cuid_eqb (MeasureInstance.id i)
                          (MeasureInstance.id instance))
              _ _ Hin (String.eqb_refl _)) as [first Hfirst].
  pose proof (scoreMeasure_total _ _ _ Hscore) as Htotal.
  eexists _, _, _. split; [|split; [|split; [|split; [|split; [|split]]]]].
  - run_handler Questionnaire.POST.
    rewrite Hfind, (status_eqb_neq _ _ Hst).
    replace (MeasureInstance.expiresAt instance <? now) with false
      by (symmetry; apply Z.ltb_ge; lia).
    rewrite Hm. cbn [deref]. rewrite Hscore.
    unfold transaction, prisma_measureResponse_create,
      prisma_measureInstance_update, dbWrite.
    cbv beta iota. cbn [writeFails noFaults db writes auditWrites].
    cbn [measureInstances withNextCuid withResponses withInstances].
    rewrite Hfirst.
    unfold audit.questionnaireSubmitted, audit.scoreComputed,
      logAuditEvent, tryCatch, prisma_auditEvent_create.
    cbn [auditFails noFaults auditWrites db writes].
    unfold accepted. reflexivity.
  - cbn [db measureResponses withAuditEvents withInstances withNextCuid
         withResponses].
    unfold storedResponse. rewrite Htotal. reflexivity.
  - reflexivity.
  - cbn [db auditEvents withAuditEvents withInstances withNextCuid
         withResponses].
    rewrite <- app_assoc. reflexivity.
  - repeat split.
  - repeat split.
  - run_handler Questionnaire.POST.
    cbn [db measureInstances withAuditEvents withInstances withNextCuid
         withResponses].
    rewrite (findByToken_updated (MeasureInstance.markCompleted now)
               _ _ _ (fun _ => eq_refl) Hfind).
    reflexivity.
Qed.

(** X14 at Ann's submission of nine answers of value 1 on day 1; on
    day 2 she submits them again. *)
Lemma submission_stores_score_once_witness :
  exists w' submitted scored,
    annSubmits = (w', Ok accepted)
    /\ measureResponses (db w')
       = [storedResponse (db (annsLink STARTED))
            (Clinic.instance "x" STARTED (Clinic.day 7)) nineAnswers
            "mild"]
    /\ measureInstances (db w')
       = completeRows (Clinic.day 1) "i-x"
           [Clinic.instance "x" STARTED (Clinic.day 7)]
    /\ auditEvents (db w') = [submitted; scored]
    /\ eventAbout QUESTIONNAIRE_SUBMITTED "c0"
         (Clinic.instance "x" STARTED (Clinic.day 7)) submitted
    /\ eventAbout SCORE_COMPUTED "c0"
         (Clinic.instance "x" STARTED (Clinic.day 7)) scored
    /\ Questionnaire.POST noFaults (Clinic.day 2) "t-x" Clinic.noHeaders
         (Some (Some nineAnswers)) w'
       = (w', Ok alreadyCompleted).
Proof.
  apply (submission_stores_score_once (Clinic.day 1) (Clinic.day 2) "t-x"
           Clinic.noHeaders nineAnswers (Some (Some nineAnswers))
           (annsLink STARTED)
           (Clinic.instance "x" STARTED (Clinic.day 7)) Clinic.phq9
           {| Scoring.totalScore := 9; Scoring.severityBand := "mild";
              Scoring.maxPossibleScore := 27;
              Scoring.answeredQuestions := 9 |}
           eq_refl).
  - discriminate.
  - vm_compute. discriminate.
  - reflexivity.
  - reflexivity.
Defined.

(* ================================================================== *)
(** ** What no handler ever does *)

Lemma identity_marked : forall now r,
  identity (MeasureInstance.markSent now r) = identity r
  /\ identity (MeasureInstance.markStarted now r) = identity r
  /\ identity (MeasureInstance.markCompleted now r) = identity r
  /\ identity (MeasureInstance.markExpired r) = identity r.
Proof. intros now r. repeat split. Qed.

Section Keeps.

Variable R : Db -> Db -> Prop.
Hypothesis R_refl : forall d, R d d.
Hypothesis R_trans : forall a b c, R a b -> R b c -> R a c.

Lemma keeps_ret : forall A (a : A), keeps R (ret a).
Proof. intros A a w. apply R_refl. Qed.

Lemma keeps_throw : forall A e, keeps R (@throw A e).
Proof. intros A e w. apply R_refl. Qed.

Lemma keeps_getDb : keeps R getDb.
Proof. intro w. apply R_refl. Qed.

Lemma keeps_liftResult : forall A (r : Result A), keeps R (liftResult r).
Proof. intros A r w. apply R_refl. Qed.

Lemma keeps_bind : forall A B (m : M A) (k : A -> M B),
  keeps R m -> (forall a, keeps R (k a)) -> keeps R (bind m k).
Proof.
  intros A B m k Hm Hk w. unfold bind. specialize (Hm w).
  destruct (m w) as [w1 [a|e]]; cbn [fst] in *.
  - eapply R_trans; [exact Hm|apply Hk].
  - exact Hm.
Qed.

Lemma keeps_tryCatch : forall A (m : M A) handler,
  keeps R m -> (forall e, keeps R (handler e)) -> keeps R (tryCatch m handler).
Proof.
  intros A m handler Hm Hh w. unfold tryCatch. specialize (Hm w).
  destruct (m w) as [w1 [a|e]]; cbn [fst] in *.
  - exact Hm.
  - eapply R_trans; [exact Hm|apply Hh].
Qed.

Lemma keeps_transaction : forall A (body : M A),
  keeps R body -> keeps R (transaction body).
Proof.
  intros A body Hb w. unfold transaction. specialize (Hb w).
  destruct (body w) as [w1 [a|e]]; cbn [fst db] in *.
  - exact Hb.
  - apply R_refl.
Qed.

Lemma keeps_promiseAll : forall A (ps : list (M A)),
  Forall (keeps R) ps -> keeps R (promiseAll ps).
Proof.
  intros A ps H. induction H as [|p ps Hp _ IH]; intro w.
  - apply R_refl.
  - cbn [promiseAll]. specialize (Hp w).
    destruct (p w) as [w1 [a|e]]; cbn [fst] in *.
    + specialize (IH w1).
      destruct (promiseAll ps w1) as [w2 [l|e]]; cbn [fst] in *;
        eapply R_trans; eassumption.
    + eapply R_trans; [exact Hp|apply IH].
Qed.

Lemma keeps_forEach : forall A (xs : list A) body,
  (forall x, keeps R (body x)) -> keeps R (forEach xs body).
Proof.
  intros A xs body Hb. induction xs as [|x xs IH].
  - apply keeps_ret.
  - cbn [forEach]. apply keeps_bind; [apply Hb|intros _; exact IH].
Qed.

Lemma keeps_dbWrite : forall F A (f : Db -> Result (Db * A)),
  (forall d d' a, f d = Ok (d', a) -> R d d') -> keeps R (dbWrite F f).
Proof.
  intros F A f Hf w. unfold dbWrite.
  destruct (writeFails F (writes w)); [apply R_refl|].
  destruct (f (db w)) as [[d a]|e] eqn:E; cbn [fst db].
  - eapply Hf; exact E.
  - apply R_refl.
Qed.

Hypothesis R_audit : forall F ev, keeps R (prisma_auditEvent_create F ev).
Hypothesis R_policy : forall F p, keeps R (prisma_mbcPolicy_create F p).
Hypothesis R_create : forall F a b c d e f,
  keeps R (prisma_measureInstance_create F a b c d e f).
Hypothesis R_update : forall F id data,
  (forall r, identity (data r) = identity r) ->
  keeps R (prisma_measureInstance_update F id data).
Hypothesis R_updateMany : forall F p data,
  (forall r, identity (data r) = identity r) ->
  keeps R (prisma_measureInstance_updateMany F p data).
Hypothesis R_response : forall F a b c d,
  keeps R (prisma_measureResponse_create F a b c d).

Ltac keep :=
  repeat first
    [ apply keeps_ret
    | apply keeps_throw
    | apply keeps_getDb
    | apply keeps_liftResult
    | apply R_audit | apply R_policy | apply R_create | apply R_response
    | apply R_update; intro; apply identity_marked
    | apply R_updateMany; intro; apply identity_marked
    | assumption
    | apply keeps_bind; [|intro]
    | apply keeps_tryCatch; [|intro]
    | apply keeps_transaction
    | apply keeps_forEach; intro
    | progress unfold prisma_measureInstance_findByToken,
        prisma_measureInstance_findById, prisma_mbcPolicy_findUnique,
        prisma_measure_findMany, prisma_measureInstance_count
    | progress cbv zeta
    | match goal with
      | |- keeps _ (match ?x with _ => _ end) => destruct x
      end ].

Lemma keeps_logAuditEvent : forall F eventType context,
  keeps R (logAuditEvent F eventType context).
Proof. intros. unfold logAuditEvent. keep. Qed.

Lemma keeps_getDefaultPolicy : forall F, keeps R (getDefaultPolicy F).
Proof. intros. unfold getDefaultPolicy. keep. Qed.

Lemma keeps_createMeasureInstances : forall F now options,
  keeps R (createMeasureInstances F now options).
Proof.
  intros. unfold createMeasureInstances. cbv zeta.
  apply keeps_bind; [apply keeps_getDefaultPolicy|].
  intro policy.
  apply keeps_bind; [keep|]. intro measures.
  apply keeps_bind; [|intro instances].
  - apply keeps_promiseAll.
    apply Forall_forall. intros p Hp. apply in_map_iff in Hp.
    destruct Hp as [m [<- _]]. apply R_create.
  - apply keeps_bind; [|intro; keep].
    apply keeps_forEach. intro x.
    apply keeps_logAuditEvent.
Qed.

Lemma keeps_createIntakeAssessments : forall F now patient user,
  keeps R (createIntakeAssessments F now patient user).
Proof.
  intros. unfold createIntakeAssessments.
  apply keeps_bind; [apply keeps_getDefaultPolicy|].
  intro policy. destruct (negb (MbcPolicy.requireAtIntake policy)).
  - keep.
  - apply keeps_createMeasureInstances.
Qed.

Lemma keeps_scheduleNextAssessments : forall F now patient user,
  keeps R (scheduleNextAssessments F now patient user).
Proof.
  intros. unfold scheduleNextAssessments.
  apply keeps_bind; [apply keeps_getDefaultPolicy|].
  intro policy. apply keeps_createMeasureInstances.
Qed.

Lemma keeps_generateForAppointments : forall F now apps,
  keeps R (generateForAppointments F now apps).
Proof.
  intros F now apps. induction apps as [|a apps IH].
  - cbn. keep.
  - cbn [generateForAppointments].
    apply keeps_bind; [apply keeps_createMeasureInstances|].
    intro instances.
    apply keeps_bind; [exact IH|]. intro. keep.
Qed.

Lemma keeps_generateUpcomingInstances : forall F now daysAhead,
  keeps R (generateUpcomingInstances F now daysAhead).
Proof.
  intros. unfold generateUpcomingInstances. cbv zeta.
  apply keeps_bind; [keep|]. intro d.
  apply keeps_generateForAppointments.
Qed.

Lemma keeps_getDueAssessments : forall F now,
  keeps R (getDueAssessments F now).
Proof.
  intros. unfold getDueAssessments.
  apply keeps_bind; [apply keeps_getDefaultPolicy|].
  intro policy. keep.
Qed.

Lemma keeps_markExpiredInstances : forall F now,
  keeps R (markExpiredInstances F now).
Proof. intros. unfold markExpiredInstances. keep. Qed.

Lemma keeps_Questionnaire_GET : forall F now token headers,
  keeps R (Questionnaire.GET F now token headers).
Proof.
  intros. unfold Questionnaire.GET, audit.questionnaireStarted. keep.
Qed.

Lemma keeps_Questionnaire_POST : forall F now token headers requestBody,
  keeps R (Questionnaire.POST F now token headers requestBody).
Proof.
  intros. unfold Questionnaire.POST, audit.questionnaireSubmitted,
    audit.scoreComputed. keep.
Qed.

Lemma keeps_NotificationsSend_POST : forall F mailer appUrl now request,
  keeps R (NotificationsSend.POST F mailer appUrl now request).
Proof.
  intros. unfold NotificationsSend.POST, NotificationsSend.attempt,
    audit.linkSent. keep.
Qed.

Lemma keeps_Compliance_GET : forall F now clinician days,
  keeps R (Compliance.GET F now clinician days).
Proof.
  intros. unfold Compliance.GET. keep.
Qed.

Lemma keeps_CronGenerate : forall F secret now authHeader,
  keeps R (CronGenerate.POST F secret now authHeader)
  /\ keeps R (CronGenerate.GET F now).
Proof.
  intros F secret now authHeader.
  assert (Hjob : keeps R (CronGenerate.GET F now)).
  { unfold CronGenerate.GET. apply keeps_tryCatch; [|intro; keep].
    apply keeps_bind; [apply keeps_generateUpcomingInstances|intro].
    apply keeps_bind; [apply keeps_markExpiredInstances|intro]. keep. }
  split; [|exact Hjob]. unfold CronGenerate.POST.
  destruct (secretMismatch secret authHeader); [keep|exact Hjob].
Qed.

Lemma keeps_sendEach : forall F mailer d0 appUrl now l,
  keeps R (CronSend.sendEach F mailer d0 appUrl now l).
Proof.
  intros F mailer d0 appUrl now l. induction l as [|i l IH].
  - cbn. keep.
  - cbn [CronSend.sendEach]. unfold audit.linkSent. keep.
Qed.

Lemma keeps_CronSend : forall F mailer appUrl secret now authHeader,
  keeps R (CronSend.POST F mailer appUrl secret now authHeader)
  /\ keeps R (CronSend.GET F mailer appUrl secret now authHeader).
Proof.
  intros F mailer appUrl secret now authHeader.
  assert (H : keeps R
                (CronSend.handleSendNotifications F mailer appUrl secret
                   now authHeader)).
  { unfold CronSend.handleSendNotifications.
    destruct (secretMismatch secret authHeader); [keep|].
    apply keeps_tryCatch; [|intro; keep]. cbv zeta.
    apply keeps_bind; [keep|intro d0].
    apply keeps_bind; [apply keeps_sendEach|intro]. keep. }
  split; exact H.
Qed.

End Keeps.


Lemma trailExtended_refl : forall d, trailExtended d d.
Proof. intro d. exists []. symmetry. apply app_nil_r. Qed.

Lemma trailExtended_trans : forall a b c,
  trailExtended a b -> trailExtended b c -> trailExtended a c.
Proof.
  intros a b c [x Hx] [y Hy]. exists (x ++ y)%list.
  rewrite Hy, Hx, app_assoc. reflexivity.
Qed.

Lemma rowsKept_refl : forall d, rowsKept d d.
Proof. intro d. split; exists []; symmetry; apply app_nil_r. Qed.

Lemma rowsKept_trans : forall a b c,
  rowsKept a b -> rowsKept b c -> rowsKept a c.
Proof.
  intros a b c [[x Hx] [x' Hx']] [[y Hy] [y' Hy']]. split.
  - exists (x ++ y)%list. rewrite Hy, Hx, app_assoc. reflexivity.
  - exists (x' ++ y')%list. rewrite Hy', Hx', app_assoc. reflexivity.
Qed.

Lemma map_identity_update : forall (p : MeasureInstance.t -> bool) data l,
  (forall r, identity (data r) = identity r) ->
  map identity (map (fun r => if p r then data r else r) l)
  = map identity l.
Proof.
  intros p data l H. rewrite map_map. apply map_ext.
  intro r. destruct (p r); [apply H|reflexivity].
Qed.

(** Closes a goal that says a table is as it was. *)
Ltac unchanged :=
  exists []; cbn;
  try (rewrite map_identity_update by assumption);
  symmetry; apply app_nil_r.

(** The writes of the embedding, along both relations. *)
Lemma keeps_auditEvent_create : forall F ev,
  keeps trailExtended (prisma_auditEvent_create F ev)
  /\ keeps rowsKept (prisma_auditEvent_create F ev).
Proof.
  intros F ev. split; intro w; unfold prisma_auditEvent_create;
    destruct (auditFails F (auditWrites w)); cbn [fst db].
  - unchanged.
  - eexists; reflexivity.
  - split; unchanged.
  - split; unchanged.
Qed.

Lemma keeps_mbcPolicy_create : forall F p,
  keeps trailExtended (prisma_mbcPolicy_create F p)
  /\ keeps rowsKept (prisma_mbcPolicy_create F p).
Proof.
  intros F p. split.
  - apply keeps_dbWrite; [apply trailExtended_refl|].
    intros d d' a H. injection H as <- _. unchanged.
  - apply keeps_dbWrite; [apply rowsKept_refl|].
    intros d d' a H. injection H as <- _. split; unchanged.
Qed.

Lemma keeps_measureInstance_create : forall F a b c d e f,
  keeps trailExtended (prisma_measureInstance_create F a b c d e f)
  /\ keeps rowsKept (prisma_measureInstance_create F a b c d e f).
Proof.
  intros F a b c d e f. split.
  - apply keeps_dbWrite; [apply trailExtended_refl|].
    intros d0 d' r H. injection H as <- _. unchanged.
  - apply keeps_dbWrite; [apply rowsKept_refl|].
    intros d0 d' r H. injection H as <- _. split; [|unchanged].
    cbn. rewrite map_app. eexists; reflexivity.
Qed.

Lemma keeps_measureInstance_update : forall F id data,
  (forall r, identity (data r) = identity r) ->
  keeps trailExtended (prisma_measureInstance_update F id data)
  /\ keeps rowsKept (prisma_measureInstance_update F id data).
Proof.
  intros F id data Hid. split.
  - apply keeps_dbWrite; [apply trailExtended_refl|].
    intros d d' a H0.
    destruct (find _ (measureInstances d)); [|discriminate].
    injection H0 as <- _. unchanged.
  - apply keeps_dbWrite; [apply rowsKept_refl|].
    intros d d' a H0.
    destruct (find _ (measureInstances d)); [|discriminate].
    injection H0 as <- _. split; unchanged.
Qed.

Lemma keeps_measureInstance_updateMany : forall F p data,
  (forall r, identity (data r) = identity r) ->
  keeps trailExtended (prisma_measureInstance_updateMany F p data)
  /\ keeps rowsKept (prisma_measureInstance_updateMany F p data).
Proof.
  intros F p data Hid. split.
  - apply keeps_dbWrite; [apply trailExtended_refl|].
    intros d d' a H0. injection H0 as <- _. unchanged.
  - apply keeps_dbWrite; [apply rowsKept_refl|].
    intros d d' a H0. injection H0 as <- _. split; unchanged.
Qed.

Lemma keeps_measureResponse_create : forall F a b c d,
  keeps trailExtended (prisma_measureResponse_create F a b c d)
  /\ keeps rowsKept (prisma_measureResponse_create F a b c d).
Proof.
  intros F a b c d. split.
  - apply keeps_dbWrite; [apply trailExtended_refl|].
    intros d0 d' r H. injection H as <- _. unchanged.
  - apply keeps_dbWrite; [apply rowsKept_refl|].
    intros d0 d' r H. injection H as <- _. split; [unchanged|].
    eexists; reflexivity.
Qed.


(** Discharges what a handler lemma asks of the relation. *)
Ltac along :=
  first
    [ exact trailExtended_refl | exact trailExtended_trans
    | exact rowsKept_refl | exact rowsKept_trans
    | intros; apply keeps_auditEvent_create
    | intros; apply keeps_mbcPolicy_create
    | intros; apply keeps_measureInstance_create
    | intros; apply keeps_measureResponse_create
    | intros; apply keeps_measureInstance_update; assumption
    | intros; apply keeps_measureInstance_updateMany; assumption ].

(** X15. The audit trail only ever grows: whatever writes fail, after
    any call of the scheduling service and any run of a route handler
    the events that were in the trail are still there, unchanged and in
    order, with the new ones after them.  No code path edits or deletes
    an audit event, and the rollback of a failed submission does not
    take any away. *)
Theorem audit_trail_only_grows :
  forall (F : Faults) (now : Date),
    (forall options, keeps trailExtended (createMeasureInstances F now options))
    /\ (forall patient user,
          keeps trailExtended (createIntakeAssessments F now patient user)
          /\ keeps trailExtended (scheduleNextAssessments F now patient user))
    /\ (forall daysAhead,
          keeps trailExtended (generateUpcomingInstances F now daysAhead))
    /\ keeps trailExtended (getDueAssessments F now)
    /\ keeps trailExtended (markExpiredInstances F now)
    /\ (forall token headers,
          keeps trailExtended (Questionnaire.GET F now token headers))
    /\ (forall token headers requestBody,
          keeps trailExtended
            (Questionnaire.POST F now token headers requestBody))
    /\ (forall mailer appUrl request,
          keeps trailExtended
            (NotificationsSend.POST F mailer appUrl now request))
    /\ (forall clinician days,
          keeps trailExtended (Compliance.GET F now clinician days))
    /\ (forall secret authHeader,
          keeps trailExtended (CronGenerate.POST F secret now authHeader))
    /\ keeps trailExtended (CronGenerate.GET F now)
    /\ (forall mailer appUrl secret authHeader,
          keeps trailExtended
            (CronSend.POST F mailer appUrl secret now authHeader)
          /\ keeps trailExtended
               (CronSend.GET F mailer appUrl secret now authHeader)).
Proof.
  intros F now.
  split; [intros; apply keeps_createMeasureInstances; along|].
  split; [intros; split;
          [apply keeps_createIntakeAssessments
          |apply keeps_scheduleNextAssessments]; along|].
  split; [intros; apply keeps_generateUpcomingInstances; along|].
  split; [apply keeps_getDueAssessments; along|].
  split; [apply keeps_markExpiredInstances; along|].
  split; [intros; apply keeps_Questionnaire_GET; along|].
  split; [intros; apply keeps_Questionnaire_POST; along|].
  split; [intros; apply keeps_NotificationsSend_POST; along|].
  split; [intros; apply keeps_Compliance_GET; along|].
  split; [intros; apply keeps_CronGenerate; along|].
  split; [apply (keeps_CronGenerate trailExtended);
          solve [along | exact None]|].
  intros; apply keeps_CronSend; along.
Qed.

(** X16. No call of the scheduling service and no run of a route
    handler, whatever writes fail, deletes or reorders an instance or
    changes its key, token, patient, measure, appointment, due date or
    expiry: the instance table afterwards is the one before, row by row
    with the same identity, followed by the new instances.  Stored
    responses are never changed or deleted either. *)
Theorem instances_keep_their_identity :
  forall (F : Faults) (now : Date),
    (forall options, keeps rowsKept (createMeasureInstances F now options))
    /\ (forall patient user,
          keeps rowsKept (createIntakeAssessments F now patient user)
          /\ keeps rowsKept (scheduleNextAssessments F now patient user))
    /\ (forall daysAhead,
          keeps rowsKept (generateUpcomingInstances F now daysAhead))
    /\ keeps rowsKept (getDueAssessments F now)
    /\ keeps rowsKept (markExpiredInstances F now)
    /\ (forall token headers,
          keeps rowsKept (Questionnaire.GET F now token headers))
    /\ (forall token headers requestBody,
          keeps rowsKept
            (Questionnaire.POST F now token headers requestBody))
    /\ (forall mailer appUrl request,
          keeps rowsKept
            (NotificationsSend.POST F mailer appUrl now request))
    /\ (forall clinician days,
          keeps rowsKept (Compliance.GET F now clinician days))
    /\ (forall secret authHeader,
          keeps rowsKept (CronGenerate.POST F secret now authHeader))
    /\ keeps rowsKept (CronGenerate.GET F now)
    /\ (forall mailer appUrl secret authHeader,
          keeps rowsKept
            (CronSend.POST F mailer appUrl secret now authHeader)
          /\ keeps rowsKept
               (CronSend.GET F mailer appUrl secret now authHeader)).
Proof.
  intros F now.
  split; [intros; apply keeps_createMeasureInstances; along|].
  split; [intros; split;
          [apply keeps_createIntakeAssessments
          |apply keeps_scheduleNextAssessments]; along|].
  split; [intros; apply keeps_generateUpcomingInstances; along|].
  split; [apply keeps_getDueAssessments; along|].
  split; [apply keeps_markExpiredInstances; along|].
  split; [intros; apply keeps_Questionnaire_GET; along|].
  split; [intros; apply keeps_Questionnaire_POST; along|].
  split; [intros; apply keeps_NotificationsSend_POST; along|].
  split; [intros; apply keeps_Compliance_GET; along|].
  split; [intros; apply keeps_CronGenerate; along|].
  split; [apply (keeps_CronGenerate rowsKept);
          solve [along | exact None]|].
  intros; apply keeps_CronSend; along.
Qed.

(* ================================================================== *)
(** ** The manual send route *)

Lemma findById_updated :
  forall (data : MeasureInstance.t -> MeasureInstance.t) l id instance,
    (forall r, MeasureInstance.id (data r) = MeasureInstance.id r) ->
    find (fun i => cuid_eqb (MeasureInstance.id i) id) l = Some instance ->
    find (fun i => cuid_eqb (MeasureInstance.id i) id)
      (map (fun r => if cuid_eqb (MeasureInstance.id r) id
                     then data r else r) l)
    = Some (data instance).
Proof.
  intros data l id instance Hkeep.
  induction l as [|r l IH]; [discriminate|]. cbn [find map].
  destruct (cuid_eqb (MeasureInstance.id r) id) eqn:E.
  - intro H. injection H as <-. rewrite Hkeep, E. reflexivity.
  - rewrite E. exact IH.
Qed.

(** X17. The manual send route sends for every instance that is not
    COMPLETED, CANCELLED or EXPIRED, whenever the patient has an email
    address and the provider accepts the mail: when no write fails the
    answer is a 200 naming the instance as SENT, the rows of the instance
    become SENT with [sentAt] the instant of the call, and one LINK_SENT
    event about the instance is appended to the trail.  Neither the
    expiry of the link nor an earlier opening stands in the way: an
    instance already STARTED goes back to SENT. *)
Theorem send_marks_open_instance_sent :
  forall (mailer : MagicLinkEmailData -> EmailResult)
         (appUrl : option string) (now : Date) (id : Cuid) (w : World)
         (instance : MeasureInstance.t) (patient : Patient.t)
         (measure : Measure.t) (email : string),
    id <> "" ->
    findById (db w) id = Some instance ->
    terminalb (MeasureInstance.status instance) = false ->
    joinedPatient (db w) instance = Some patient ->
    Patient.email patient = Some email -> email <> "" ->
    joinedMeasure (db w) instance = Some measure ->
    er_success (mailer (linkMail appUrl instance patient measure email))
    = true ->
    exists w' sent,
      NotificationsSend.POST noFaults mailer appUrl now (byEmail id) w
      = (w',
         Ok (json
               (SentBody true
                  (er_messageId
                     (mailer
                        (linkMail appUrl instance patient measure email)))
                  id "SENT")
               200))
      /\ measureInstances (db w')
         = sendRows now id (measureInstances (db w))
      /\ findById (db w') id = Some (MeasureInstance.markSent now instance)
      /\ auditEvents (db w') = (auditEvents (db w) ++ [sent])%list
      /\ eventAbout LINK_SENT id instance sent.
Proof.
  intros mailer appUrl now id w instance patient measure email
    Hid Hfind Hopen Hp Hemail Hne Hm Hmail.
  unfold findById in Hfind.
  assert (Hfalsy : falsy (Some id) = false).
  { unfold falsy, orUndefined.
    destruct (String.eqb_spec id ""); [contradiction|reflexivity]. }
  assert (Hfalsy' : falsy (Some email) = false).
  { unfold falsy, orUndefined.
    destruct (String.eqb_spec email ""); [contradiction|reflexivity]. }
  assert (Hst : status_eqb (MeasureInstance.status instance) COMPLETED
                || status_eqb (MeasureInstance.status instance) CANCELLED
                = false
                /\ status_eqb (MeasureInstance.status instance) EXPIRED
                   = false)
    by (destruct (MeasureInstance.status instance);
        try discriminate; split; reflexivity).
  destruct Hst as [Hcc He].
  eexists _, _. split; [|split; [|split; [|split]]].
  - unfold NotificationsSend.POST, tryCatch, NotificationsSend.attempt,
      byEmail.
    cbn [req_instanceId req_channel]. rewrite Hfalsy.
    cbn [String.eqb Ascii.eqb Bool.eqb negb].
    unfold prisma_measureInstance_findById, getDb, bind, ret, showOpt.
    cbv beta iota. rewrite Hfind. unfold liftResult.
    rewrite Hp, Hm. cbn [deref]. rewrite Hemail, Hfalsy', Hcc, He.
    fold (linkMail appUrl instance patient measure email).
    rewrite Hmail. cbn [negb].
    unfold prisma_measureInstance_update, dbWrite.
    cbn [writeFails noFaults]. rewrite Hfind.
    unfold audit.linkSent, logAuditEvent, tryCatch,
      prisma_auditEvent_create.
    cbn [auditFails noFaults auditWrites db writes]. reflexivity.
  - reflexivity.
  - unfold findById.
    cbn [db measureInstances withAuditEvents withInstances].
    apply findById_updated; [reflexivity|exact Hfind].
  - reflexivity.
  - repeat split.
Qed.

(** X17 for Ann's PHQ-9, which she has already opened and whose link ran
    out on day 7: on day 9 the link is sent again. *)
Lemma send_marks_open_instance_sent_witness :
  exists w' sent,
    NotificationsSend.POST noFaults Clinic.mailer None (Clinic.day 9)
      (byEmail "i-x") (annsLink STARTED)
    = (w', Ok (json (SentBody true (Some "msg-1") "i-x" "SENT") 200))
    /\ measureInstances (db w')
       = sendRows (Clinic.day 9) "i-x"
           [Clinic.instance "x" STARTED (Clinic.day 7)]
    /\ findById (db w') "i-x"
       = Some (MeasureInstance.markSent (Clinic.day 9)
                 (Clinic.instance "x" STARTED (Clinic.day 7)))
    /\ auditEvents (db w') = [sent]
    /\ eventAbout LINK_SENT "i-x"
         (Clinic.instance "x" STARTED (Clinic.day 7)) sent.
Proof.
  apply (send_marks_open_instance_sent Clinic.mailer None (Clinic.day 9)
           "i-x" (annsLink STARTED)
           (Clinic.instance "x" STARTED (Clinic.day 7)) Clinic.ann
           Clinic.phq9 "ann@example.org").
  - discriminate.
  - reflexivity.
  - reflexivity.
  - reflexivity.
  - reflexivity.
  - discriminate.
  - reflexivity.
  - reflexivity.
Defined.

(** X18. The manual send route always answers, whatever the request,
    the provider and the failing writes; when its answer is not a 200
    the database is exactly as it was, and when it is a 200 the request
    named an instance whose rows are now SENT at [now]. *)
Theorem send_answers_all_or_nothing :
  forall (F : Faults) (mailer : MagicLinkEmailData -> EmailResult)
         (appUrl : option string) (now : Date)
         (request : option SendNotificationRequest) (w : World),
  exists w' response,
    NotificationsSend.POST F mailer appUrl now request w = (w', Ok response)
    /\ (httpStatus response <> 200 -> db w' = db w)
    /\ (httpStatus response = 200 ->
        exists id body,
          request = Some body /\ req_instanceId body = Some id
          /\ measureInstances (db w')
             = sendRows now id (measureInstances (db w))).
Proof.
  intros F mailer appUrl now request w.
  assert (Hrefused : forall message code,
            code <> 200 ->
            exists w' response,
              (w, Ok (json (ErrorBody message) code))
              = (w', Ok response)
              /\ (httpStatus response <> 200 -> db w' = db w)
              /\ (httpStatus response = 200 ->
                  exists id body,
                    request = Some body /\ req_instanceId body = Some id
                    /\ measureInstances (db w')
                       = sendRows now id (measureInstances (db w)))).
  { intros message code Hcode. do 2 eexists. split; [reflexivity|].
    split; [reflexivity|]. cbn. intro; contradiction. }
  unfold NotificationsSend.POST, tryCatch, NotificationsSend.attempt.
  destruct request as [body|].
  2:{ cbn. apply Hrefused. discriminate. }
  destruct (falsy (req_instanceId body)) eqn:Hid.
  { apply Hrefused. discriminate. }
  destruct (negb (req_channel body =? "email")%string).
  { apply Hrefused. discriminate. }
  destruct (req_instanceId body) as [id|] eqn:Hsome; [|discriminate].
  unfold prisma_measureInstance_findById, getDb, bind, ret, showOpt.
  cbv beta iota.
  destruct (find (fun i => cuid_eqb (MeasureInstance.id i) id)
              (measureInstances (db w))) as [instance|] eqn:Hfind.
  2:{ apply Hrefused. discriminate. }
  unfold liftResult, deref.
  destruct (joinedPatient (db w) instance) as [patient|].
  2:{ apply Hrefused. discriminate. }
  destruct (falsy (Patient.email patient)).
  { apply Hrefused. discriminate. }
  destruct (status_eqb (MeasureInstance.status instance) COMPLETED
            || status_eqb (MeasureInstance.status instance) CANCELLED).
  { apply Hrefused. discriminate. }
  destruct (status_eqb (MeasureInstance.status instance) EXPIRED).
  { apply Hrefused. discriminate. }
  destruct (joinedMeasure (db w) instance) as [measure|].
  2:{ apply Hrefused. discriminate. }
  match goal with
  | |- context [negb (er_success ?result)] =>
      destruct (er_success result)
  end; cbn [negb].
  2:{ apply Hrefused. discriminate. }
  unfold prisma_measureInstance_update, dbWrite.
  destruct (writeFails F (writes w)).
  { do 2 eexists. split; [reflexivity|]. split; [reflexivity|].
    cbn. discriminate. }
  rewrite Hfind.
  unfold audit.linkSent. rewrite logAuditEvent_run.
  do 2 eexists. split; [reflexivity|]. split.
  { cbn. intro H. contradiction H. reflexivity. }
  intros _. exists id, body. split; [reflexivity|].
  split; [exact Hsome|].
  cbn [fst]. rewrite afterAudit_instances. reflexivity.
Qed.

(* ================================================================== *)
(** ** The overdue figures of the compliance answer *)










(* ================================================================== *)
(** ** The notification cron route *)








(** X21. The guard of the notification cron route, which [GET] and
    [POST] share: when a non-empty [CRON_SECRET] is configured and the
    authorization header is not the bearer of it, the answer is a 401
    and nothing is read or written; otherwise the route always answers,
    with a 200 or -- when reading a joined row or a write throws -- a
    500. *)
Theorem cron_send_guard :
  forall (F : Faults) (mailer : MagicLinkEmailData -> EmailResult)
         (appUrl cronSecret authHeader : option string) (now : Date)
         (w : World),
    CronSend.GET F mailer appUrl cronSecret now authHeader w
    = CronSend.POST F mailer appUrl cronSecret now authHeader w
    /\ ((exists secret,
            cronSecret = Some secret /\ secret <> ""
            /\ authHeader <> Some ("Bearer " ++ secret))
        /\ CronSend.POST F mailer appUrl cronSecret now authHeader w
           = (w, Ok cronUnauthorized)
        \/ ~ (exists secret,
                cronSecret = Some secret /\ secret <> ""
                /\ authHeader <> Some ("Bearer " ++ secret))
           /\ exists w' response,
                CronSend.POST F mailer appUrl cronSecret now authHeader w
                = (w', Ok response)
                /\ (cronStatus response = 200
                    \/ response = notificationsFailed)).
Proof.
  intros F mailer appUrl cronSecret authHeader now w.
  split; [reflexivity|].
  unfold CronSend.POST, CronSend.handleSendNotifications.
  destruct (secretMismatch cronSecret authHeader) eqn:E.
  - left. split; [apply secretMismatch_true; exact E|reflexivity].
  - right. split.
    { intro H. apply secretMismatch_true in H. congruence. }
    unfold tryCatch, getDb. cbv zeta. unfold bind at 1.
    unfold bind, ret.
    match goal with
    | |- context [CronSend.sendEach F mailer (db w) ?u now ?l w] =>
        destruct (CronSend.sendEach F mailer (db w) u now l w)
          as [w1 [rs|e]]
    end.
    + do 2 eexists. split; [reflexivity|left; reflexivity].
    + do 2 eexists. split; [reflexivity|right; reflexivity].
Qed.

(* ================================================================== *)
(** ** Route protection *)

Lemma prefix_cons : forall a p s,
  String.prefix (String a p) s = true ->
  exists s', s = String a s' /\ String.prefix p s' = true.
Proof.
  intros a p s H. destruct s as [|b s]; [discriminate|].
  cbn in H. destruct (ascii_dec a b) as [<-|]; [|discriminate].
  exists s. split; [reflexivity|exact H].
Qed.

Lemma prefix_empty : forall s, String.prefix "" s = true.
Proof. intros [|a s]; reflexivity. Qed.

Lemma prefix_append : forall p s,
  String.prefix p s = true -> exists rest, s = p ++ rest.
Proof.
  induction p as [|a p IH]; intros s H.
  - exists s. reflexivity.
  - apply prefix_cons in H. destruct H as (s' & -> & H).
    destruct (IH s' H) as [rest ->]. exists rest. reflexivity.
Qed.

Lemma session_verified : forall jwtVerify cookie session,
  Middleware.getSessionFromCookie jwtVerify cookie = Some session ->
  exists token,
    cookie = Some token /\ token <> "" /\ jwtVerify token = Some session.
Proof.
  intros jwtVerify cookie session.
  unfold Middleware.getSessionFromCookie, orUndefined.
  destruct cookie as [token|]; [|discriminate].
  destruct (String.eqb_spec token ""); [discriminate|].
  intro H. exists token. repeat split; assumption.
Qed.

(** No public route or prefix applies to a path under "/admin", and
    such a path is not an API path. *)
Lemma admin_paths : forall pathname,
  Middleware.startsWith pathname "/admin" = true ->
  Middleware.startsWith pathname "/api/" = false
  /\ existsb (String.eqb pathname) Middleware.publicRoutes = false
  /\ existsb (Middleware.startsWith pathname) Middleware.publicPrefixes
     = false.
Proof.
  unfold Middleware.startsWith. intros pathname H.
  apply prefix_append in H. destruct H as [rest ->].
  repeat split; reflexivity.
Qed.

(** One [set]: it goes through exactly for an acceptable value, whatever
    the headers were. *)
Lemma headersSet_result : forall headers name value,
  match headersSet headers name value with
  | Ok hs =>
      acceptable value = true
      /\ exists bytes,
           toByteString value = Ok bytes
           /\ hs = (name, normalizeValue bytes)
                     :: filter (fun h => negb (String.eqb (fst h) name))
                          headers
  | Throw _ => acceptable value = false
  end.
Proof.
  intros headers name value. unfold headersSet, acceptable.
  destruct (toByteString value) as [bytes|e]; [|reflexivity].
  cbv zeta. destruct (isHeaderValue (normalizeValue bytes)).
  - split; [reflexivity|]. exists bytes. split; reflexivity.
  - reflexivity.
Qed.

(** The five [set]s: they go through exactly when all five fields are
    acceptable. *)
Lemma withIdentity_result : forall session headers,
  match withIdentity session headers with
  | Ok hs => forallb acceptable (fields session) = true
  | Throw _ => forallb acceptable (fields session) = false
  end.
Proof.
  intros session headers. unfold withIdentity, fields, andThen.
  cbn [forallb].
  repeat match goal with
         | |- context [headersSet ?h ?n ?v] =>
             let H := fresh "H" in
             pose proof (headersSet_result h n v) as H;
             destruct (headersSet h n v);
             [destruct H as [-> _]; cbn [andb]
             |rewrite H; rewrite ?andb_false_r; reflexivity]
         end.
  reflexivity.
Qed.

(** The branch of the middleware that forwards the request. *)
Lemma forwarding : forall session headers,
  andThen (headersSet headers "x-user-id" (Middleware.userId session))
    (fun h1 =>
  andThen (headersSet h1 "x-user-email" (Middleware.email session))
    (fun h2 =>
  andThen (headersSet h2 "x-user-role" (Middleware.role session))
    (fun h3 =>
  andThen (headersSet h3 "x-user-firstname" (Middleware.firstName session))
    (fun h4 =>
  andThen (headersSet h4 "x-user-lastname" (Middleware.lastName session))
    (fun h5 => Ok (Middleware.nextWith h5))))))
  = andThen (withIdentity session headers)
      (fun hs => Ok (Middleware.nextWith hs)).
Proof.
  intros session headers. unfold withIdentity, andThen.
  repeat match goal with
         | |- context [match headersSet ?h ?n ?v with _ => _ end] =>
             destruct (headersSet h n v); [|reflexivity]
         end.
  reflexivity.
Qed.

(** What the middleware does once it has a session. *)
Lemma middleware_with_session :
  forall jwtVerify pathname cookie headers session,
    existsb (String.eqb pathname) Middleware.publicRoutes = false ->
    existsb (Middleware.startsWith pathname) Middleware.publicPrefixes
    = false ->
    Middleware.getSessionFromCookie jwtVerify cookie = Some session ->
    Middleware.middleware jwtVerify pathname cookie headers
    = let pass :=
        if existsb (Middleware.startsWith pathname)
             Middleware.protectedApiPrefixes
           || Middleware.startsWith pathname "/admin"
           || Middleware.startsWith pathname "/clinician"
        then andThen (withIdentity session headers)
               (fun hs => Ok (Middleware.nextWith hs))
        else Ok Middleware.next in
      if Middleware.startsWith pathname "/admin" then
        if negb (jsEqb (Middleware.role session) (js "ADMIN")) then
          if Middleware.startsWith pathname "/api/" then
            Ok (Middleware.jsonError "Forbidden - Admin access required"
                  403)
          else Ok (Middleware.redirect "/clinician/patients" [])
        else pass
      else pass.
Proof.
  intros jwtVerify pathname cookie headers session Hr Hp Hs.
  unfold Middleware.middleware. rewrite Hr, Hp, Hs. cbv zeta.
  rewrite forwarding. reflexivity.
Qed.

Lemma jsEqb_eq : forall a b, jsEqb a b = true <-> a = b.
Proof.
  induction a as [|x a IH]; intros [|y b]; cbn; split; intro H;
    try reflexivity; try discriminate.
  - apply andb_true_iff in H. destruct H as [Hx H].
    apply N.eqb_eq in Hx. apply IH in H. congruence.
  - injection H as -> ->. rewrite N.eqb_refl. cbn. apply IH. reflexivity.
Qed.

(** X22. What the middleware never does.  It never answers 403: the
    branch that would is reached only by a path that starts with both
    "/admin" and "/api/", and there is none; a session whose role is not
    ADMIN is redirected from every "/admin" path to
    "/clinician/patients" instead.  And it never sets the identity
    headers of a request from anything but the payload of a session
    cookie that [jwtVerify] accepted. *)
Theorem middleware_never_forbids :
  forall (jwtVerify : string -> option Middleware.Session)
         (pathname : string) (cookie : option string) (headers : Headers),
    (forall error,
        Middleware.middleware jwtVerify pathname cookie headers
        <> Ok (Middleware.jsonError error 403))
    /\ (forall session,
          Middleware.startsWith pathname "/admin" = true ->
          Middleware.getSessionFromCookie jwtVerify cookie = Some session ->
          Middleware.role session <> js "ADMIN" ->
          Middleware.middleware jwtVerify pathname cookie headers
          = Ok (Middleware.redirect "/clinician/patients" []))
    /\ (forall requestHeaders,
          Middleware.middleware jwtVerify pathname cookie headers
          = Ok (Middleware.nextWith requestHeaders) ->
          exists token session,
            cookie = Some token /\ token <> ""
            /\ jwtVerify token = Some session
            /\ withIdentity session headers = Ok requestHeaders).
Proof.
  intros jwtVerify pathname cookie headers.
  assert (Hpass : forall session (b : bool) r,
            (if b
             then andThen (withIdentity session headers)
                    (fun hs => Ok (Middleware.nextWith hs))
             else Ok Middleware.next) = Ok r ->
            r = Middleware.next
            \/ exists hs, withIdentity session headers = Ok hs
                          /\ r = Middleware.nextWith hs).
  { intros session b r. destruct b.
    - unfold andThen. destruct (withIdentity session headers) as [hs|e];
        [|discriminate].
      intro H. injection H as <-. right. exists hs. split; reflexivity.
    - intro H. injection H as <-. left. reflexivity. }
  assert (Hopen : forall r,
            Middleware.middleware jwtVerify pathname cookie headers = Ok r ->
            (forall hs, r <> Middleware.nextWith hs)
            \/ exists session hs,
                 Middleware.getSessionFromCookie jwtVerify cookie
                 = Some session
                 /\ withIdentity session headers = Ok hs
                 /\ r = Middleware.nextWith hs).
  { intros r H.
    destruct (existsb (String.eqb pathname) Middleware.publicRoutes)
      eqn:Hr.
    { unfold Middleware.middleware in H. rewrite Hr in H.
      injection H as <-. left. discriminate. }
    destruct (existsb (Middleware.startsWith pathname)
                Middleware.publicPrefixes) eqn:Hp.
    { unfold Middleware.middleware in H. rewrite Hr, Hp in H.
      injection H as <-. left. discriminate. }
    destruct (Middleware.getSessionFromCookie jwtVerify cookie)
      as [session|] eqn:Hs.
    2:{ unfold Middleware.middleware in H. rewrite Hr, Hp, Hs in H.
        cbv zeta in H.
        destruct (Middleware.startsWith pathname "/api/");
          injection H as <-; left; discriminate. }
    rewrite (middleware_with_session _ _ _ _ _ Hr Hp Hs) in H.
    cbv zeta in H.
    assert (Hcase : forall b : bool,
              (if b
               then andThen (withIdentity session headers)
                      (fun hs => Ok (Middleware.nextWith hs))
               else Ok Middleware.next) = Ok r ->
              (forall hs, r <> Middleware.nextWith hs)
              \/ exists session0 hs,
                   Some session = Some session0
                   /\ withIdentity session0 headers = Ok hs
                   /\ r = Middleware.nextWith hs).
    { intros b Hb. destruct (Hpass session b r Hb) as [->|(hs & Hw & ->)].
      - left. discriminate.
      - right. exists session, hs. repeat split. exact Hw. }
    destruct (Middleware.startsWith pathname "/admin").
    - destruct (negb (jsEqb (Middleware.role session) (js "ADMIN"))).
      + destruct (Middleware.startsWith pathname "/api/");
          injection H as <-; left; discriminate.
      + exact (Hcase _ H).
    - exact (Hcase _ H). }
  split; [|split].
  - intros error H.
    destruct (existsb (String.eqb pathname) Middleware.publicRoutes)
      eqn:Hr.
    { unfold Middleware.middleware in H. rewrite Hr in H. discriminate. }
    destruct (existsb (Middleware.startsWith pathname)
                Middleware.publicPrefixes) eqn:Hp.
    { unfold Middleware.middleware in H. rewrite Hr, Hp in H.
      discriminate. }
    destruct (Middleware.getSessionFromCookie jwtVerify cookie)
      as [session|] eqn:Hs.
    2:{ unfold Middleware.middleware in H. rewrite Hr, Hp, Hs in H.
        cbv zeta in H.
        destruct (Middleware.startsWith pathname "/api/"); discriminate. }
    rewrite (middleware_with_session _ _ _ _ _ Hr Hp Hs) in H.
    cbv zeta in H.
    destruct (Middleware.startsWith pathname "/admin") eqn:Ea.
    + destruct (admin_paths _ Ea) as [Hapi _]. rewrite Hapi in H.
      destruct (negb (jsEqb (Middleware.role session) (js "ADMIN")));
        [discriminate|].
      destruct (Hpass _ _ _ H) as [Hn|(hs & _ & Hn)]; discriminate.
    + destruct (Hpass _ _ _ H) as [Hn|(hs & _ & Hn)]; discriminate.
  - intros session Ha Hs Hrole.
    destruct (admin_paths _ Ha) as (Hapi & Hr & Hp).
    rewrite (middleware_with_session _ _ _ _ _ Hr Hp Hs). cbv zeta.
    rewrite Ha, Hapi.
    destruct (jsEqb (Middleware.role session) (js "ADMIN")) eqn:E.
    + apply jsEqb_eq in E. contradiction.
    + reflexivity.
  - intros requestHeaders H.
    destruct (Hopen _ H) as [Hn|(session & hs & Hs & Hw & Heq)].
    + exfalso. apply (Hn requestHeaders). reflexivity.
    + injection Heq as <-.
      apply session_verified in Hs. destruct Hs as (token & Hc & Hne & Hv).
      exists token, session. repeat split; assumption.
Qed.

(** X23. Every path under a protected API prefix is guarded, and no
    public route or prefix shadows it.  Without a session cookie that
    verifies the answer is 401.  With one the request is forwarded with
    the identity headers set, provided [Headers] accepts the five fields
    of the session as values; when one of them holds a character above
    255, or a NUL, line feed or carriage return inside, setting it
    throws and so does the middleware. *)
Theorem middleware_guards_protected_api :
  forall (jwtVerify : string -> option Middleware.Session)
         (prefix rest : string) (cookie : option string)
         (headers : Headers),
    In prefix Middleware.protectedApiPrefixes ->
    (Middleware.getSessionFromCookie jwtVerify cookie = None ->
     Middleware.middleware jwtVerify (prefix ++ rest) cookie headers
     = Ok unauthorized)
    /\ (forall session,
          Middleware.getSessionFromCookie jwtVerify cookie = Some session ->
          (forallb acceptable (fields session) = true ->
           exists requestHeaders,
             withIdentity session headers = Ok requestHeaders
             /\ Middleware.middleware jwtVerify (prefix ++ rest) cookie
                  headers
                = Ok (Middleware.nextWith requestHeaders))
          /\ (forallb acceptable (fields session) = false ->
              exists e,
                Middleware.middleware jwtVerify (prefix ++ rest) cookie
                  headers
                = Throw e)).
Proof.
  intros jwtVerify prefix rest cookie headers Hin.
  assert (Hpath :
            existsb (String.eqb (prefix ++ rest)) Middleware.publicRoutes
            = false
            /\ existsb (Middleware.startsWith (prefix ++ rest))
                 Middleware.publicPrefixes = false
            /\ Middleware.startsWith (prefix ++ rest) "/api/" = true
            /\ Middleware.startsWith (prefix ++ rest) "/admin" = false
            /\ existsb (Middleware.startsWith (prefix ++ rest))
                 Middleware.protectedApiPrefixes = true).
  { unfold Middleware.startsWith.
    destruct Hin as [<-|[<-|[<-|[<-|[<-|[]]]]]]; cbn;
      rewrite ?prefix_empty; cbn; rewrite ?orb_true_r; repeat split. }
  destruct Hpath as (Hr & Hp & Hapi & Hadmin & Hprot). split.
  - intro Hs. unfold Middleware.middleware. rewrite Hr, Hp, Hs. cbv zeta.
    rewrite Hapi. reflexivity.
  - intros session Hs.
    rewrite (middleware_with_session _ _ _ _ _ Hr Hp Hs). cbv zeta.
    rewrite Hadmin, Hprot. cbn [orb]. unfold andThen.
    pose proof (withIdentity_result session headers) as Hw.
    destruct (withIdentity session headers) as [hs|e]; split; intro Hacc.
    + exists hs. split; reflexivity.
    + congruence.
    + congruence.
    + exists e. reflexivity.
Qed.

(** X23 for the patient list: requested without a cookie; by Kim,
    whose fields [Headers] takes; and by the clinician whose first name
    starts with U+0141. *)
Lemma middleware_guards_protected_api_witness :
  Middleware.middleware (fun _ => None) ("/api/patients" ++ "?q=a") None []
  = Ok unauthorized
  /\ (exists requestHeaders,
        withIdentity kim [] = Ok requestHeaders
        /\ Middleware.middleware (fun _ => Some kim)
             ("/api/patients" ++ "?q=a") (Some "token") []
           = Ok (Middleware.nextWith requestHeaders))
  /\ (exists e,
        Middleware.middleware (fun _ => Some lukasz)
          ("/api/patients" ++ "?q=a") (Some "token") []
        = Throw e).
Proof.
  split; [|split].
  - exact (proj1 (middleware_guards_protected_api (fun _ => None)
                    "/api/patients" "?q=a" None [] (or_introl eq_refl))
             eq_refl).
  - exact (proj1 (proj2 (middleware_guards_protected_api
                           (fun _ => Some kim) "/api/patients" "?q=a"
                           (Some "token") [] (or_introl eq_refl))
                    kim eq_refl)
             eq_refl).
  - exact (proj2 (proj2 (middleware_guards_protected_api
                           (fun _ => Some lukasz) "/api/patients" "?q=a"
                           (Some "token") [] (or_introl eq_refl))
                    lukasz eq_refl)
             eq_refl).
Defined.

(** X24. The magic-link page and the questionnaire API are open to
    everyone, whatever the cookie; every other path under "/api/" that
    is not an auth endpoint -- the cron routes and the manual send route
    among them -- is answered with 401 unless the request carries a
    session cookie that verifies. *)
Theorem middleware_open_links_closed_api :
  forall (jwtVerify : string -> option Middleware.Session)
         (rest : string) (cookie : option string) (headers : Headers),
    Middleware.middleware jwtVerify ("/q/" ++ rest) cookie headers
    = Ok Middleware.next
    /\ Middleware.middleware jwtVerify ("/api/q/" ++ rest) cookie headers
       = Ok Middleware.next
    /\ (Middleware.startsWith rest "auth/" = false ->
        Middleware.startsWith rest "q/" = false ->
        Middleware.getSessionFromCookie jwtVerify cookie = None ->
        Middleware.middleware jwtVerify ("/api/" ++ rest) cookie headers
        = Ok unauthorized).
Proof.
  intros jwtVerify rest cookie headers.
  split; [unfold Middleware.middleware, Middleware.startsWith; cbn;
          rewrite prefix_empty; reflexivity|].
  split; [unfold Middleware.middleware, Middleware.startsWith; cbn;
          rewrite prefix_empty; reflexivity|].
  unfold Middleware.startsWith. intros Hauth Hq Hs.
  unfold Middleware.middleware, Middleware.startsWith. cbn.
  rewrite Hauth, Hq, Hs, prefix_empty. reflexivity.
Qed.

(* ------------------------------------------------------------------ *)
(** *** Reading the identity back *)

Lemma blank_js : forall v, blank (js v) = String.eqb v "".
Proof. intros [|c v]; reflexivity. Qed.

Lemma get_after_sets : forall (rest : Headers) name value,
  (forall h, In h rest -> String.eqb (fst h) name = false) ->
  match filter (fun h => String.eqb (fst h) name) rest with
  | [] => Some value
  | h :: more =>
      Some (fold_left (fun joined x => joined ++ ", " ++ snd x)
              ((name, value) :: more) (snd h))
  end = Some value.
Proof.
  intros rest name value H. rewrite (filter_none _ _ rest H). reflexivity.
Qed.

(** The five identity headers of a forwarded request hold the fields of
    the session as [Headers] normalized them, and nothing of what the
    client sent under those names. *)
Lemma identity_read_back : forall session headers hs,
  withIdentity session headers = Ok hs ->
  headersGet hs "x-user-id"
  = option_map normalizeValue
      (match toByteString (Middleware.userId session) with
       | Ok b => Some b | Throw _ => None end)
  /\ headersGet hs "x-user-email"
     = option_map normalizeValue
         (match toByteString (Middleware.email session) with
          | Ok b => Some b | Throw _ => None end)
  /\ headersGet hs "x-user-role"
     = option_map normalizeValue
         (match toByteString (Middleware.role session) with
          | Ok b => Some b | Throw _ => None end)
  /\ headersGet hs "x-user-firstname"
     = option_map normalizeValue
         (match toByteString (Middleware.firstName session) with
          | Ok b => Some b | Throw _ => None end)
  /\ headersGet hs "x-user-lastname"
     = option_map normalizeValue
         (match toByteString (Middleware.lastName session) with
          | Ok b => Some b | Throw _ => None end)
  /\ forallb acceptable (fields session) = true.
Proof.
  intros session headers hs H.
  pose proof (withIdentity_result session headers) as Hacc.
  rewrite H in Hacc.
  unfold withIdentity, andThen in H.
  repeat match type of H with
         | context [headersSet ?h ?n ?v] =>
             let R := fresh "R" in
             pose proof (headersSet_result h n v) as R;
             destruct (headersSet h n v); [|discriminate];
             destruct R as (_ & ? & -> & ->)
         end.
  injection H as <-.
  set (rest := filter _ (filter _ (filter _ (filter _ (filter _ headers))))).
  assert (Hrest : forall h, In h rest ->
            String.eqb (fst h) "x-user-id" = false
            /\ String.eqb (fst h) "x-user-email" = false
            /\ String.eqb (fst h) "x-user-role" = false
            /\ String.eqb (fst h) "x-user-firstname" = false
            /\ String.eqb (fst h) "x-user-lastname" = false).
  { intros h Hin. unfold rest in Hin.
    repeat (apply filter_In in Hin;
            let Hn := fresh "Hn" in
            destruct Hin as [Hin Hn]; apply negb_true_iff in Hn).
    repeat split; assumption. }
  unfold headersGet. cbn [filter fst snd String.eqb Ascii.eqb Bool.eqb negb
                          option_map].
  fold rest.
  assert (Hnone : forall name,
            (forall h, In h rest -> String.eqb (fst h) name = false) ->
            filter (fun h : string * string => String.eqb (fst h) name) rest
            = []).
  { intros name Hn. apply filter_none. exact Hn. }
  rewrite (Hnone "x-user-id"), (Hnone "x-user-email"),
    (Hnone "x-user-role"), (Hnone "x-user-firstname"),
    (Hnone "x-user-lastname");
    try (intros h Hin; destruct (Hrest h Hin) as (? & ? & ? & ? & ?);
         assumption).
  cbn [fold_left]. repeat split. exact Hacc.
Qed.

(** A request goes on with replaced headers only for a session, and the
    headers are then those the five [set]s gave. *)
Lemma forwarded_session :
  forall jwtVerify pathname cookie headers requestHeaders,
    Middleware.middleware jwtVerify pathname cookie headers
    = Ok (Middleware.nextWith requestHeaders) ->
    exists session,
      Middleware.getSessionFromCookie jwtVerify cookie = Some session
      /\ withIdentity session headers = Ok requestHeaders.
Proof.
  intros jwtVerify pathname cookie headers requestHeaders H.
  destruct (existsb (String.eqb pathname) Middleware.publicRoutes) eqn:Hr;
    [unfold Middleware.middleware in H; rewrite Hr in H; discriminate|].
  destruct (existsb (Middleware.startsWith pathname)
              Middleware.publicPrefixes) eqn:Hp;
    [unfold Middleware.middleware in H; rewrite Hr, Hp in H; discriminate|].
  destruct (Middleware.getSessionFromCookie jwtVerify cookie)
    as [session|] eqn:Hs.
  2:{ unfold Middleware.middleware in H. rewrite Hr, Hp, Hs in H.
      cbv zeta in H.
      destruct (Middleware.startsWith pathname "/api/"); discriminate. }
  exists session. split; [reflexivity|].
  rewrite (middleware_with_session _ _ _ _ _ Hr Hp Hs) in H. cbv zeta in H.
  assert (Hpass : forall b : bool,
            (if b
             then andThen (withIdentity session headers)
                    (fun hs => Ok (Middleware.nextWith hs))
             else Ok Middleware.next)
            = Ok (Middleware.nextWith requestHeaders) ->
            withIdentity session headers = Ok requestHeaders).
  { intros [|]; [|discriminate]. unfold andThen.
    destruct (withIdentity session headers); [|discriminate].
    intro E. injection E as ->. reflexivity. }
  destruct (Middleware.startsWith pathname "/admin").
  - destruct (negb (jsEqb (Middleware.role session) (js "ADMIN"))).
    + destruct (Middleware.startsWith pathname "/api/"); discriminate.
    + exact (Hpass _ H).
  - exact (Hpass _ H).
Qed.

Lemma asHeader_bytes : forall value bytes,
  toByteString value = Ok bytes ->
  asHeader value = js (normalizeValue bytes).
Proof. intros value bytes H. unfold asHeader. rewrite H. reflexivity. Qed.

(** What [getAuthenticatedUser] returns on a request the middleware
    forwarded for [session]. *)
Lemma getAuthenticatedUser_forwarded :
  forall jwtVerify cookie headers requestHeaders session,
    Middleware.getSessionFromCookie jwtVerify cookie = Some session ->
    withIdentity session headers = Ok requestHeaders ->
    Auth.getAuthenticatedUser jwtVerify requestHeaders cookie
    = Some (if existsb blank (fields (readBack session))
            then session else readBack session).
Proof.
  intros jwtVerify cookie headers requestHeaders session Hs Hw.
  destruct (identity_read_back session headers requestHeaders Hw)
    as (Hu & He & Hr & Hf & Hl & Hacc).
  unfold Auth.getAuthenticatedUser, Auth.verifyJWT. cbv zeta.
  rewrite Hu, He, Hr, Hf, Hl.
  unfold Middleware.getSessionFromCookie in Hs.
  unfold fields, readBack.
  cbn [Middleware.userId Middleware.email Middleware.role
       Middleware.firstName Middleware.lastName existsb].
  unfold fields in Hacc. cbn [forallb] in Hacc. unfold acceptable in Hacc.
  destruct (toByteString (Middleware.userId session)) as [u|] eqn:Eu;
    [|discriminate].
  destruct (toByteString (Middleware.email session)) as [e|] eqn:Ee;
    [|rewrite andb_false_r in Hacc; discriminate].
  destruct (toByteString (Middleware.role session)) as [r|] eqn:Er;
    [|rewrite ?andb_false_r in Hacc; discriminate].
  destruct (toByteString (Middleware.firstName session)) as [f|] eqn:Ef;
    [|rewrite ?andb_false_r in Hacc; discriminate].
  destruct (toByteString (Middleware.lastName session)) as [l|] eqn:El;
    [|rewrite ?andb_false_r in Hacc; discriminate].
  rewrite (asHeader_bytes _ _ Eu), (asHeader_bytes _ _ Ee),
    (asHeader_bytes _ _ Er), (asHeader_bytes _ _ Ef),
    (asHeader_bytes _ _ El).
  rewrite !blank_js. cbn [option_map]. unfold orUndefined at 1 2 3 4 5.
  destruct (String.eqb (normalizeValue u) ""); [exact Hs|].
  destruct (String.eqb (normalizeValue e) ""); [exact Hs|].
  destruct (String.eqb (normalizeValue r) ""); [exact Hs|].
  destruct (String.eqb (normalizeValue f) ""); [exact Hs|].
  destruct (String.eqb (normalizeValue l) ""); [exact Hs|].
  reflexivity.
Qed.

(** X25. Behind the middleware identity cannot be forged: whenever the
    middleware lets a request through with its headers replaced, what
    [getAuthenticatedUser] returns on the request the handler receives
    is made of the session of the verified cookie alone, whatever
    "x-user-" headers the client had sent.  It is the session as the
    headers hand it back -- each field without the whitespace at its
    ends, which [set] removes -- or, when a field comes back empty, the
    payload of the cookie itself.  So it is the session exactly when no
    field of it has whitespace at an end. *)
Theorem identity_headers_cannot_be_forged :
  forall (jwtVerify : string -> option Middleware.Session)
         (pathname : string) (cookie : option string)
         (headers requestHeaders : Headers),
    Middleware.middleware jwtVerify pathname cookie headers
    = Ok (Middleware.nextWith requestHeaders) ->
    exists session,
      Middleware.getSessionFromCookie jwtVerify cookie = Some session
      /\ Auth.getAuthenticatedUser jwtVerify requestHeaders cookie
         = Some (if existsb blank (fields (readBack session))
                 then session else readBack session)
      /\ (readBack session = session ->
          Auth.getAuthenticatedUser jwtVerify requestHeaders cookie
          = Some session).
Proof.
  intros jwtVerify pathname cookie headers requestHeaders H.
  destruct (forwarded_session _ _ _ _ _ H) as (session & Hs & Hw).
  exists session. split; [exact Hs|].
  pose proof (getAuthenticatedUser_forwarded _ _ _ _ _ Hs Hw) as Hg.
  split; [exact Hg|].
  intro Hsame. rewrite Hg, Hsame.
  destruct (existsb blank (fields session)); reflexivity.
Qed.

(** X25 at Kim, who sends forged administrator headers with a request
    for the patient list: the handler sees Kim, as a clinician, the
    first name without its space. *)
Lemma identity_headers_cannot_be_forged_witness :
  exists session,
    Middleware.getSessionFromCookie (fun _ => Some kim) (Some "token")
    = Some session
    /\ Auth.getAuthenticatedUser (fun _ => Some kim)
         [("x-user-lastname", "Roe"); ("x-user-firstname", "Kim");
          ("x-user-role", "CLINICIAN"); ("x-user-email", "kim@example.org");
          ("x-user-id", "u-1")]
         (Some "token")
       = Some (if existsb blank (fields (readBack session))
               then session else readBack session)
    /\ (readBack session = session ->
        Auth.getAuthenticatedUser (fun _ => Some kim)
          [("x-user-lastname", "Roe"); ("x-user-firstname", "Kim");
           ("x-user-role", "CLINICIAN"); ("x-user-email", "kim@example.org");
           ("x-user-id", "u-1")]
          (Some "token")
        = Some session).
Proof.
  exact (identity_headers_cannot_be_forged
           (fun _ => Some kim) "/api/patients" (Some "token")
           [("x-user-id", "u-0"); ("x-user-role", "ADMIN")]
           _ eq_refl).
Defined.

(* ================================================================== *)
(** ** The sweep and the link *)

Lemma find_token_map :
  forall (g : MeasureInstance.t -> MeasureInstance.t) l token,
    (forall r, MeasureInstance.token (g r) = MeasureInstance.token r) ->
    find (fun i => cuid_eqb (MeasureInstance.token i) token) (map g l)
    = option_map g
        (find (fun i => cuid_eqb (MeasureInstance.token i) token) l).
Proof.
  intros g l token Hkeep. induction l as [|r l IH]; [reflexivity|].
  cbn [map find]. rewrite Hkeep.
  destruct (cuid_eqb (MeasureInstance.token r) token); [reflexivity|].
  exact IH.
Qed.

(** X26. A link the sweep has expired stays closed: once
    [markExpiredInstances] has run at [now] over an open instance whose
    expiry had passed, every later attempt to open the link and every
    later submission through it, whatever it carries and whatever
    writes fail, is answered with the 400 of an expired link and changes
    nothing. *)
Theorem swept_links_stay_closed :
  forall (F : Faults) (now later : Date) (token : Cuid)
         (headers : RequestHeaders)
         (requestBody : option (option (list Scoring.Answer)))
         (w : World) (instance : MeasureInstance.t),
    findByToken (db w) token = Some instance ->
    isExpirable now instance = true ->
    now <= later ->
    findByToken (db (fst (markExpiredInstances noFaults now w))) token
    = Some (MeasureInstance.markExpired instance)
    /\ Questionnaire.GET F later token headers
         (fst (markExpiredInstances noFaults now w))
       = (fst (markExpiredInstances noFaults now w), Ok linkExpired)
    /\ Questionnaire.POST F later token headers requestBody
         (fst (markExpiredInstances noFaults now w))
       = (fst (markExpiredInstances noFaults now w), Ok linkExpired).
Proof.
  intros F now later token headers requestBody w instance
    Hfind Hexp Hlater.
  set (w' := fst (markExpiredInstances noFaults now w)).
  assert (Hfind' : findByToken (db w') token
                   = Some (MeasureInstance.markExpired instance)).
  { unfold w', markExpiredInstances, prisma_measureInstance_updateMany,
      dbWrite, findByToken.
    cbn [writeFails noFaults fst db measureInstances withInstances].
    rewrite find_token_map.
    - unfold findByToken in Hfind. rewrite Hfind. cbn. rewrite Hexp.
      reflexivity.
    - intro r. destruct (isExpirable now r); reflexivity. }
  assert (Hpast : (MeasureInstance.expiresAt instance <? later) = true).
  { unfold isExpirable in Hexp. apply andb_true_iff in Hexp.
    destruct Hexp as [_ Hlt]. apply Z.ltb_lt in Hlt. apply Z.ltb_lt. lia. }
  split; [exact Hfind'|]. unfold findByToken in Hfind'. split.
  - run_handler Questionnaire.GET. rewrite Hfind'. reflexivity.
  - run_handler Questionnaire.POST. rewrite Hfind'.
    cbn [MeasureInstance.status MeasureInstance.markExpired status_eqb
         MeasureInstance.expiresAt].
    rewrite Hpast. reflexivity.
Qed.

(** X26 for Ann's link, sent to her and valid until day 7: the sweep of
    day 8 closes it, and on day 9 she can neither open it nor submit. *)
Lemma swept_links_stay_closed_witness :
  findByToken
    (db (fst (markExpiredInstances noFaults (Clinic.day 8) (annsLink SENT))))
    "t-x"
  = Some (MeasureInstance.markExpired
            (Clinic.instance "x" SENT (Clinic.day 7)))
  /\ Questionnaire.GET noFaults (Clinic.day 9) "t-x" Clinic.noHeaders
       (fst (markExpiredInstances noFaults (Clinic.day 8) (annsLink SENT)))
     = (fst (markExpiredInstances noFaults (Clinic.day 8) (annsLink SENT)),
        Ok linkExpired)
  /\ Questionnaire.POST noFaults (Clinic.day 9) "t-x" Clinic.noHeaders
       (Some (Some nineAnswers))
       (fst (markExpiredInstances noFaults (Clinic.day 8) (annsLink SENT)))
     = (fst (markExpiredInstances noFaults (Clinic.day 8) (annsLink SENT)),
        Ok linkExpired).
Proof.
  apply (swept_links_stay_closed noFaults (Clinic.day 8) (Clinic.day 9)
           "t-x" Clinic.noHeaders (Some (Some nineAnswers)) (annsLink SENT)
           (Clinic.instance "x" SENT (Clinic.day 7))).
  - reflexivity.
  - reflexivity.
  - vm_compute. discriminate.
Defined.

(* ================================================================== *)
(** ** Reads that write *)

Lemma getDefaultPolicy_db : forall F w,
  db (fst (getDefaultPolicy F w)) = db w
  \/ find isDefault (mbcPolicies (db w)) = None
     /\ db (fst (getDefaultPolicy F w))
        = withPolicies (db w)
            (mbcPolicies (db w) ++ [defaultPolicyData])%list.
Proof.
  intros F w.
  unfold getDefaultPolicy, prisma_mbcPolicy_findUnique,
    prisma_mbcPolicy_create, dbWrite, getDb.
  unfold bind, ret. cbv beta iota.
  change (fun p : MbcPolicy.t => (MbcPolicy.name p =? "default")%string)
    with isDefault.
  destruct (find isDefault (mbcPolicies (db w))); [left; reflexivity|].
  destruct (writeFails F (writes w)); [left; reflexivity|].
  right. split; reflexivity.
Qed.

(** X27. The two read operations write at most one thing.
    [getDueAssessments] and the compliance report leave the database
    exactly as it was when a policy named "default" is stored; when
    there is none, the only change they can make is to store the
    built-in policy. *)
Theorem reads_store_at_most_the_policy :
  forall (F : Faults) (now : Date) (clinicianId : option string)
         (days : option Z) (w : World),
    (db (fst (getDueAssessments F now w)) = db w
     \/ find isDefault (mbcPolicies (db w)) = None
        /\ db (fst (getDueAssessments F now w))
           = withPolicies (db w)
               (mbcPolicies (db w) ++ [defaultPolicyData])%list)
    /\ (db (fst (Compliance.GET F now clinicianId days w)) = db w
        \/ find isDefault (mbcPolicies (db w)) = None
           /\ db (fst (Compliance.GET F now clinicianId days w))
              = withPolicies (db w)
                  (mbcPolicies (db w) ++ [defaultPolicyData])%list).
Proof.
  intros F now clinicianId days w.
  assert (Hdue : forall w0, fst (getDueAssessments F now w0)
                            = fst (getDefaultPolicy F w0)).
  { intro w0. unfold getDueAssessments, bind.
    destruct (getDefaultPolicy F w0) as [w1 [p|e]]; reflexivity. }
  split.
  - rewrite Hdue. apply getDefaultPolicy_db.
  - assert (Hget : fst (Compliance.GET F now clinicianId days w)
                   = fst (getDueAssessments F now w)).
    { unfold Compliance.GET, prisma_measureInstance_count, getDb.
      unfold bind, ret. cbv beta iota zeta.
      destruct (getDueAssessments F now w) as [w1 [lists|e]];
        [|reflexivity].
      unfold liftResult. cbn [fst].
      destruct (orUndefined clinicianId) as [c|].
      - destruct (filterByClinician (db w1) c (fst lists));
          [|reflexivity].
        destruct (filterByClinician (db w1) c (snd lists));
          [|reflexivity].
        destruct (overdueItems (db w1) now _); reflexivity.
      - destruct (overdueItems (db w1) now _); reflexivity. }
    rewrite Hget, Hdue. apply getDefaultPolicy_db.
Qed.
